(** * Pothole Patrol backend: report intake, review and the points ledger

    A shallow embedding of [core/models.py], [core/utils.py], [core/api.py],
    [core/admin.py] and [core/validators.py], the properties of the
    specification checked against it, and further properties of the
    code.

    Conventions of the embedding.
    - A database table is a finite map from primary key to row. [save]
      writes every model field of the in-memory instance under its key.
      Primary keys and [unique=True] columns are enforced, and so is the
      sign check of a positive-integer column where a caller's value is
      stored ([severity]); column widths ([max_length], [max_digits]) are
      not (the SQLite back end of [settings/dev.py] does not enforce
      them).
    - A Python exception that leaves a function is a [Raised] outcome. The
      views and admin actions run outside any transaction
      ([ATOMIC_REQUESTS] is not set), so the writes made before an
      exception stay in the store.
    - [FloatField] values and Python floats are binary64 ([PrimFloat]).
      [DateTimeField] values are microseconds since the epoch, in [Z].
    - What lives outside the repository (the [math] module, Pillow,
      [base64], [hashlib], [strftime], the airtime HTTP API) is a field of
      [External]; random draws ([uuid4]) and the clock are inputs. *)

From Stdlib Require Import ZArith Floats String Ascii List.
From Stdlib Require Import HexadecimalString.
From stdpp Require Import gmap strings list pretty sorting.

#[local] Open Scope string_scope.
#[local] Open Scope Z_scope.
#[local] Set Warnings "-inexact-float".

(** ** core/models.py *)

Module UserProfile.
(** [class UserProfile(TimeStampedModel)], keyed by its one-to-one [user]. *)
Record t := mk {
  user : Z;
  phone : string;
  is_verified : bool;
  is_protected : bool;
  points : Z;
  created_at : Z;
  updated_at : Z;
}.

Definition with_points (v : Z) (p : t) : t :=
  mk (user p) (phone p) (is_verified p) (is_protected p) v
     (created_at p) (updated_at p).

Definition with_updated_at (v : Z) (p : t) : t :=
  mk (user p) (phone p) (is_verified p) (is_protected p) (points p)
     (created_at p) v.
End UserProfile.

(** [class RegionChoices(models.TextChoices)]: the values, in order. *)
Definition RegionChoices : list string :=
  [ "Greater Accra"; "Ashanti"; "Eastern"; "Western"; "Western North";
    "Central"; "Volta"; "Oti"; "Northern"; "Savannah"; "North East";
    "Upper East"; "Upper West"; "Bono"; "Bono East"; "Ahafo" ].

Module PotholeReport.
Inductive Status := PENDING | APPROVED | REJECTED.

Definition Status_eqb (a b : Status) : bool :=
  match a, b with
  | PENDING, PENDING | APPROVED, APPROVED | REJECTED, REJECTED => true
  | _, _ => false
  end.

(** [class PotholeReport(TimeStampedModel)]; [id] is the UUID primary
    key (its hex form), [user] the nullable owner, [image] the stored
    file name. *)
Record t := mk {
  id : string;
  user : option Z;
  image : string;
  image_hash : string;
  latitude : float;
  longitude : float;
  region : string;
  severity : Z;
  ai_valid : bool;
  ai_score : option float;
  status : Status;
  is_spam : bool;
  submitted_ip : option string;
  device_id : string;
  is_synced : bool;
  approved_by : option Z;
  approved_at : option Z;
  rejection_reason : string;
  points_awarded : Z;
  created_at : Z;
  updated_at : Z;
}.

Definition with_status (v : Status) (r : t) : t :=
  mk (id r) (user r) (image r) (image_hash r) (latitude r) (longitude r)
     (region r) (severity r) (ai_valid r) (ai_score r) v (is_spam r)
     (submitted_ip r) (device_id r) (is_synced r) (approved_by r)
     (approved_at r) (rejection_reason r) (points_awarded r)
     (created_at r) (updated_at r).

Definition with_approved_by (v : option Z) (r : t) : t :=
  mk (id r) (user r) (image r) (image_hash r) (latitude r) (longitude r)
     (region r) (severity r) (ai_valid r) (ai_score r) (status r) (is_spam r)
     (submitted_ip r) (device_id r) (is_synced r) v
     (approved_at r) (rejection_reason r) (points_awarded r)
     (created_at r) (updated_at r).

Definition with_approved_at (v : option Z) (r : t) : t :=
  mk (id r) (user r) (image r) (image_hash r) (latitude r) (longitude r)
     (region r) (severity r) (ai_valid r) (ai_score r) (status r) (is_spam r)
     (submitted_ip r) (device_id r) (is_synced r) (approved_by r)
     v (rejection_reason r) (points_awarded r)
     (created_at r) (updated_at r).

Definition with_rejection_reason (v : string) (r : t) : t :=
  mk (id r) (user r) (image r) (image_hash r) (latitude r) (longitude r)
     (region r) (severity r) (ai_valid r) (ai_score r) (status r) (is_spam r)
     (submitted_ip r) (device_id r) (is_synced r) (approved_by r)
     (approved_at r) v (points_awarded r)
     (created_at r) (updated_at r).

Definition with_points_awarded (v : Z) (r : t) : t :=
  mk (id r) (user r) (image r) (image_hash r) (latitude r) (longitude r)
     (region r) (severity r) (ai_valid r) (ai_score r) (status r) (is_spam r)
     (submitted_ip r) (device_id r) (is_synced r) (approved_by r)
     (approved_at r) (rejection_reason r) v
     (created_at r) (updated_at r).

Definition with_updated_at (v : Z) (r : t) : t :=
  mk (id r) (user r) (image r) (image_hash r) (latitude r) (longitude r)
     (region r) (severity r) (ai_valid r) (ai_score r) (status r) (is_spam r)
     (submitted_ip r) (device_id r) (is_synced r) (approved_by r)
     (approved_at r) (rejection_reason r) (points_awarded r)
     (created_at r) v.
End PotholeReport.

Module RedemptionRequest.
Inductive Status := PENDING | APPROVED | REJECTED.

Definition Status_eqb (a b : Status) : bool :=
  match a, b with
  | PENDING, PENDING | APPROVED, APPROVED | REJECTED, REJECTED => true
  | _, _ => false
  end.

(** [class RedemptionRequest(TimeStampedModel)]: these are all of its
    columns. [id] is the automatic integer key; [airtime_amount] is the
    decimal amount in whole currency units, as [redeem_points] computes
    it. The model declares no [rejection_reason] column. *)
Record t := mk {
  id : Z;
  user : Z;
  points : Z;
  airtime_amount : Z;
  status : Status;
  mtn_phone : string;
  reference : string;
  approved_by : option Z;
  approved_at : option Z;
  created_at : Z;
  updated_at : Z;
}.

Definition with_status (v : Status) (r : t) : t :=
  mk (id r) (user r) (points r) (airtime_amount r) v (mtn_phone r)
     (reference r) (approved_by r) (approved_at r) (created_at r)
     (updated_at r).

Definition with_reference (v : string) (r : t) : t :=
  mk (id r) (user r) (points r) (airtime_amount r) (status r) (mtn_phone r)
     v (approved_by r) (approved_at r) (created_at r) (updated_at r).

Definition with_approved_by (v : option Z) (r : t) : t :=
  mk (id r) (user r) (points r) (airtime_amount r) (status r) (mtn_phone r)
     (reference r) v (approved_at r) (created_at r) (updated_at r).

Definition with_approved_at (v : option Z) (r : t) : t :=
  mk (id r) (user r) (points r) (airtime_amount r) (status r) (mtn_phone r)
     (reference r) (approved_by r) v (created_at r) (updated_at r).

Definition with_updated_at (v : Z) (r : t) : t :=
  mk (id r) (user r) (points r) (airtime_amount r) (status r) (mtn_phone r)
     (reference r) (approved_by r) (approved_at r) (created_at r) v.

(** A Python instance of the model: the row, and the attributes set on
    the object that are not columns ([save] does not write those). *)
Record instance := mk_instance {
  row : t;
  attr_rejection_reason : option string;
}.
End RedemptionRequest.

(** ** The store and the outcome of running code against it *)

(** The database tables, the automatic-key counter of the redemption
    table, and Django's cache (value and expiry time per key). *)
Record World := mkWorld {
  profiles : gmap Z UserProfile.t;
  reports : gmap string PotholeReport.t;
  redemptions : gmap Z RedemptionRequest.t;
  redemption_seq : Z;
  cache : gmap string (Z * Z);
}.

Definition with_profiles (v : gmap Z UserProfile.t) (w : World) : World :=
  mkWorld v (reports w) (redemptions w) (redemption_seq w) (cache w).
Definition with_reports (v : gmap string PotholeReport.t) (w : World) : World :=
  mkWorld (profiles w) v (redemptions w) (redemption_seq w) (cache w).
Definition with_redemptions (v : gmap Z RedemptionRequest.t) (w : World) : World :=
  mkWorld (profiles w) (reports w) v (redemption_seq w) (cache w).
Definition with_redemption_seq (v : Z) (w : World) : World :=
  mkWorld (profiles w) (reports w) (redemptions w) v (cache w).
Definition with_cache (v : gmap string (Z * Z)) (w : World) : World :=
  mkWorld (profiles w) (reports w) (redemptions w) (redemption_seq w) v.

Inductive PyExn :=
| AttributeError            (* [None.profile] *)
| RelatedObjectDoesNotExist (* a user without a profile row *)
| IntegrityError            (* primary key or unique column already taken *)
| ZeroDivisionError
| ValueError
| MathError                 (* raised by the [math] module or float power *)
| ImageError.               (* raised by Pillow on data it cannot read *)

Inductive Outcome (A : Type) :=
| Ok (a : A)
| Raised (e : PyExn).
Arguments Ok {A} a.
Arguments Raised {A} e.

(** Code that only computes: a value or an exception. *)
Definition bindO {A B} (m : Outcome A) (k : A -> Outcome B) : Outcome B :=
  match m with
  | Ok a => k a
  | Raised e => Raised e
  end.

Definition orRaise {A} (e : PyExn) (o : option A) : Outcome A :=
  match o with
  | Some a => Ok a
  | None => Raised e
  end.

(** Code that reads and writes the store: state passing, and the state
    reached when an exception is raised is kept. *)
Definition M (A : Type) : Type := World -> Outcome A * World.

Definition ret {A} (a : A) : M A := fun w => (Ok a, w).
Definition raise {A} (e : PyExn) : M A := fun w => (Raised e, w).
Definition bind {A B} (m : M A) (k : A -> M B) : M B :=
  fun w =>
    match m w with
    | (Ok a, w') => k a w'
    | (Raised e, w') => (Raised e, w')
    end.
Definition lift {A} (o : Outcome A) : M A := fun w => (o, w).
Definition gets {A} (f : World -> A) : M A := fun w => (Ok (f w), w).
Definition modify (f : World -> World) : M unit := fun w => (Ok tt, f w).

Declare Scope py_scope.
Delimit Scope py_scope with py.
Notation "x <- m ;; k" := (bind m (fun x => k))
  (at level 90, m at next level, right associativity) : py_scope.
Notation "m ;;; k" := (bind m (fun _ => k))
  (at level 90, right associativity) : py_scope.
Notation "x <~ m ;; k" := (bindO m (fun x => k))
  (at level 90, m at next level, right associativity) : py_scope.

(** [for x in xs: body x], in order. *)
Fixpoint for_each {A} (xs : list A) (body : A -> M unit) : M unit :=
  match xs with
  | [] => ret tt
  | x :: rest => bind (body x) (fun _ => for_each rest body)
  end.

(** ** What the code calls outside the repository *)

(** The JSON answer of the airtime API as [send_airtime_to_user] reads
    it: the value under ["errorMessage"] (if the key is there) and, for
    each entry under ["responses"], the value under ["requestId"] (if the
    key is there). *)
Record AirtimeReply := mkAirtimeReply {
  errorMessage : option string;
  responses : list (option string);
}.

Record External := mkExternal {
  (** module [math]; [None]: the call raises *)
  math_radians : float -> float;
  math_sin : float -> option float;
  math_cos : float -> option float;
  math_sqrt : float -> option float;
  math_atan2 : float -> float -> option float;
  (** [x ** n] on a float *)
  float_pow : float -> Z -> option float;
  (** [base64.b64decode]; [None]: it raises *)
  b64decode : string -> option string;
  (** [list(Image.open(f).convert("L").resize((32, 32), flt).getdata())]:
      the grey levels, one byte each; [None]: Pillow raises *)
  image_grey_32x32 : string -> option (list Byte.byte);
  (** [hashlib.sha256(s.encode()).hexdigest()] *)
  sha256_hexdigest : string -> string;
  (** [t.strftime("%Y%m%d")] *)
  strftime_Ymd : Z -> string;
  (** [settings.AT_USERNAME], [settings.AT_API_KEY] ([None]: not defined),
      and [getattr(settings, "AI_BYPASS", False)] *)
  AT_USERNAME : option string;
  AT_API_KEY : option string;
  AI_BYPASS : bool;
  (** [requests.post(url, ...).json()] for the [n]-th payout of an
      action, given the phone and the amount; [None]: it raises *)
  airtime_post : nat -> string -> float -> option AirtimeReply;
}.

(** ** Python built-ins used by the code *)

Module Py.
(** [s.split(sep)[0]] *)
Fixpoint split_first (sep : ascii) (s : string) : string :=
  match s with
  | EmptyString => EmptyString
  | String a rest =>
      if Ascii.eqb a sep then EmptyString else String a (split_first sep rest)
  end.

(** [s.split(sep)[-1]], reading [s] left to right: [acc] is what
    follows the last separator seen so far. *)
Fixpoint split_last_from (sep : ascii) (acc s : string) : string :=
  match s with
  | EmptyString => acc
  | String a rest =>
      if Ascii.eqb a sep then split_last_from sep EmptyString rest
      else split_last_from sep (acc ++ String a EmptyString) rest
  end.
Definition split_last (sep : ascii) (s : string) : string :=
  split_last_from sep EmptyString s.

(** [str.isspace] on the code points below 256. *)
Definition isspace (a : ascii) : bool :=
  let n := N_of_ascii a in
  ((9 <=? n) && (n <=? 13) || (28 <=? n) && (n <=? 32)
   || (n =? 133) || (n =? 160))%N.

Fixpoint lstrip (s : string) : string :=
  match s with
  | EmptyString => EmptyString
  | String a rest => if isspace a then lstrip rest else s
  end.

Fixpoint rstrip (s : string) : string :=
  match s with
  | EmptyString => EmptyString
  | String a rest =>
      match rstrip rest with
      | EmptyString => if isspace a then EmptyString else String a EmptyString
      | kept => String a kept
      end
  end.

Definition strip (s : string) : string := rstrip (lstrip s).

Definition upper_char (a : ascii) : ascii :=
  let n := N_of_ascii a in
  if ((97 <=? n) && (n <=? 122))%N then ascii_of_N (n - 32) else a.

Fixpoint upper (s : string) : string :=
  match s with
  | EmptyString => EmptyString
  | String a rest => String (upper_char a) (upper rest)
  end.

Definition lower_char (a : ascii) : ascii :=
  let n := N_of_ascii a in
  if ((65 <=? n) && (n <=? 90))%N then ascii_of_N (n + 32) else a.

Fixpoint lower (s : string) : string :=
  match s with
  | EmptyString => EmptyString
  | String a rest => String (lower_char a) (lower rest)
  end.

(** [s[:n]] *)
Fixpoint prefix (n : nat) (s : string) : string :=
  match n, s with
  | S n', String a rest => String a (prefix n' rest)
  | _, _ => EmptyString
  end.

(** [sub in s] *)
Fixpoint contains (sub s : string) : bool :=
  String.prefix sub s
  || match s with
     | EmptyString => false
     | String _ rest => contains sub rest
     end.

(** [str(x)] of an optional string inside an f-string. *)
Definition str_opt (o : option string) : string :=
  match o with
  | Some s => s
  | None => "None"
  end.

(** [float(n)] for an integer below [2^53]. *)
Definition float_of_Z (n : Z) : float := PrimFloat.of_uint63 (Uint63.of_Z n).

(** [a / b] on integers below [2^53]. *)
Definition truediv (a b : Z) : Outcome float :=
  if b =? 0 then Raised ZeroDivisionError
  else Ok (float_of_Z a / float_of_Z b)%float.

(** [int(bits, 2)] on a string of binary digits, most significant
    first; [acc] is the value of the digits read. *)
Fixpoint int_base2_from (acc : Z) (bits : string) : Outcome Z :=
  match bits with
  | EmptyString => Ok acc
  | String "0"%char rest => int_base2_from (2 * acc) rest
  | String "1"%char rest => int_base2_from (2 * acc + 1) rest
  | String _ _ => Raised ValueError
  end.
Definition int_base2 (bits : string) : Outcome Z :=
  match bits with
  | EmptyString => Raised ValueError
  | _ => int_base2_from 0 bits
  end.

(** [f"{n:0x}"] for [n >= 0]: lower-case hexadecimal, no prefix. *)
Definition format_x (n : Z) : string :=
  NilZero.string_of_uint (N.to_hex_uint (Z.to_N n)).

Fixpoint zeros (n : nat) : string :=
  match n with
  | O => EmptyString
  | S n' => String "0"%char (zeros n')
  end.

(** [s.zfill(width)] on a string without a sign. *)
Definition zfill (width : nat) (s : string) : string :=
  zeros (width - String.length s) ++ s.
End Py.

(** The part of a Django request the code reads: the authenticated user
    ([request.auth], [request.user]) and three entries of [request.META]. *)
Record Request := mkRequest {
  auth : Z;
  HTTP_X_FORWARDED_FOR : option string;
  REMOTE_ADDR : option string;
  HTTP_USER_AGENT : option string;
}.

(** [Model.save()] of an existing instance: [auto_now] stamps
    [updated_at], then every column is written under the primary key. The
    stamped instance is returned. *)
Definition save_profile (now : Z) (p : UserProfile.t) : M UserProfile.t :=
  let p' := UserProfile.with_updated_at now p in
  bind (modify (fun w => with_profiles (<[UserProfile.user p' := p']> (profiles w)) w))
       (fun _ => ret p').

Definition save_report (now : Z) (r : PotholeReport.t) : M PotholeReport.t :=
  let r' := PotholeReport.with_updated_at now r in
  bind (modify (fun w => with_reports (<[PotholeReport.id r' := r']> (reports w)) w))
       (fun _ => ret r').

(** Does a row other than [self] hold [ref] in its unique column? *)
Definition reference_taken (ref : string) (self : Z)
    (tbl : gmap Z RedemptionRequest.t) : bool :=
  existsb (fun kr => negb (fst kr =? self)
                     && String.eqb (RedemptionRequest.reference (snd kr)) ref)
          (map_to_list tbl).

Definition save_redemption (now : Z) (r : RedemptionRequest.t)
    : M RedemptionRequest.t :=
  fun w =>
    let r' := RedemptionRequest.with_updated_at now r in
    if reference_taken (RedemptionRequest.reference r') (RedemptionRequest.id r')
         (redemptions w)
    then (Raised IntegrityError, w)
    else (Ok r', with_redemptions (<[RedemptionRequest.id r' := r']> (redemptions w)) w).

(** [user.profile] and [report.user.profile]. *)
Definition profile_of (user : Z) : M UserProfile.t :=
  fun w => (orRaise RelatedObjectDoesNotExist (profiles w !! user), w).

(** The rows of a table, as a queryset over the whole table yields them. *)
Definition all_rows {K} `{Countable K} {V} (tbl : gmap K V) : list V :=
  snd <$> map_to_list tbl.

(** The rows of an admin action's queryset, read when the loop starts:
    the selected keys that are in the table. *)
Definition selected_rows {K} `{Countable K} {V} (selected : list K)
    (tbl : gmap K V) : list V :=
  omap (fun k => tbl !! k) selected.

(** ** core/utils.py *)

Module Utils.
Section WithExternal.
Context (ext : External).

#[local] Open Scope py_scope.

(** ["".join("1" if px >= avg_pixel else "0" for px in pixels)] *)
Fixpoint threshold_bits (avg_pixel : float) (pixels : list Byte.byte) : string :=
  match pixels with
  | [] => EmptyString
  | px :: rest =>
      String (if (avg_pixel <=? Py.float_of_Z (Z.of_N (Byte.to_N px)))%float
              then "1"%char else "0"%char)
             (threshold_bits avg_pixel rest)
  end.

(** [sum(pixels)] *)
Definition sum_pixels (pixels : list Byte.byte) : Z :=
  fold_left (fun acc px => acc + Z.of_N (Byte.to_N px)) pixels 0.

Definition calculate_phash (image_file : string) : Outcome string :=
  pixels <~ orRaise ImageError (image_grey_32x32 ext image_file) ;;
  avg_pixel <~ Py.truediv (sum_pixels pixels) (Z.of_nat (length pixels)) ;;
  let bits := threshold_bits avg_pixel pixels in
  n <~ Py.int_base2 bits ;;
  let hex_hash := Py.format_x n in
  Ok (Py.zfill 64 hex_hash).

Definition haversine_distance (lat1 lon1 lat2 lon2 : float) : Outcome float :=
  let R := Py.float_of_Z 6371000 in
  let phi1 := math_radians ext lat1 in
  let phi2 := math_radians ext lat2 in
  let dphi := math_radians ext (lat2 - lat1)%float in
  let dlambda := math_radians ext (lon2 - lon1)%float in
  sin_dphi <~ orRaise MathError (math_sin ext (dphi / 2)%float) ;;
  sin_dphi2 <~ orRaise MathError (float_pow ext sin_dphi 2) ;;
  cos_phi1 <~ orRaise MathError (math_cos ext phi1) ;;
  cos_phi2 <~ orRaise MathError (math_cos ext phi2) ;;
  sin_dlambda <~ orRaise MathError (math_sin ext (dlambda / 2)%float) ;;
  sin_dlambda2 <~ orRaise MathError (float_pow ext sin_dlambda 2) ;;
  let a := (sin_dphi2 + cos_phi1 * cos_phi2 * sin_dlambda2)%float in
  sqrt_a <~ orRaise MathError (math_sqrt ext a) ;;
  sqrt_1a <~ orRaise MathError (math_sqrt ext (1 - a)%float) ;;
  angle <~ orRaise MathError (math_atan2 ext sqrt_a sqrt_1a) ;;
  Ok (R * (2 * angle))%float.

(** [PotholeReport.objects.filter(user=user, created_at__gte=time_limit)] *)
Definition recent_reports_filter (user time_limit : Z) (r : PotholeReport.t) : bool :=
  match PotholeReport.user r with
  | Some u => u =? user
  | None => false
  end
  && (time_limit <=? PotholeReport.created_at r).

(** The loop of [detect_gps_spam]; [nearby_count] is the counter. *)
Fixpoint count_nearby (lat lon : float) (threshold_m : Z)
    (recent_reports : list PotholeReport.t) (nearby_count : Z) : Outcome Z :=
  match recent_reports with
  | [] => Ok nearby_count
  | r :: rest =>
      dist <~ haversine_distance lat lon (PotholeReport.latitude r)
                                 (PotholeReport.longitude r) ;;
      count_nearby lat lon threshold_m rest
        (if (dist <=? Py.float_of_Z threshold_m)%float
         then nearby_count + 1 else nearby_count)
  end.

(** [detect_gps_spam(user, lat, lon, threshold_m=100, recent_minutes=5)];
    [now] is [timezone.now()]. *)
Definition detect_gps_spam (user : Z) (lat lon : float)
    (threshold_m recent_minutes : Z) (now : Z) (w : World) : Outcome bool :=
  let time_limit := now - recent_minutes * 60 * 1000000 in
  let recent_reports :=
    List.filter (recent_reports_filter user time_limit) (all_rows (reports w)) in
  nearby_count <~ count_nearby lat lon threshold_m recent_reports 0 ;;
  Ok (3 <=? nearby_count).

Definition ai_validate_pothole (image_file : string) : bool * float :=
  if AI_BYPASS ext then (true, 0.99%float) else (true, 0.95%float).

(** [cache.get(key, default)] and [cache.set(key, value, timeout)] at
    time [now]; an entry is gone once its expiry time is reached. *)
Definition cache_get (now : Z) (key : string) (default : Z)
    (c : gmap string (Z * Z)) : Z :=
  match c !! key with
  | Some (value, expires) => if now <? expires then value else default
  | None => default
  end.

Definition cache_set (now : Z) (key : string) (value timeout : Z)
    (c : gmap string (Z * Z)) : gmap string (Z * Z) :=
  <[key := (value, now + timeout * 1000000)]> c.

Definition rate_limit (key : string) (limit window_seconds : Z) (now : Z) : M bool :=
  let cache_key := "rl:" ++ key in
  count <- gets (fun w => cache_get now cache_key 0 (cache w)) ;;
  if limit <=? count then ret true
  else
    modify (fun w => with_cache (cache_set now cache_key (count + 1) window_seconds (cache w)) w) ;;;
    ret false.

Definition get_client_ip (request : Request) : option string :=
  match HTTP_X_FORWARDED_FOR request with
  | Some (String a rest as xff) => Some (Py.strip (Py.split_first ","%char xff))
  | _ => REMOTE_ADDR request
  end.

Definition generate_device_fingerprint (request : Request) : string :=
  let ua := default EmptyString (HTTP_USER_AGENT request) in
  let ip := get_client_ip request in
  let raw := ua ++ ":" ++ Py.str_opt ip in
  sha256_hexdigest ext raw.

(** [award_report_points(report)]; returns the instance as the call
    leaves it. *)
Definition award_report_points (now : Z) (report : PotholeReport.t)
    : M PotholeReport.t :=
  if 0 <? PotholeReport.points_awarded report then ret report
  else
    user <- lift (orRaise AttributeError (PotholeReport.user report)) ;;
    profile <- profile_of user ;;
    let profile := UserProfile.with_points (UserProfile.points profile + 50) profile in
    save_profile now profile ;;;
    let report := PotholeReport.with_points_awarded 50 report in
    save_report now report.

(** [send_airtime_to_user(phone, amount)], as the [n]-th payout. *)
Definition send_airtime_to_user (n : nat) (phone : string) (amount : float)
    : Outcome (bool * string) :=
  username <~ orRaise AttributeError (AT_USERNAME ext) ;;
  api_key <~ orRaise AttributeError (AT_API_KEY ext) ;;
  match airtime_post ext n phone amount with
  | None => Ok (false, EmptyString)
  | Some data =>
      match errorMessage data with
      | Some (String _ _) => Ok (false, EmptyString)
      | _ =>
          match responses data with
          | entry :: _ => Ok (true, default EmptyString entry)
          | [] => Ok (false, EmptyString)
          end
      end
  end.

(** [generate_reference()]; [uuid_hex] is [uuid.uuid4().hex]. *)
Definition generate_reference (now : Z) (uuid_hex : string) : string :=
  let date_part := strftime_Ymd ext now in
  let random_part := Py.upper (Py.prefix 6 uuid_hex) in
  "RDM-" ++ date_part ++ "-" ++ random_part.
End WithExternal.
End Utils.

(** ** core/schemas.py *)

Record ReportSubmitRequest := mkReportSubmitRequest {
  image_base64 : string;
  latitude : float;
  longitude : float;
  region : string;
  severity : Z;
  device_id : option string;
}.

Record RedeemRequest := mkRedeemRequest {
  points : Z;
  mtn_phone : string;
}.

(** What a view returns: [(code, ErrorResponse(success=False, message))],
    a [ReportSubmitResponse] or a [RedeemResponse]. *)
Inductive Response :=
| ErrorResponse (code : Z) (message : string)
| ReportSubmitResponse (id : string) (status : PotholeReport.Status) (message : string)
| RedeemResponse (id : Z) (status : RedemptionRequest.Status) (message : string).

(** ** core/api.py *)

Module Api.
Section WithExternal.
Context (ext : External).

#[local] Open Scope py_scope.

(** [PotholeReport.objects.filter(image_hash=image_hash).exists()] *)
Definition image_hash_exists (image_hash : string) (w : World) : bool :=
  existsb (fun r => String.eqb (PotholeReport.image_hash r) image_hash)
          (all_rows (reports w)).

(** [PotholeReport.objects.create(...)] with the keyword arguments of
    [submit_report]; the other columns take their defaults. [pk] is the
    [uuid4] drawn for [id]. [severity] is a [PositiveSmallIntegerField]
    fed by the caller: the insert fails on a negative value. *)
Definition create_report (now : Z) (pk : string) (user : Z) (image image_hash : string)
    (payload : ReportSubmitRequest) (ai_valid : bool) (ai_score : float)
    (is_spam : bool) (submitted_ip : option string) (device_id : string)
    : M PotholeReport.t :=
  fun w =>
    let r := PotholeReport.mk pk (Some user) image image_hash
               (latitude payload) (longitude payload) (region payload)
               (severity payload) ai_valid (Some ai_score)
               PotholeReport.PENDING is_spam submitted_ip device_id true
               None None EmptyString 0 now now in
    if severity payload <? 0 then (Raised IntegrityError, w)
    else
      match reports w !! pk with
      | Some _ => (Raised IntegrityError, w)
      | None => (Ok r, with_reports (<[pk := r]> (reports w)) w)
      end.

(** [submit_report(request, payload)]; [now] is the clock, [uuid_file]
    and [uuid_pk] the two [uuid4] draws (file name and primary key). *)
Definition submit_report (request : Request) (payload : ReportSubmitRequest)
    (now : Z) (uuid_file uuid_pk : string) : M Response :=
  let user := auth request in
  let client_ip := Utils.get_client_ip request in
  limited <- Utils.rate_limit ("rep:user:" ++ pretty user) 3 60 now ;;
  if limited : bool then ret (ErrorResponse 429 "Too many reports. Slow down.")
  else
  limited <- Utils.rate_limit ("rep:ip:" ++ Py.str_opt client_ip) 10 60 now ;;
  if limited : bool then ret (ErrorResponse 429 "Too many reports from this IP.")
  else
  spam <- (fun w => (Utils.detect_gps_spam ext user (latitude payload)
                       (longitude payload) 100 5 now w, w)) ;;
  if spam : bool then
    ret (ErrorResponse 400 "Too many reports around the same location in a short time.")
  else
  if negb (existsb (String.eqb (region payload)) RegionChoices) then
    ret (ErrorResponse 400 "Invalid region.")
  else
  let base64_data := Py.split_last ","%char (image_base64 payload) in
  match b64decode ext base64_data with
  | None => ret (ErrorResponse 400 "Invalid image data.")
  | Some raw_image =>
      let image_file := raw_image in
      image_hash <- lift (Utils.calculate_phash ext image_file) ;;
      exists_ <- gets (image_hash_exists image_hash) ;;
      if exists_ : bool then ret (ErrorResponse 400 "Duplicate pothole image.")
      else
      let '(ai_valid, ai_score) := Utils.ai_validate_pothole ext image_file in
      let device_id :=
        match device_id payload with
        | Some (String _ _ as d) => d
        | _ => Utils.generate_device_fingerprint ext request
        end in
      let filename := "pothole_" ++ uuid_file ++ ".jpg" in
      report <- create_report now uuid_pk user filename image_hash payload
                  ai_valid ai_score (negb ai_valid) client_ip device_id ;;
      ret (ReportSubmitResponse (PotholeReport.id report)
             (PotholeReport.status report)
             "Report submitted successfully and is pending review.")
  end.

(** [RedemptionRequest.objects.create(...)]: the next automatic key,
    the default status, and [reference] from its default
    [generate_reference] ([uuid_hex] is its [uuid4] draw). *)
Definition create_redemption (now : Z) (uuid_hex : string) (user points
    airtime_amount : Z) (mtn_phone : string) : M RedemptionRequest.t :=
  fun w =>
    let pk := redemption_seq w + 1 in
    let r := RedemptionRequest.mk pk user points airtime_amount
               RedemptionRequest.PENDING mtn_phone
               (Utils.generate_reference ext now uuid_hex) None None now now in
    if reference_taken (RedemptionRequest.reference r) pk (redemptions w)
    then (Raised IntegrityError, w)
    else (Ok r, with_redemption_seq pk
                  (with_redemptions (<[pk := r]> (redemptions w)) w)).

Definition redeem_points (request : Request) (payload : RedeemRequest)
    (now : Z) (uuid_hex : string) : M Response :=
  let user := auth request in
  profile <- profile_of user ;;
  let points := points payload in
  if points <=? 0 then ret (ErrorResponse 400 "Points must be positive.")
  else if negb (points mod 500 =? 0) then
    ret (ErrorResponse 400 "Redemptions must be in blocks of 500.")
  else if UserProfile.points profile <? points then
    ret (ErrorResponse 400 "Insufficient points.")
  else
    let airtime_amount := (points / 500) * 5 in
    redemption <- create_redemption now uuid_hex user points airtime_amount
                    (mtn_phone payload) ;;
    ret (RedeemResponse (RedemptionRequest.id redemption)
           (RedemptionRequest.status redemption)
           "Redemption request submitted successfully.").
End WithExternal.
End Api.

(** ** core/admin.py *)

Module Admin.
Section WithExternal.
Context (ext : External).

#[local] Open Scope py_scope.

(** The body of the loop of [approve_reports], for one [report] of the
    queryset; returns the instance as the iteration leaves it. *)
Definition approve_reports_body (admin_user now : Z) (report : PotholeReport.t)
    : M PotholeReport.t :=
  if negb (PotholeReport.Status_eqb (PotholeReport.status report) PotholeReport.PENDING)
  then ret report
  else if negb (PotholeReport.ai_valid report) then
    let report := PotholeReport.with_status PotholeReport.REJECTED report in
    let report := PotholeReport.with_rejection_reason
                    "AI rejected this image as non-pothole." report in
    save_report now report
  else
    let report := PotholeReport.with_status PotholeReport.APPROVED report in
    let report := PotholeReport.with_approved_at (Some now) report in
    let report := PotholeReport.with_approved_by (Some admin_user) report in
    report <- save_report now report ;;
    Utils.award_report_points now report.

(** [approve_reports(modeladmin, request, queryset)]; [queryset] is
    given by the keys it selects. *)
Definition approve_reports (request : Request) (queryset : list string)
    (now : Z) : M unit :=
  let admin_user := auth request in
  rows <- gets (fun w => selected_rows queryset (reports w)) ;;
  for_each rows (fun report =>
    approve_reports_body admin_user now report ;;; ret tt).

Definition reject_reports_body (now : Z) (report : PotholeReport.t)
    : M PotholeReport.t :=
  let report := PotholeReport.with_status PotholeReport.REJECTED report in
  let report :=
    match PotholeReport.rejection_reason report with
    | EmptyString => PotholeReport.with_rejection_reason "Rejected by admin." report
    | _ => report
    end in
  save_report now report.

Definition reject_reports (request : Request) (queryset : list string)
    (now : Z) : M unit :=
  rows <- gets (fun w => selected_rows queryset (reports w)) ;;
  for_each rows (fun report => reject_reports_body now report ;;; ret tt).

(** The body of the loop of [approve_redemption] for the [n]-th row of
    the queryset; returns the instance as the iteration leaves it. *)
Definition approve_redemption_body (admin_user now : Z) (n : nat)
    (redemption : RedemptionRequest.t) : M RedemptionRequest.instance :=
  if negb (RedemptionRequest.Status_eqb (RedemptionRequest.status redemption)
             RedemptionRequest.PENDING)
  then ret (RedemptionRequest.mk_instance redemption None)
  else
    sent <- lift (Utils.send_airtime_to_user ext n
                    (RedemptionRequest.mtn_phone redemption)
                    (Py.float_of_Z (RedemptionRequest.airtime_amount redemption))) ;;
    let '(success, reference) := sent in
    if success : bool then
      let redemption := RedemptionRequest.with_status RedemptionRequest.APPROVED redemption in
      let redemption := RedemptionRequest.with_reference reference redemption in
      let redemption := RedemptionRequest.with_approved_by (Some admin_user) redemption in
      let redemption := RedemptionRequest.with_approved_at (Some now) redemption in
      profile <- profile_of (RedemptionRequest.user redemption) ;;
      let profile :=
        UserProfile.with_points
          (Z.max 0 (UserProfile.points profile - RedemptionRequest.points redemption))
          profile in
      save_profile now profile ;;;
      saved <- save_redemption now redemption ;;
      ret (RedemptionRequest.mk_instance saved None)
    else
      let redemption := RedemptionRequest.with_status RedemptionRequest.REJECTED redemption in
      saved <- save_redemption now redemption ;;
      ret (RedemptionRequest.mk_instance saved (Some "Airtime API error. Try again.")).

Fixpoint approve_redemption_loop (admin_user now : Z) (n : nat)
    (rows : list RedemptionRequest.t) : M unit :=
  match rows with
  | [] => ret tt
  | redemption :: rest =>
      approve_redemption_body admin_user now n redemption ;;;
      approve_redemption_loop admin_user now (S n) rest
  end.

Definition approve_redemption (request : Request) (queryset : list Z)
    (now : Z) : M unit :=
  let admin_user := auth request in
  rows <- gets (fun w => selected_rows queryset (redemptions w)) ;;
  approve_redemption_loop admin_user now 0 rows.
End WithExternal.
End Admin.

(** ** core/schemas.py: what the listing views return *)

Module PotholeMapItem.
Record t := mk {
  id : string;
  region : string;
  latitude : float;
  longitude : float;
  severity : Z;
  created_at : Z;
}.
End PotholeMapItem.

Module PotholeReportOut.
Record t := mk {
  id : string;
  user : option string;
  region : string;
  latitude : float;
  longitude : float;
  severity : Z;
  ai_valid : bool;
  ai_score : option float;
  status : PotholeReport.Status;
  is_spam : bool;
  created_at : Z;
  points_awarded : Z;
}.
End PotholeReportOut.

Module RedemptionOut.
Record t := mk {
  id : Z;
  points : Z;
  airtime_amount : float;
  status : RedemptionRequest.Status;
  mtn_phone : string;
  reference : option string;
  created_at : Z;
  approved_at : option Z;
}.
End RedemptionOut.

(** ** core/api.py: the listing views *)

Module ApiLists.



Section WithUsers.
(** The [username] column of the User table, by primary key. *)
Context (username : Z -> string).

End WithUsers.

End ApiLists.

(** ** Module [re]: the patterns of core/validators.py and how they match *)

Module Re.
(** The syntax the two patterns use. A group, capturing or not, is its
    content. *)
Inductive t :=
| Bol                            (* [^] *)
| Eol                            (* [$] *)
| Chars (cls : ascii -> bool)    (* a character, a class or an escape *)
| Seq (r1 r2 : t)
| Alt (r1 r2 : t)                (* [r1|r2] *)
| Lookahead (r : t)              (* [(?=r)] *)
| Repeat (lo hi : nat) (r : t).  (* [r{lo,hi}] *)

(** A matcher is asked at a position, with the rest of the subject, and
    with what has to match after it. *)
Definition matcher : Type := nat -> string -> (nat -> string -> bool) -> bool.

Fixpoint repeat_matcher (m : matcher) (lo hi : nat) : matcher :=
  fun pos s k =>
    match hi with
    | O => match lo with O => k pos s | S _ => false end
    | S hi' =>
        m pos s (fun pos' s' => repeat_matcher m (Nat.pred lo) hi' pos' s' k)
        || match lo with O => k pos s | S _ => false end
    end.

(** Without flags: [^] matches at the start of the subject, [$] at its
    end and before a newline that ends it. *)
Fixpoint matches (r : t) (pos : nat) (s : string) (k : nat -> string -> bool)
    {struct r} : bool :=
  match r with
  | Bol => Nat.eqb pos 0 && k pos s
  | Eol =>
      match s with
      | EmptyString => k pos s
      | String c EmptyString => Ascii.eqb c "010" && k pos s
      | String _ _ => false
      end
  | Chars cls =>
      match s with
      | EmptyString => false
      | String c rest => cls c && k (S pos) rest
      end
  | Seq r1 r2 => matches r1 pos s (fun pos' s' => matches r2 pos' s' k)
  | Alt r1 r2 => matches r1 pos s k || matches r2 pos s k
  | Lookahead r' => matches r' pos s (fun _ _ => true) && k pos s
  | Repeat lo hi r' => repeat_matcher (matches r') lo hi pos s k
  end.

(** [pattern.search(s)]: is there a match starting somewhere in [s]? *)
Fixpoint search_from (r : t) (pos : nat) (s : string) : bool :=
  matches r pos s (fun _ _ => true)
  || match s with
     | EmptyString => false
     | String _ rest => search_from r (S pos) rest
     end.

Definition search (r : t) (s : string) : bool := search_from r 0 s.
End Re.

(** ** core/validators.py

    A [str] is the string of its code points, all below 256. *)

Module Validators.

(** [s.lower()] *)
Definition lower_char (a : ascii) : ascii :=
  let n := N_of_ascii a in
  if ((65 <=? n) && (n <=? 90) || (192 <=? n) && (n <=? 214)
      || (216 <=? n) && (n <=? 222))%N
  then ascii_of_N (n + 32) else a.

Fixpoint lower (s : string) : string :=
  match s with
  | EmptyString => EmptyString
  | String a rest => String (lower_char a) (lower rest)
  end.

(** [s.replace(" ", "")] *)
Fixpoint remove_spaces (s : string) : string :=
  match s with
  | EmptyString => EmptyString
  | String a rest =>
      if Ascii.eqb a " " then remove_spaces rest else String a (remove_spaces rest)
  end.

(** [value or ""] *)
Definition or_empty (value : option string) : string := default EmptyString value.

Definition in_range (lo hi c : ascii) : bool :=
  ((N_of_ascii lo <=? N_of_ascii c) && (N_of_ascii c <=? N_of_ascii hi))%N.

(** [[a-z0-9]], [[._]], [[0-9]] and [\d] *)
Definition lower_alnum (c : ascii) : bool := in_range "a" "z" c || in_range "0" "9" c.
Definition dot_underscore (c : ascii) : bool := Ascii.eqb c "." || Ascii.eqb c "_".
Definition digit (c : ascii) : bool := in_range "0" "9" c.

(** One literal character. *)
Definition lit (a : ascii) : Re.t := Re.Chars (Ascii.eqb a).

(** [^[a-z0-9](?:[a-z0-9]|[._](?=[a-z0-9])){1,23}[a-z0-9]$] *)
Definition USERNAME_REGEX : Re.t :=
  Re.Seq Re.Bol
    (Re.Seq (Re.Chars lower_alnum)
       (Re.Seq
          (Re.Repeat 1 23
             (Re.Alt (Re.Chars lower_alnum)
                (Re.Seq (Re.Chars dot_underscore)
                   (Re.Lookahead (Re.Chars lower_alnum)))))
          (Re.Seq (Re.Chars lower_alnum) Re.Eol))).

Definition RESERVED_USERNAMES : gset string :=
  list_to_set
  [ "ghanagov"; "ghana"; "ghanapolice"; "gaf"; "ecg"; "ecgghana";
    "attorneygeneral"; "parliamentgh"; "nationalsecuritygh";
    "ghanacybersecurity"; "mocgh"; "nanaakufoaddo"; "johndramanimahama";
    "bawumia"; "jdm"; "johnmahama"; "samgeorge"; "samuelgeorge"; "harunai";
    "mtn"; "mtnghana"; "vodafone"; "vodafoneghana"; "airteltigo"; "melcom";
    "kasapreko"; "guinnessghana"; "goldfields"; "gcb"; "ecobank";
    "ecobankghana"; "citinewsroom"; "adomtv"; "utvghana"; "joynews";
    "ghonetv"; "sarkodie"; "shattawale"; "stonebwoy"; "blacksherrif";
    "blacko"; "kingpromise"; "kidi"; "kuamieugene"; "kwesiarthur";
    "asamoahgyan"; "babyjet"; "michaelessien"; "andreayew"; "thomaspartey";
    "mensahotabil"; "archbishopduncanwilliams"; "bishopdag"; "asantehene";
    "otumfuo"; "gaaman"; "mantse"; "okyehene"; "nananom"; "admin"; "root";
    "system"; "support"; "help"; "moderator"; "administrator"; "staff";
    "api"; "backend"; "frontend"; "dashboard"; "login"; "logout"; "signup";
    "settings"; "superuser"; "owner"; "official"; "verified"; "koboateng" ].

(** What a validator does: return, or raise [ValidationError] with a
    code. *)
Inductive Validation (A : Type) :=
| Valid (a : A)
| ValidationError (code : string).
Arguments Valid {A} a.
Arguments ValidationError {A} code.

(** [RegexValidator(regex=..., code=...)(value)] *)
Definition RegexValidator (regex : Re.t) (code : string) (value : string)
    : Validation unit :=
  if Re.search regex value then Valid tt else ValidationError code.

Definition username_pattern_validator : string -> Validation unit :=
  RegexValidator USERNAME_REGEX "invalid_username".

Definition validate_username (value : option string) : Validation string :=
  let username := Py.strip (lower (or_empty value)) in
  if bool_decide (username ∈ RESERVED_USERNAMES) then
    ValidationError "reserved_username"
  else
    match username_pattern_validator username with
    | Valid _ => Valid username
    | ValidationError code => ValidationError code
    end.

(** [^(?:0|\+233)(2[0-9]|5[0-9])\d{7}$] *)
Definition GH_PHONE_REGEX : Re.t :=
  Re.Seq Re.Bol
    (Re.Seq
       (Re.Alt (lit "0")
          (Re.Seq (lit "+") (Re.Seq (lit "2") (Re.Seq (lit "3") (lit "3")))))
       (Re.Seq
          (Re.Alt (Re.Seq (lit "2") (Re.Chars digit))
                  (Re.Seq (lit "5") (Re.Chars digit)))
          (Re.Seq (Re.Repeat 7 7 (Re.Chars digit)) Re.Eol))).

Definition ghana_phone_validator : string -> Validation unit :=
  RegexValidator GH_PHONE_REGEX "invalid_ghana_phone".

Definition validate_ghana_phone (value : option string) : Validation string :=
  let phone := remove_spaces (Py.strip (or_empty value)) in
  match ghana_phone_validator phone with
  | Valid _ => Valid phone
  | ValidationError code => ValidationError code
  end.

(** [User.save]: the name that is stored. *)
Definition User_save_username (username : string) : string :=
  match username with
  | EmptyString => username
  | _ => Py.strip (lower username)
  end.
End Validators.

(** ** The specification's words, as definitions *)

Module Spec.
Section WithExternal.
Context (ext : External).

(** Section 4.2: a Report counts towards a spam cluster of [user] at
    ([lat], [lon]) when it is the user's own, was created within the
    last 5 minutes, and lies within 100 meters of the point under the
    haversine distance. *)
Definition own (user : Z) (r : PotholeReport.t) : bool :=
  match PotholeReport.user r with
  | Some u => u =? user
  | None => false
  end.

Definition within_last_5_minutes (now : Z) (r : PotholeReport.t) : bool :=
  now - 5 * 60 * 1000000 <=? PotholeReport.created_at r.

(** Section 4.2, "great-circle distance (haversine formula, Earth
    radius 6,371,000 m)". With [phi1], [phi2] the two latitudes in
    radians and [dphi], [dlambda] the differences of the latitudes and of
    the longitudes in radians,
      [hav theta = sin^2 (theta / 2)],
      [a = hav dphi + cos phi1 * cos phi2 * hav dlambda],
      [d = R * c] with [c = 2 * atan2 (sqrt a, sqrt (1 - a))],
    in binary64 and with the functions of the [math] library; the
    distance is undefined where one of them is. *)
Definition earth_radius : float := 6371000%float.

Definition hav (theta : float) : option float :=
  match math_sin ext (theta / 2)%float with
  | Some s => float_pow ext s 2
  | None => None
  end.

Definition central_angle (a : float) : option float :=
  match math_sqrt ext a, math_sqrt ext (1 - a)%float with
  | Some y, Some x =>
      match math_atan2 ext y x with
      | Some t => Some (2 * t)%float
      | None => None
      end
  | _, _ => None
  end.

Definition haversine (lat1 lon1 lat2 lon2 : float) : option float :=
  match hav (math_radians ext (lat2 - lat1)%float),
        math_cos ext (math_radians ext lat1),
        math_cos ext (math_radians ext lat2),
        hav (math_radians ext (lon2 - lon1)%float) with
  | Some hav_dphi, Some cos_phi1, Some cos_phi2, Some hav_dlambda =>
      match central_angle (hav_dphi + cos_phi1 * cos_phi2 * hav_dlambda)%float with
      | Some c => Some (earth_radius * c)%float
      | None => None
      end
  | _, _, _, _ => None
  end.

Definition within_100_meters (lat lon : float) (r : PotholeReport.t) : bool :=
  match haversine lat lon (PotholeReport.latitude r) (PotholeReport.longitude r) with
  | Some dist => (dist <=? 100)%float
  | None => false
  end.

Definition cluster_size (user : Z) (lat lon : float) (now : Z) (w : World) : nat :=
  length (List.filter
            (fun r => own user r && within_last_5_minutes now r
                      && within_100_meters lat lon r)
            (all_rows (reports w))).

(** The distance from the point to every Report of the user's last 5
    minutes is defined. *)
Definition distances_defined (user : Z) (lat lon : float) (now : Z) (w : World) : Prop :=
  forall r, In r (all_rows (reports w)) ->
    own user r = true -> within_last_5_minutes now r = true ->
    exists dist, haversine lat lon (PotholeReport.latitude r)
                   (PotholeReport.longitude r) = Some dist.
End WithExternal.

(** Section 3: a RedemptionRequest "has no reference". *)
Definition no_reference (r : RedemptionRequest.t) : bool :=
  String.eqb (RedemptionRequest.reference r) EmptyString.
End Spec.

(** ** Test doubles and sample data for the examples *)

Module Sample.
(** Stand-ins for the outside world: a small-angle [math] module, an
    image reader that knows one image (all white), and an airtime API
    that accepts every payout. *)
Definition ext : External := {|
  math_radians := fun x => (x * 0.017453292519943295)%float;
  math_sin := fun x => Some x;
  math_cos := fun _ => Some 1%float;
  math_sqrt := fun x => Some (PrimFloat.sqrt x);
  math_atan2 := fun y x => Some (y / x)%float;
  float_pow := fun x _ => Some (x * x)%float;
  b64decode := fun s => Some s;
  image_grey_32x32 := fun s =>
    if String.eqb s "white" then Some (repeat Byte.xff 1024%nat) else None;
  sha256_hexdigest := fun s => "sha256:" ++ s;
  strftime_Ymd := fun _ => "20240101";
  AT_USERNAME := Some "sandbox";
  AT_API_KEY := Some "key";
  AI_BYPASS := false;
  airtime_post := fun n _ _ =>
    Some (mkAirtimeReply None [Some ("ATXid_" ++ pretty n)]);
|}.

(** The same, with the airtime API unreachable. *)
Definition ext_payout_down : External := {|
  math_radians := math_radians ext;
  math_sin := math_sin ext;
  math_cos := math_cos ext;
  math_sqrt := math_sqrt ext;
  math_atan2 := math_atan2 ext;
  float_pow := float_pow ext;
  b64decode := b64decode ext;
  image_grey_32x32 := image_grey_32x32 ext;
  sha256_hexdigest := sha256_hexdigest ext;
  strftime_Ymd := strftime_Ymd ext;
  AT_USERNAME := AT_USERNAME ext;
  AT_API_KEY := AT_API_KEY ext;
  AI_BYPASS := AI_BYPASS ext;
  airtime_post := fun _ _ _ => None;
|}.

Definition tester : Z := 7.
Definition staff : Z := 1.

Definition request_of (user : Z) : Request :=
  mkRequest user None (Some "10.0.0.5") (Some "okhttp").

Definition profile (balance : Z) : UserProfile.t :=
  UserProfile.mk tester "0244000000" true false balance 0 0.

(** A store holding only [tester]'s profile. *)
Definition world (balance : Z) : World :=
  mkWorld {[ tester := profile balance ]} ∅ ∅ 0 ∅.

Definition report (pk : string) (created : Z) (valid : bool)
    (st : PotholeReport.Status) (awarded : Z) : PotholeReport.t :=
  PotholeReport.mk pk (Some tester) "pothole_a.jpg" "00ff" 5.6037%float
    (-0.1870)%float "Greater Accra" 5 valid (Some 0.95%float) st (negb valid)
    (Some "10.0.0.5") "device" true None None EmptyString awarded created created.

Definition world_with_reports (rs : list PotholeReport.t) : World :=
  with_reports (list_to_map ((fun r => (PotholeReport.id r, r)) <$> rs)) (world 0).

Definition report_at (pk : string) (owner : Z) (lat lon : float) (created : Z)
    : PotholeReport.t :=
  PotholeReport.mk pk (Some owner) "pothole_a.jpg" pk lat lon "Greater Accra" 3
    true (Some 0.95%float) PotholeReport.PENDING false (Some "10.0.0.5")
    "device" true None None EmptyString 0 created created.

(** [tester] reported three times at the same spot within the last
    five minutes of time [1000000000]. *)
Definition busy_spot : World :=
  world_with_reports
    [ report_at "a" tester 5.6037%float (-0.1870)%float 900000000;
      report_at "b" tester 5.6037%float (-0.1870)%float 950000000;
      report_at "c" tester 5.6037%float (-0.1870)%float 990000000 ].

(** Two recent Reports of [tester] at the spot, and three that do not
    count: one a degree of latitude away, one six minutes old, one of
    another user. *)
Definition quiet_spot : World :=
  world_with_reports
    [ report_at "a" tester 5.6037%float (-0.1870)%float 900000000;
      report_at "b" tester 5.6037%float (-0.1870)%float 950000000;
      report_at "c" tester 6.6037%float (-0.1870)%float 990000000;
      report_at "d" tester 5.6037%float (-0.1870)%float 640000000;
      report_at "e" staff 5.6037%float (-0.1870)%float 990000000 ].

Definition submission (image_base64 : string) : ReportSubmitRequest :=
  mkReportSubmitRequest image_base64 5.6037%float (-0.1870)%float
    "Greater Accra" 5 None.

Definition redemption (pk points : Z) (ref : string) : RedemptionRequest.t :=
  RedemptionRequest.mk pk tester points (points / 500 * 5)
    RedemptionRequest.PENDING "0244000000" ref None None 0 0.

Definition world_with_redemptions (balance : Z) (rs : list RedemptionRequest.t) : World :=
  with_redemption_seq (Z.of_nat (length rs))
    (with_redemptions (list_to_map ((fun r => (RedemptionRequest.id r, r)) <$> rs))
       (world balance)).
End Sample.

(** A user with three recent Reports at one spot and a fourth at the
    antipode of that spot. *)
Module Antipode.
(** A [math] module for the example: [radians], [sqrt] (which raises on a
    negative number) and [x ** 2] are computed as CPython computes them;
    [sin], [cos] and [atan2] answer, on the arguments that occur when the
    distance from (5.5, 0) to itself and to (-5.5, 180) is taken, what
    the C library answers there, and are undefined elsewhere. *)
Definition libm : External := {|
  math_radians := fun x => (x * 0x1.1df46a2529d39p-6)%float;
  math_sin := fun x =>
    if (x =? -0x1.893011f31982ep-4)%float then Some (-0x1.88958e488ed58p-4)%float
    else if (x =? 0x1.921fb54442d18p+0)%float then Some 1%float
    else if (x =? 0)%float then Some 0%float
    else None;
  math_cos := fun x =>
    if (abs x =? 0x1.893011f31982ep-4)%float then Some 0x1.fda4920d197a6p-1%float
    else None;
  math_sqrt := fun x => if (x <? 0)%float then None else Some (PrimFloat.sqrt x);
  math_atan2 := fun y x =>
    if ((y =? 0) && (x =? 1))%float then Some 0%float else None;
  float_pow := fun x n => if n =? 2 then Some (x * x)%float else None;
  b64decode := b64decode Sample.ext;
  image_grey_32x32 := image_grey_32x32 Sample.ext;
  sha256_hexdigest := sha256_hexdigest Sample.ext;
  strftime_Ymd := strftime_Ymd Sample.ext;
  AT_USERNAME := AT_USERNAME Sample.ext;
  AT_API_KEY := AT_API_KEY Sample.ext;
  AI_BYPASS := AI_BYPASS Sample.ext;
  airtime_post := airtime_post Sample.ext;
|}.

Definition world : World :=
  Sample.world_with_reports
    [ Sample.report_at "a" Sample.tester 5.5%float 0%float 900000000;
      Sample.report_at "b" Sample.tester 5.5%float 0%float 950000000;
      Sample.report_at "c" Sample.tester 5.5%float 0%float 990000000;
      Sample.report_at "d" Sample.tester (-5.5)%float 180%float 995000000 ].
End Antipode.

(** Further sample data: a Report whose owner is gone, and an airtime
    API whose answers carry no [requestId]. *)
Module Fixture.
(** A pending valid Report whose owner's account was deleted: the
    foreign key is [on_delete=SET_NULL], so [user] is [None]. *)
Definition orphan (pk : string) : PotholeReport.t :=
  PotholeReport.mk pk None "pothole_a.jpg" "00ff" 5.6037%float (-0.1870)%float
    "Greater Accra" 5 true (Some 0.95%float) PotholeReport.PENDING false
    (Some "10.0.0.5") "device" true None None EmptyString 0 100 100.

(** The ownerless Report ["r9"] and a pending valid Report ["r1"] of
    [Sample.tester], whose balance is 0. *)
Definition review_queue : World :=
  Sample.world_with_reports
    [ orphan "r9"; Sample.report "r1" 100 true PotholeReport.PENDING 0 ].

Definition ext_no_request_id : External := {|
  math_radians := math_radians Sample.ext;
  math_sin := math_sin Sample.ext;
  math_cos := math_cos Sample.ext;
  math_sqrt := math_sqrt Sample.ext;
  math_atan2 := math_atan2 Sample.ext;
  float_pow := float_pow Sample.ext;
  b64decode := b64decode Sample.ext;
  image_grey_32x32 := image_grey_32x32 Sample.ext;
  sha256_hexdigest := sha256_hexdigest Sample.ext;
  strftime_Ymd := strftime_Ymd Sample.ext;
  AT_USERNAME := AT_USERNAME Sample.ext;
  AT_API_KEY := AT_API_KEY Sample.ext;
  AI_BYPASS := AI_BYPASS Sample.ext;
  airtime_post := fun _ _ _ => Some (mkAirtimeReply None [None]);
|}.
(** The settings of the repository: no payout credentials are defined. *)
Definition ext_no_credentials : External := {|
  math_radians := math_radians Sample.ext;
  math_sin := math_sin Sample.ext;
  math_cos := math_cos Sample.ext;
  math_sqrt := math_sqrt Sample.ext;
  math_atan2 := math_atan2 Sample.ext;
  float_pow := float_pow Sample.ext;
  b64decode := b64decode Sample.ext;
  image_grey_32x32 := image_grey_32x32 Sample.ext;
  sha256_hexdigest := sha256_hexdigest Sample.ext;
  strftime_Ymd := strftime_Ymd Sample.ext;
  AT_USERNAME := None;
  AT_API_KEY := None;
  AI_BYPASS := AI_BYPASS Sample.ext;
  airtime_post := airtime_post Sample.ext;
|}.

(** A request that was settled as approved, with the reference [ref]. *)
Definition settled (pk points : Z) (ref : string) : RedemptionRequest.t :=
  RedemptionRequest.with_reference ref
    (RedemptionRequest.with_status RedemptionRequest.APPROVED
       (Sample.redemption pk points ref)).
End Fixture.

(** The rules of core/validators.py, in words. *)
Module Rules.
Fixpoint all_chars (cls : ascii -> bool) (s : string) : bool :=
  match s with
  | EmptyString => true
  | String c rest => cls c && all_chars cls rest
  end.

(** 3 to 25 characters; lower-case letters, digits, dot, underscore;
    starts and ends with a letter or digit; no two dots or underscores
    in a row. *)
Definition username (s : string) : Prop :=
  (3 <= String.length s <= 25)%nat
  /\ all_chars (fun c => Validators.lower_alnum c || Validators.dot_underscore c) s
     = true
  /\ (exists a rest, s = String a rest /\ Validators.lower_alnum a = true)
  /\ (exists front z, s = front ++ String z EmptyString
                      /\ Validators.lower_alnum z = true)
  /\ (forall front c d back,
        s = front ++ String c (String d back) ->
        Validators.dot_underscore c = true ->
        Validators.dot_underscore d = true -> False).

(** 0 or +233, then 2 or 5, then eight digits. *)
Definition ghana_phone (s : string) : Prop :=
  exists prefix d rest,
    s = prefix ++ String d rest
    /\ (prefix = "0" \/ prefix = "+233")
    /\ (d = "2"%char \/ d = "5"%char)
    /\ String.length rest = 8%nat
    /\ all_chars Validators.digit rest = true.

(** Inside a name: every character of [mid] is a letter or digit, or a
    dot or underscore followed (in [mid], or by the head of [rest]) by a
    letter or digit. *)
Definition head_alnum (s : string) : bool :=
  match s with
  | EmptyString => false
  | String d _ => Validators.lower_alnum d
  end.

Fixpoint units_ok (mid rest : string) : bool :=
  match mid with
  | EmptyString => true
  | String c mid' =>
      (Validators.lower_alnum c
       || Validators.dot_underscore c && head_alnum (mid' ++ rest))
      && units_ok mid' rest
  end.
End Rules.

(** Successive calls of the rate limiter. *)
Module Scenario.
(** [[rate_limit(key, limit, window_seconds) for now in times]]: the
    answers of successive calls made at the given times. *)
Fixpoint rate_limit_calls (key : string) (limit window_seconds : Z)
    (times : list Z) : M (list bool) :=
  match times with
  | [] => ret []
  | now :: rest =>
      bind (Utils.rate_limit key limit window_seconds now) (fun limited =>
      bind (rate_limit_calls key limit window_seconds rest) (fun answers =>
      ret (limited :: answers)))
  end.

(** Each time of the list is at or after the previous one, and less than
    [window_seconds] after it. *)
Fixpoint paced (window_seconds : Z) (previous : Z) (times : list Z) : Prop :=
  match times with
  | [] => True
  | now :: rest =>
      previous <= now < previous + window_seconds * 1000000
      /\ paced window_seconds now rest
  end.
End Scenario.

(** Properties a store can have. *)
Module Inv.
(** Every row of the Report table is stored under its own [id]. *)
Definition reports_keyed (w : World) : Prop :=
  forall k r, reports w !! k = Some r -> PotholeReport.id r = k.

(** No balance is negative ([points] is a [PositiveIntegerField]). *)
Definition balances_nonneg (w : World) : Prop :=
  forall u p, profiles w !! u = Some p -> 0 <= UserProfile.points p.


(** Every airtime amount fits its column,
    [DecimalField(max_digits=6, decimal_places=2)]: Django cannot load a
    row with a larger amount. *)
Definition amounts_fit (w : World) : Prop :=
  forall k r, redemptions w !! k = Some r ->
    0 <= RedemptionRequest.airtime_amount r < 10000.
End Inv.

(** What the reject action writes. *)
Module Effect.
(** The row [reject_reports] saves for a Report [r] at time [now]. *)
Definition rejected (now : Z) (r : PotholeReport.t) : PotholeReport.t :=
  let r := PotholeReport.with_status PotholeReport.REJECTED r in
  PotholeReport.with_updated_at now
    (match PotholeReport.rejection_reason r with
     | EmptyString => PotholeReport.with_rejection_reason "Rejected by admin." r
     | _ => r
     end).
End Effect.

(** * Properties *)

(** Unfolds the plumbing of [M] so that a run can be read off. *)
Ltac run :=
  unfold bind, ret, raise, lift, gets, modify, profile_of, save_profile,
    save_report, orRaise; simpl.

(** ** The points ledger: [award_report_points] *)

Section Ledger.

(** Crediting once. For a Report with [points_awarded = 0] whose owner
    has a profile (stored under the owner's key), one call of the award
    operation adds exactly 50 to the owner's balance, sets the Report's
    [points_awarded] (to 50) and saves it; a second call on the same
    Report returns without changing the Report or the store, so the
    balance is unchanged. *)
Theorem award_report_points_once (now now' : Z) (report : PotholeReport.t)
    (w : World) (u : Z) (p : UserProfile.t) :
  PotholeReport.points_awarded report = 0 ->
  PotholeReport.user report = Some u ->
  profiles w !! u = Some p ->
  UserProfile.user p = u ->
  exists report' w' p',
    Utils.award_report_points now report w = (Ok report', w')
    /\ PotholeReport.points_awarded report' = 50
    /\ reports w' !! PotholeReport.id report = Some report'
    /\ profiles w' !! u = Some p'
    /\ UserProfile.points p' = UserProfile.points p + 50
    /\ Utils.award_report_points now' report' w' = (Ok report', w').
Proof.
  intros Hzero Huser Hprofile Hkey.
  unfold Utils.award_report_points at 1.
  rewrite Hzero, Huser. run. rewrite Hprofile. simpl.
  eexists _, _, _. split; [reflexivity|]. simpl.
  repeat split.
  - apply lookup_insert_eq.
  - rewrite Hkey. apply lookup_insert_eq.
  - reflexivity.
Qed.

Lemma award_report_points_once_witness :
  exists report' w' p',
    Utils.award_report_points 10
      (Sample.report "r1" 5 true PotholeReport.APPROVED 0) (Sample.world 120)
    = (Ok report', w')
    /\ PotholeReport.points_awarded report' = 50
    /\ reports w' !! "r1" = Some report'
    /\ profiles w' !! Sample.tester = Some p'
    /\ UserProfile.points p' = 120 + 50
    /\ Utils.award_report_points 30 report' w' = (Ok report', w').
Proof.
  apply (award_report_points_once 10 30
           (Sample.report "r1" 5 true PotholeReport.APPROVED 0)
           (Sample.world 120) Sample.tester (Sample.profile 120));
    vm_compute; reflexivity.
Defined.

(** A Report without an owner cannot be credited: the call raises, and
    nothing is written. *)
Lemma award_report_points_orphan (now : Z) (report : PotholeReport.t) (w : World) :
  PotholeReport.points_awarded report = 0 ->
  PotholeReport.user report = None ->
  Utils.award_report_points now report w = (Raised AttributeError, w).
Proof.
  intros Hzero Huser. unfold Utils.award_report_points.
  rewrite Hzero, Huser. reflexivity.
Qed.

(** C3, on the code: the award operation does not serve every Report
    with [points_awarded = 0]. The owner of a Report is nullable
    ([on_delete=SET_NULL]); for the pending Report ["r9"], whose owner is
    gone, [award_report_points] raises at [report.user.profile]: no
    balance is credited and [points_awarded] stays 0, where the claim has
    one call set it. Reached from the admin action, the exception leaves
    ["r9"] saved as approved with no points awarded, and ends the batch
    before the Report ["r1"] selected with it is looked at. *)
Theorem award_report_points_ownerless_raises :
  let report := Fixture.orphan "r9" in
  let w := Fixture.review_queue in
  reports w !! "r9" = Some report
  /\ PotholeReport.user report = None
  /\ PotholeReport.points_awarded report = 0
  /\ Utils.award_report_points 10 report w = (Raised AttributeError, w)
  /\ exists w' r9 r1,
       Admin.approve_reports (Sample.request_of Sample.staff) ["r9"; "r1"] 20 w
       = (Raised AttributeError, w')
       /\ reports w' !! "r9" = Some r9
       /\ PotholeReport.status r9 = PotholeReport.APPROVED
       /\ PotholeReport.points_awarded r9 = 0
       /\ profiles w' = profiles w
       /\ reports w' !! "r1" = Some r1
       /\ reports w !! "r1" = Some r1
       /\ PotholeReport.status r1 = PotholeReport.PENDING.
Proof. vm_compute. repeat split. eexists _, _, _. repeat split. Qed.

End Ledger.

(** ** The review engine: [approve_reports] and [reject_reports] *)

Section Review.

(** The approve action skips a Report that is not pending: nothing is
    written and the instance is unchanged. *)
Lemma approve_reports_body_decided (admin_user now : Z) (report : PotholeReport.t)
    (w : World) :
  PotholeReport.status report <> PotholeReport.PENDING ->
  Admin.approve_reports_body admin_user now report w = (Ok report, w).
Proof.
  intros Hst. unfold Admin.approve_reports_body.
  destruct (PotholeReport.status report); [congruence | reflexivity | reflexivity].
Qed.

Lemma for_each_skip {A} (rows : list A) (body : A -> M unit) (w : World) :
  (forall x, In x rows -> body x w = (Ok tt, w)) ->
  for_each rows body w = (Ok tt, w).
Proof.
  induction rows as [|x rest IH]; intros Hskip; [reflexivity|].
  simpl. unfold bind. rewrite (Hskip x (or_introl eq_refl)).
  apply IH. intros y Hy. apply Hskip. right; exact Hy.
Qed.

Lemma selected_rows_In {K} `{Countable K} {V} (selected : list K) (tbl : gmap K V) (v : V) :
  In v (selected_rows selected tbl) ->
  exists k, In k selected /\ tbl !! k = Some v.
Proof.
  unfold selected_rows. intros Hin.
  apply list_elem_of_In, list_elem_of_omap in Hin.
  destruct Hin as (k & Hk & Hv). exists k. split; [|exact Hv].
  apply list_elem_of_In. exact Hk.
Qed.

(** The batch approve action is a no-op on a selection of decided
    Reports: it returns normally and the store is unchanged. *)
Theorem approve_reports_decided_noop (request : Request) (queryset : list string)
    (now : Z) (w : World) :
  (forall k r, In k queryset -> reports w !! k = Some r ->
               PotholeReport.status r <> PotholeReport.PENDING) ->
  Admin.approve_reports request queryset now w = (Ok tt, w).
Proof.
  intros Hdecided. unfold Admin.approve_reports. run.
  apply for_each_skip. intros r Hr.
  apply selected_rows_In in Hr. destruct Hr as (k & Hk & Hlook).
  unfold bind. rewrite approve_reports_body_decided; [reflexivity|].
  exact (Hdecided k r Hk Hlook).
Qed.

Lemma approve_reports_decided_noop_witness :
  Admin.approve_reports (Sample.request_of Sample.staff) ["r1"; "r2"] 200
    (Sample.world_with_reports
       [ Sample.report "r1" 100 true PotholeReport.APPROVED 50;
         Sample.report "r2" 100 false PotholeReport.REJECTED 0 ])
  = (Ok tt,
     Sample.world_with_reports
       [ Sample.report "r1" 100 true PotholeReport.APPROVED 50;
         Sample.report "r2" 100 false PotholeReport.REJECTED 0 ]).
Proof.
  apply (approve_reports_decided_noop (Sample.request_of Sample.staff) ["r1"; "r2"] 200
           (Sample.world_with_reports
              [ Sample.report "r1" 100 true PotholeReport.APPROVED 50;
                Sample.report "r2" 100 false PotholeReport.REJECTED 0 ])).
  intros k r [<-|[<-|[]]] Hrow; vm_compute in Hrow; inversion Hrow; discriminate.
Defined.

(** The reject action has no guard on the status: whatever the Report's
    status was, it is saved as rejected. *)
Lemma reject_reports_body_any (now : Z) (report : PotholeReport.t) (w : World) :
  exists report' w',
    Admin.reject_reports_body now report w = (Ok report', w')
    /\ PotholeReport.status report' = PotholeReport.REJECTED
    /\ PotholeReport.points_awarded report' = PotholeReport.points_awarded report
    /\ reports w' !! PotholeReport.id report = Some report'
    /\ profiles w' = profiles w.
Proof.
  unfold Admin.reject_reports_body. run.
  eexists _, _. split; [reflexivity|].
  destruct (PotholeReport.rejection_reason report); simpl;
    (repeat split; try reflexivity; apply lookup_insert_eq).
Qed.

(** C2, on the code: rejecting an already-approved Report does change its
    status. A Report is submitted, approved (status [APPROVED], 50 points
    awarded and credited) and then handed to the reject action: its status
    becomes [REJECTED], while [points_awarded] and the owner's balance
    keep the 50 points. *)
Theorem reject_reports_overrides_approved :
  let w0 := Sample.world 0 in
  let w1 := snd (Api.submit_report Sample.ext (Sample.request_of Sample.tester)
                   (Sample.submission "data:image/png;base64,white")
                   1000 "f1" "p1" w0) in
  let w2 := snd (Admin.approve_reports (Sample.request_of Sample.staff) ["p1"] 2000 w1) in
  let w3 := snd (Admin.reject_reports (Sample.request_of Sample.staff) ["p1"] 3000 w2) in
  PotholeReport.status <$> reports w2 !! "p1" = Some PotholeReport.APPROVED
  /\ PotholeReport.points_awarded <$> reports w2 !! "p1" = Some 50
  /\ PotholeReport.status <$> reports w3 !! "p1" = Some PotholeReport.REJECTED
  /\ PotholeReport.points_awarded <$> reports w3 !! "p1" = Some 50
  /\ UserProfile.points <$> profiles w3 !! Sample.tester = Some 50.
Proof. vm_compute. repeat split. Qed.

(** C7, as stated, fails on the code. Approving a pending Report whose
    validity flag is false records a reason that does not contain
    "invalid" (in any letter case); and a Report with a false validity flag
    that is already approved stays approved. *)
Lemma approve_invalid_reason_and_decided :
  let pending := Sample.report "r1" 100 false PotholeReport.PENDING 0 in
  let decided := Sample.report "r2" 100 false PotholeReport.APPROVED 0 in
  let w := Sample.world_with_reports [pending; decided] in
  let w' := snd (Admin.approve_reports (Sample.request_of Sample.staff) ["r1"; "r2"] 200 w) in
  exists r1 r2,
    reports w' !! "r1" = Some r1
    /\ PotholeReport.ai_valid r1 = false
    /\ PotholeReport.status r1 = PotholeReport.REJECTED
    /\ PotholeReport.rejection_reason r1 = "AI rejected this image as non-pothole."
    /\ Py.contains "invalid" (PotholeReport.rejection_reason r1) = false
    /\ Py.contains "invalid" (Py.lower (PotholeReport.rejection_reason r1)) = false
    /\ reports w' !! "r2" = Some r2
    /\ PotholeReport.ai_valid r2 = false
    /\ PotholeReport.status r2 = PotholeReport.APPROVED.
Proof. vm_compute. eexists _, _. repeat split. Qed.

(** C7, amended. For every pending Report whose validity flag is false,
    the approve action saves it as rejected, with the reason
    "AI rejected this image as non-pothole."; the approval side effects do
    not occur: [approved_at], [approved_by] and [points_awarded] keep
    their values, and no profile is touched. *)
Theorem approve_invalid_is_rejected (admin_user now : Z) (report : PotholeReport.t)
    (w : World) :
  PotholeReport.status report = PotholeReport.PENDING ->
  PotholeReport.ai_valid report = false ->
  exists report' w',
    Admin.approve_reports_body admin_user now report w = (Ok report', w')
    /\ PotholeReport.status report' = PotholeReport.REJECTED
    /\ PotholeReport.rejection_reason report' = "AI rejected this image as non-pothole."
    /\ PotholeReport.approved_at report' = PotholeReport.approved_at report
    /\ PotholeReport.approved_by report' = PotholeReport.approved_by report
    /\ PotholeReport.points_awarded report' = PotholeReport.points_awarded report
    /\ reports w' !! PotholeReport.id report = Some report'
    /\ profiles w' = profiles w.
Proof.
  intros Hst Hvalid. unfold Admin.approve_reports_body.
  rewrite Hst, Hvalid. run.
  eexists _, _. split; [reflexivity|]. simpl.
  repeat split. apply lookup_insert_eq.
Qed.

Lemma approve_invalid_is_rejected_witness :
  exists report' w',
    Admin.approve_reports_body Sample.staff 200
      (Sample.report "r1" 100 false PotholeReport.PENDING 0)
      (Sample.world_with_reports [Sample.report "r1" 100 false PotholeReport.PENDING 0])
    = (Ok report', w')
    /\ PotholeReport.status report' = PotholeReport.REJECTED
    /\ PotholeReport.rejection_reason report' = "AI rejected this image as non-pothole."
    /\ PotholeReport.approved_at report' = None
    /\ PotholeReport.approved_by report' = None
    /\ PotholeReport.points_awarded report' = 0
    /\ reports w' !! "r1" = Some report'
    /\ profiles w' = {[ Sample.tester := Sample.profile 0 ]}.
Proof.
  apply (approve_invalid_is_rejected Sample.staff 200
           (Sample.report "r1" 100 false PotholeReport.PENDING 0)
           (Sample.world_with_reports
              [Sample.report "r1" 100 false PotholeReport.PENDING 0]));
    reflexivity.
Defined.

End Review.

(** ** Redemption: [redeem_points] and [approve_redemption] *)

Section Redemption.
  Context (ext : External).

(** A pending request whose payout succeeds: the outcome of the loop body. *)
Lemma approve_redemption_body_success (admin_user now : Z) (n : nat)
    (r : RedemptionRequest.t) (w : World) (p : UserProfile.t) (ref : string) :
  RedemptionRequest.status r = RedemptionRequest.PENDING ->
  Utils.send_airtime_to_user ext n (RedemptionRequest.mtn_phone r)
    (Py.float_of_Z (RedemptionRequest.airtime_amount r)) = Ok (true, ref) ->
  profiles w !! RedemptionRequest.user r = Some p ->
  UserProfile.user p = RedemptionRequest.user r ->
  reference_taken ref (RedemptionRequest.id r) (redemptions w) = false ->
  exists inst w' p',
    Admin.approve_redemption_body ext admin_user now n r w = (Ok inst, w')
    /\ RedemptionRequest.status (RedemptionRequest.row inst) = RedemptionRequest.APPROVED
    /\ RedemptionRequest.reference (RedemptionRequest.row inst) = ref
    /\ RedemptionRequest.points (RedemptionRequest.row inst) = RedemptionRequest.points r
    /\ redemptions w' !! RedemptionRequest.id r = Some (RedemptionRequest.row inst)
    /\ profiles w' !! RedemptionRequest.user r = Some p'
    /\ UserProfile.points p'
       = Z.max 0 (UserProfile.points p - RedemptionRequest.points r).
Proof.
  intros Hst Hsend Hprofile Hkey Hfree.
  unfold Admin.approve_redemption_body. rewrite Hst. simpl.
  unfold bind at 1. unfold lift. rewrite Hsend. simpl.
  run. rewrite Hprofile. simpl.
  unfold save_redemption. simpl. rewrite Hfree.
  eexists _, _, _. split; [reflexivity|]. simpl.
  repeat split.
  - apply lookup_insert_eq.
  - rewrite Hkey. apply lookup_insert_eq.
  - reflexivity.
Qed.

(** A pending request whose payout fails: the row is saved as rejected
    and nothing else of it changes; the reason is set on the Python
    object only; no profile is touched. *)
Lemma approve_redemption_body_failure (admin_user now : Z) (n : nat)
    (r : RedemptionRequest.t) (w : World) (ref : string) :
  RedemptionRequest.status r = RedemptionRequest.PENDING ->
  Utils.send_airtime_to_user ext n (RedemptionRequest.mtn_phone r)
    (Py.float_of_Z (RedemptionRequest.airtime_amount r)) = Ok (false, ref) ->
  reference_taken (RedemptionRequest.reference r) (RedemptionRequest.id r)
    (redemptions w) = false ->
  exists inst w',
    Admin.approve_redemption_body ext admin_user now n r w = (Ok inst, w')
    /\ RedemptionRequest.row inst
       = RedemptionRequest.with_updated_at now
           (RedemptionRequest.with_status RedemptionRequest.REJECTED r)
    /\ RedemptionRequest.attr_rejection_reason inst
       = Some "Airtime API error. Try again."
    /\ redemptions w' !! RedemptionRequest.id r = Some (RedemptionRequest.row inst)
    /\ profiles w' = profiles w.
Proof.
  intros Hst Hsend Hfree.
  unfold Admin.approve_redemption_body. rewrite Hst. simpl.
  unfold bind at 1. unfold lift. rewrite Hsend. simpl.
  unfold bind, save_redemption, ret. simpl. rewrite Hfree.
  eexists _, _. split; [reflexivity|]. simpl.
  repeat split. apply lookup_insert_eq.
Qed.

(** A payout that succeeds returns the [requestId] of the first entry
    of the provider's answer, or the empty string when that entry has
    none. *)
Lemma send_airtime_to_user_success (n : nat) (phone : string) (amount : float)
    (ref : string) :
  Utils.send_airtime_to_user ext n phone amount = Ok (true, ref) ->
  exists data entry others,
    airtime_post ext n phone amount = Some data
    /\ responses data = entry :: others
    /\ ref = default EmptyString entry.
Proof.
  unfold Utils.send_airtime_to_user.
  destruct (AT_USERNAME ext); [|discriminate].
  destruct (AT_API_KEY ext); [|discriminate]. simpl.
  destruct (airtime_post ext n phone amount) as [data|] eqn:Hpost; [|discriminate].
  destruct (errorMessage data) as [[|a msg]|]; try discriminate;
    (destruct (responses data) as [|entry others] eqn:Hresp; [discriminate|]);
    intros Heq; inversion Heq; exists data, entry, others; repeat split;
    assumption.
Qed.

(** What [redeem_points] stores when it accepts a request. *)
Lemma redeem_points_created (request : Request) (payload : RedeemRequest)
    (now : Z) (uuid_hex : string) (w w' : World) (pk : Z)
    (st : RedemptionRequest.Status) (msg : string) :
  Api.redeem_points ext request payload now uuid_hex w
  = (Ok (RedeemResponse pk st msg), w') ->
  exists r p,
    redemptions w' !! pk = Some r
    /\ RedemptionRequest.status r = RedemptionRequest.PENDING
    /\ RedemptionRequest.reference r = Utils.generate_reference ext now uuid_hex
    /\ RedemptionRequest.points r = points payload
    /\ profiles w !! auth request = Some p
    /\ 0 < points payload
    /\ points payload mod 500 = 0
    /\ points payload <= UserProfile.points p
    /\ profiles w' = profiles w.
Proof.
  unfold Api.redeem_points, bind, profile_of, orRaise, ret.
  destruct (profiles w !! auth request) as [p|] eqn:Hp; [|discriminate].
  destruct (points payload <=? 0) eqn:Hpos; [discriminate|].
  destruct (points payload mod 500 =? 0) eqn:Hmod; simpl; [|discriminate].
  destruct (UserProfile.points p <? points payload) eqn:Hbal; [discriminate|].
  unfold Api.create_redemption. simpl.
  destruct (reference_taken _ _ _); [discriminate|].
  intros Heq. inversion Heq; subst; clear Heq.
  apply Z.leb_gt in Hpos. apply Z.eqb_eq in Hmod. apply Z.ltb_ge in Hbal.
  eexists _, p. simpl.
  split; [apply lookup_insert_eq|].
  repeat split; try reflexivity; lia.
Qed.

End Redemption.

Section RedemptionClaims.

(** Filing a request: a number of points that is not positive, or not a
    multiple of 500, or above the balance is refused with its own answer,
    and a refusal writes nothing. *)
Theorem redeem_points_refusals (ext : External) (request : Request)
    (payload : RedeemRequest) (now : Z) (uuid_hex : string) (w : World)
    (p : UserProfile.t) :
  profiles w !! auth request = Some p ->
  (points payload <= 0 ->
     Api.redeem_points ext request payload now uuid_hex w
     = (Ok (ErrorResponse 400 "Points must be positive."), w))
  /\ (0 < points payload -> points payload mod 500 <> 0 ->
     Api.redeem_points ext request payload now uuid_hex w
     = (Ok (ErrorResponse 400 "Redemptions must be in blocks of 500."), w))
  /\ (0 < points payload -> points payload mod 500 = 0 ->
     UserProfile.points p < points payload ->
     Api.redeem_points ext request payload now uuid_hex w
     = (Ok (ErrorResponse 400 "Insufficient points."), w)).
Proof.
  intros Hp. unfold Api.redeem_points, bind, profile_of, orRaise, ret.
  rewrite Hp. repeat split.
  - intros Hle. apply Z.leb_le in Hle. now rewrite Hle.
  - intros Hpos Hmod. apply Z.leb_gt in Hpos. rewrite Hpos.
    apply Z.eqb_neq in Hmod. now rewrite Hmod.
  - intros Hpos Hmod Hbal. apply Z.leb_gt in Hpos. rewrite Hpos.
    apply Z.eqb_eq in Hmod. rewrite Hmod. simpl.
    apply Z.ltb_lt in Hbal. now rewrite Hbal.
Qed.

Lemma redeem_points_refusals_witness :
  Api.redeem_points Sample.ext (Sample.request_of Sample.tester)
    (mkRedeemRequest 499 "0244000000") 1000 "abcdef0123" (Sample.world 1000)
  = (Ok (ErrorResponse 400 "Redemptions must be in blocks of 500."), Sample.world 1000).
Proof.
  apply (proj1 (proj2 (redeem_points_refusals Sample.ext (Sample.request_of Sample.tester)
                         (mkRedeemRequest 499 "0244000000") 1000 "abcdef0123"
                         (Sample.world 1000) (Sample.profile 1000) eq_refl)));
    [reflexivity | discriminate].
Defined.

(** C1, as stated, fails on the code. With a balance of 500 the owner
    files two requests of 500 points (both pass the check made at
    creation, which deducts nothing). Settling the first leaves a balance
    of 0; the second, still pending, then asks for more points than the
    balance holds, and its settlement ends in approval all the same. *)
Lemma settlement_approves_beyond_balance :
  let request := Sample.request_of Sample.tester in
  let ask := mkRedeemRequest 500 "0244000000" in
  let w0 := Sample.world 500 in
  let w1 := snd (Api.redeem_points Sample.ext request ask 1000 "aaaaaa11" w0) in
  let w2 := snd (Api.redeem_points Sample.ext request ask 1001 "bbbbbb22" w1) in
  exists r1 r2 i1 w3 p3 i2 w4,
    redemptions w2 !! 1 = Some r1
    /\ redemptions w2 !! 2 = Some r2
    /\ Admin.approve_redemption_body Sample.ext Sample.staff 2000 0 r1 w2 = (Ok i1, w3)
    /\ profiles w3 !! Sample.tester = Some p3
    /\ RedemptionRequest.status r2 = RedemptionRequest.PENDING
    /\ UserProfile.points p3 < RedemptionRequest.points r2
    /\ Admin.approve_redemption_body Sample.ext Sample.staff 2000 1 r2 w3 = (Ok i2, w4)
    /\ RedemptionRequest.status (RedemptionRequest.row i2) = RedemptionRequest.APPROVED
    /\ Admin.approve_redemption Sample.ext (Sample.request_of Sample.staff) [1; 2] 2000 w2
       = (Ok tt, w4).
Proof. vm_compute. eexists _, _, _, _, _, _, _. repeat split. Qed.

(** C1, amended. Settlement does not look at the balance before
    approving: for every settlement of a pending request whose payout
    succeeds, whose owner has a profile, and whose returned reference is
    not held by another request, the request is approved and saved
    whatever the owner's balance is, and the balance becomes
    [max(0, balance - points)], which is never negative. *)
Theorem settlement_success_any_balance (ext : External) (admin_user now : Z)
    (n : nat) (r : RedemptionRequest.t) (w : World) (p : UserProfile.t)
    (ref : string) :
  RedemptionRequest.status r = RedemptionRequest.PENDING ->
  Utils.send_airtime_to_user ext n (RedemptionRequest.mtn_phone r)
    (Py.float_of_Z (RedemptionRequest.airtime_amount r)) = Ok (true, ref) ->
  profiles w !! RedemptionRequest.user r = Some p ->
  UserProfile.user p = RedemptionRequest.user r ->
  reference_taken ref (RedemptionRequest.id r) (redemptions w) = false ->
  exists inst w' p',
    Admin.approve_redemption_body ext admin_user now n r w = (Ok inst, w')
    /\ RedemptionRequest.status (RedemptionRequest.row inst) = RedemptionRequest.APPROVED
    /\ redemptions w' !! RedemptionRequest.id r = Some (RedemptionRequest.row inst)
    /\ profiles w' !! RedemptionRequest.user r = Some p'
    /\ UserProfile.points p'
       = Z.max 0 (UserProfile.points p - RedemptionRequest.points r)
    /\ 0 <= UserProfile.points p'.
Proof.
  intros Hst Hsend Hprofile Hkey Hfree.
  destruct (approve_redemption_body_success ext admin_user now n r w p ref
              Hst Hsend Hprofile Hkey Hfree)
    as (inst & w' & p' & Hrun & Hstatus & _ & _ & Hrow & Hp' & Hpoints).
  exists inst, w', p'. repeat split; try assumption. lia.
Qed.

Lemma settlement_success_any_balance_witness :
  exists inst w' p',
    Admin.approve_redemption_body Sample.ext Sample.staff 2000 0
      (Sample.redemption 1 500 "RDM-20240101-AAAAAA")
      (Sample.world_with_redemptions 100 [Sample.redemption 1 500 "RDM-20240101-AAAAAA"])
    = (Ok inst, w')
    /\ RedemptionRequest.status (RedemptionRequest.row inst) = RedemptionRequest.APPROVED
    /\ redemptions w' !! 1 = Some (RedemptionRequest.row inst)
    /\ profiles w' !! Sample.tester = Some p'
    /\ UserProfile.points p' = Z.max 0 (100 - 500)
    /\ 0 <= UserProfile.points p'.
Proof.
  apply (settlement_success_any_balance Sample.ext Sample.staff 2000 0
           (Sample.redemption 1 500 "RDM-20240101-AAAAAA")
           (Sample.world_with_redemptions 100
              [Sample.redemption 1 500 "RDM-20240101-AAAAAA"])
           (Sample.profile 100) "ATXid_0");
    vm_compute; reflexivity.
Defined.

(** C4, on the code: when the payout fails no rejection reason is
    recorded on the request. A request for 500 points is filed against a
    balance of 1000 and settled while the airtime API is unreachable. The
    loop body sets "Airtime API error. Try again." on the Python object,
    but the model has no such column: the row that is saved is the pending
    row with only [status] (and the [updated_at] stamp) changed. The
    balance is unchanged. *)
Theorem settlement_failure_reason_not_saved :
  let request := Sample.request_of Sample.tester in
  let ask := mkRedeemRequest 500 "0244000000" in
  let w1 := snd (Api.redeem_points Sample.ext_payout_down request ask 1000
                   "abcdef0123" (Sample.world 1000)) in
  exists r1 inst w2,
    redemptions w1 !! 1 = Some r1
    /\ RedemptionRequest.status r1 = RedemptionRequest.PENDING
    /\ Admin.approve_redemption_body Sample.ext_payout_down Sample.staff 2000 0 r1 w1
       = (Ok inst, w2)
    /\ RedemptionRequest.attr_rejection_reason inst = Some "Airtime API error. Try again."
    /\ redemptions w2 !! 1
       = Some (RedemptionRequest.with_updated_at 2000
                 (RedemptionRequest.with_status RedemptionRequest.REJECTED r1))
    /\ profiles w2 = profiles w1
    /\ Admin.approve_redemption Sample.ext_payout_down (Sample.request_of Sample.staff)
         [1] 2000 w1 = (Ok tt, w2).
Proof. vm_compute. eexists _, _, _. repeat split. Qed.

(** C5, as stated, fails on the code. A request that has just been filed
    is pending and already carries a reference, the one
    [generate_reference] draws as the column's default; after a failed
    settlement it is rejected and still carries it. *)
Lemma pending_and_rejected_carry_reference :
  let request := Sample.request_of Sample.tester in
  let ask := mkRedeemRequest 500 "0244000000" in
  let w1 := snd (Api.redeem_points Sample.ext_payout_down request ask 1000
                   "abcdef0123" (Sample.world 1000)) in
  let w2 := snd (Admin.approve_redemption Sample.ext_payout_down
                   (Sample.request_of Sample.staff) [1] 2000 w1) in
  exists r1 r2,
    redemptions w1 !! 1 = Some r1
    /\ RedemptionRequest.status r1 = RedemptionRequest.PENDING
    /\ RedemptionRequest.reference r1 = "RDM-20240101-ABCDEF"
    /\ Spec.no_reference r1 = false
    /\ redemptions w2 !! 1 = Some r2
    /\ RedemptionRequest.status r2 = RedemptionRequest.REJECTED
    /\ RedemptionRequest.reference r2 = "RDM-20240101-ABCDEF"
    /\ Spec.no_reference r2 = false.
Proof. vm_compute. eexists _, _. repeat split. Qed.

(** C5, amended. A request carries a reference from its creation: a
    request accepted by [redeem_points] is stored pending with the
    reference drawn by [generate_reference] (["RDM-<date>-<6 hex>"], never
    empty). A failed settlement rejects the request and keeps the
    reference it had (no other request holding the same one). A
    successful settlement (the payout succeeds, the owner has a profile,
    and the returned value is not held by another request) approves the
    request and replaces its reference by the [requestId] of the first
    entry of the provider's answer, or by the empty string when that
    entry has no [requestId]: the approved request is then the one that
    has no reference. *)
Theorem reference_lifecycle (ext : External) :
  (forall request payload now uuid_hex w w' pk st msg,
      Api.redeem_points ext request payload now uuid_hex w
      = (Ok (RedeemResponse pk st msg), w') ->
      exists r,
        redemptions w' !! pk = Some r
        /\ RedemptionRequest.status r = RedemptionRequest.PENDING
        /\ RedemptionRequest.reference r = Utils.generate_reference ext now uuid_hex
        /\ Spec.no_reference r = false)
  /\ (forall admin_user now n r w ref,
      RedemptionRequest.status r = RedemptionRequest.PENDING ->
      Utils.send_airtime_to_user ext n (RedemptionRequest.mtn_phone r)
        (Py.float_of_Z (RedemptionRequest.airtime_amount r)) = Ok (false, ref) ->
      reference_taken (RedemptionRequest.reference r) (RedemptionRequest.id r)
        (redemptions w) = false ->
      exists inst w',
        Admin.approve_redemption_body ext admin_user now n r w = (Ok inst, w')
        /\ redemptions w' !! RedemptionRequest.id r = Some (RedemptionRequest.row inst)
        /\ RedemptionRequest.status (RedemptionRequest.row inst)
           = RedemptionRequest.REJECTED
        /\ RedemptionRequest.reference (RedemptionRequest.row inst)
           = RedemptionRequest.reference r)
  /\ (forall admin_user now n r w p ref,
      RedemptionRequest.status r = RedemptionRequest.PENDING ->
      Utils.send_airtime_to_user ext n (RedemptionRequest.mtn_phone r)
        (Py.float_of_Z (RedemptionRequest.airtime_amount r)) = Ok (true, ref) ->
      profiles w !! RedemptionRequest.user r = Some p ->
      UserProfile.user p = RedemptionRequest.user r ->
      reference_taken ref (RedemptionRequest.id r) (redemptions w) = false ->
      exists inst w' data entry others,
        Admin.approve_redemption_body ext admin_user now n r w = (Ok inst, w')
        /\ redemptions w' !! RedemptionRequest.id r = Some (RedemptionRequest.row inst)
        /\ RedemptionRequest.status (RedemptionRequest.row inst)
           = RedemptionRequest.APPROVED
        /\ airtime_post ext n (RedemptionRequest.mtn_phone r)
             (Py.float_of_Z (RedemptionRequest.airtime_amount r)) = Some data
        /\ responses data = entry :: others
        /\ RedemptionRequest.reference (RedemptionRequest.row inst)
           = default EmptyString entry
        /\ (Spec.no_reference (RedemptionRequest.row inst) = true
            <-> entry = None \/ entry = Some EmptyString)).
Proof.
  split; [|split].
  - intros request payload now uuid_hex w w' pk st msg Hrun.
    destruct (redeem_points_created ext request payload now uuid_hex w w' pk st msg Hrun)
      as (r & p & Hrow & Hst & Href & _).
    exists r. repeat split; try assumption.
    unfold Spec.no_reference. rewrite Href. reflexivity.
  - intros admin_user now n r w ref Hst Hsend Hfree.
    destruct (approve_redemption_body_failure ext admin_user now n r w ref
                Hst Hsend Hfree)
      as (inst & w' & Hrun & Hrow & _ & Hstored & _).
    exists inst, w'. rewrite Hrow in *. repeat split; assumption.
  - intros admin_user now n r w p ref Hst Hsend Hprofile Hkey Hfree.
    destruct (approve_redemption_body_success ext admin_user now n r w p ref
                Hst Hsend Hprofile Hkey Hfree)
      as (inst & w' & p' & Hrun & Hstatus & Href & _ & Hstored & _).
    destruct (send_airtime_to_user_success ext _ _ _ _ Hsend)
      as (data & entry & others & Hpost & Hresp & Hentry).
    exists inst, w', data, entry, others.
    split; [exact Hrun|]. split; [exact Hstored|]. split; [exact Hstatus|].
    split; [exact Hpost|]. split; [exact Hresp|].
    split; [congruence|].
    unfold Spec.no_reference. rewrite Href, Hentry.
    destruct entry as [[|a id]|]; simpl; split; intros H;
      try reflexivity; try discriminate; auto.
    destruct H as [H|H]; discriminate.
Qed.

Lemma reference_lifecycle_witness :
  exists r,
    redemptions
      (snd (Api.redeem_points Sample.ext (Sample.request_of Sample.tester)
              (mkRedeemRequest 500 "0244000000") 1000 "abcdef0123"
              (Sample.world 1000))) !! 1 = Some r
    /\ RedemptionRequest.status r = RedemptionRequest.PENDING
    /\ RedemptionRequest.reference r
       = Utils.generate_reference Sample.ext 1000 "abcdef0123"
    /\ Spec.no_reference r = false.
Proof.
  apply (proj1 (reference_lifecycle Sample.ext) (Sample.request_of Sample.tester)
           (mkRedeemRequest 500 "0244000000") 1000 "abcdef0123" (Sample.world 1000)
           _ 1 RedemptionRequest.PENDING
           "Redemption request submitted successfully.").
  vm_compute. reflexivity.
Defined.

(** An answer of the provider without [requestId]: the request is
    approved and its reference is empty. *)
Example settlement_without_request_id :
  exists inst w',
    Admin.approve_redemption_body Fixture.ext_no_request_id Sample.staff 2000 0
      (Sample.redemption 1 500 "RDM-20240101-AAAAAA")
      (Sample.world_with_redemptions 1000
         [Sample.redemption 1 500 "RDM-20240101-AAAAAA"])
    = (Ok inst, w')
    /\ redemptions w' !! 1 = Some (RedemptionRequest.row inst)
    /\ RedemptionRequest.status (RedemptionRequest.row inst) = RedemptionRequest.APPROVED
    /\ RedemptionRequest.reference (RedemptionRequest.row inst) = EmptyString
    /\ Spec.no_reference (RedemptionRequest.row inst) = true.
Proof. vm_compute. eexists _, _. repeat split. Qed.

End RedemptionClaims.

(** ** The perceptual hasher: [calculate_phash] *)

Section Fingerprint.

Lemma zeros_length (n : nat) : String.length (Py.zeros n) = n.
Proof. induction n as [|n IH]; simpl; [reflexivity | now rewrite IH]. Qed.

Lemma append_length (s t : string) :
  String.length (s ++ t) = (String.length s + String.length t)%nat.
Proof. induction s as [|a s IH]; simpl; [reflexivity | now rewrite IH]. Qed.

Lemma zfill_length (width : nat) (s : string) :
  String.length (Py.zfill width s) = Nat.max width (String.length s).
Proof.
  unfold Py.zfill. rewrite append_length, zeros_length. lia.
Qed.

(** [zfill] pads and never cuts: a fingerprint has at least 64
    characters, and exactly as many as the hexadecimal number when that
    has more. *)
Lemma calculate_phash_length (ext : External) (image_file h : string) :
  Utils.calculate_phash ext image_file = Ok h ->
  (64 <= String.length h)%nat.
Proof.
  unfold Utils.calculate_phash, bindO.
  destruct (orRaise _ _) as [pixels|]; [|discriminate].
  destruct (Py.truediv _ _) as [avg|]; [|discriminate].
  destruct (Py.int_base2 _) as [n|]; [|discriminate].
  intros Heq. inversion Heq. rewrite zfill_length. lia.
Qed.

Lemma calculate_phash_length_witness :
  (64 <= String.length
           "ffffffffffffffffffffffffffffffffffffffffffffffffffffffffffffffffffffffffffffffffffffffffffffffffffffffffffffffffffffffffffffffffffffffffffffffffffffffffffffffffffffffffffffffffffffffffffffffffffffffffffffffffffffffffffffffffffffffffffffffffffffffffffffffff")%nat.
Proof.
  apply (calculate_phash_length Sample.ext "white"). vm_compute. reflexivity.
Defined.

(** C6, on the code: the fingerprint of an image that decodes is not
    always 64 characters long. The all-white image (the 1x1 white PNG of
    [tests/test_reports.py], once resized to 32x32) has 1024 grey levels
    equal to their mean, so every bit is 1 and the number has 256
    hexadecimal digits; [zfill(64)] leaves them all. *)
Theorem calculate_phash_white_has_256_chars :
  exists h,
    image_grey_32x32 Sample.ext "white" = Some (repeat Byte.xff 1024%nat)
    /\ Utils.calculate_phash Sample.ext "white" = Ok h
    /\ String.length h = 256%nat.
Proof. vm_compute. eexists. repeat split. Qed.

(** The same for every image of one grey level, whatever reads it. *)
Lemma calculate_phash_uniform (ext : External) (image_file : string) (grey : Byte.byte) :
  image_grey_32x32 ext image_file = Some (repeat grey 1024%nat) ->
  exists h, Utils.calculate_phash ext image_file = Ok h /\ String.length h = 256%nat.
Proof.
  intros Hread. unfold Utils.calculate_phash. rewrite Hread.
  destruct grey; vm_compute; eexists; split; reflexivity.
Qed.

End Fingerprint.

(** ** The intake pipeline: [submit_report] *)

Section Intake.
  Context (ext : External).

(** The rate limiter always answers, and touches only the cache. *)
Lemma rate_limit_run (key : string) (limit window_seconds now : Z) (w : World) :
  exists b w',
    Utils.rate_limit key limit window_seconds now w = (Ok b, w')
    /\ reports w' = reports w /\ profiles w' = profiles w
    /\ redemptions w' = redemptions w.
Proof.
  unfold Utils.rate_limit. run.
  destruct (limit <=? _); eexists _, _; repeat split.
Qed.

(** What [submit_report] stores when it accepts a submission. *)
Lemma submit_report_created (request : Request)
    (payload : ReportSubmitRequest) (now : Z) (uuid_file uuid_pk : string)
    (w w' : World) (pk : string) (st : PotholeReport.Status) (msg : string) :
  Api.submit_report ext request payload now uuid_file uuid_pk w
  = (Ok (ReportSubmitResponse pk st msg), w') ->
  exists r,
    reports w' !! pk = Some r
    /\ PotholeReport.id r = pk
    /\ PotholeReport.user r = Some (auth request)
    /\ PotholeReport.ai_valid r = true
    /\ PotholeReport.ai_score r = Some (if AI_BYPASS ext then 0.99 else 0.95)%float
    /\ PotholeReport.is_spam r = false
    /\ PotholeReport.status r = PotholeReport.PENDING
    /\ PotholeReport.points_awarded r = 0
    /\ st = PotholeReport.PENDING.
Proof.
  unfold Api.submit_report, bind.
  destruct (rate_limit_run ("rep:user:" ++ pretty (auth request)) 3 60 now w)
    as (b1 & w1 & -> & _).
  destruct b1; [discriminate|].
  destruct (rate_limit_run ("rep:ip:" ++ Py.str_opt (Utils.get_client_ip request))
              10 60 now w1) as (b2 & w2 & -> & _).
  destruct b2; [discriminate|].
  destruct (Utils.detect_gps_spam _ _ _ _ _ _ _ _) as [[|]|e]; try discriminate.
  destruct (negb _); [discriminate|].
  destruct (b64decode _ _) as [raw|]; [|discriminate].
  unfold lift. destruct (Utils.calculate_phash ext raw) as [h|e]; [|discriminate].
  unfold gets. destruct (Api.image_hash_exists h w2); [discriminate|].
  unfold Utils.ai_validate_pothole, Api.create_report, ret.
  destruct (AI_BYPASS ext); simpl;
    (destruct (severity payload <? 0); [discriminate|]);
    (destruct (reports w2 !! uuid_pk); [discriminate|]);
    intros Heq; inversion Heq; subst; clear Heq;
    (eexists; split; [apply lookup_insert_eq|]; repeat split).
Qed.

(** A payload that base64-decodes to bytes Pillow cannot read never gets
    the "Invalid image data." answer, and leaves the Report table as it
    was: the [try] of [submit_report] ends before [calculate_phash]. *)
Lemma submit_report_unreadable_image (request : Request)
    (payload : ReportSubmitRequest) (now : Z) (uuid_file uuid_pk raw : string)
    (w : World) :
  b64decode ext (Py.split_last ","%char (image_base64 payload)) = Some raw ->
  image_grey_32x32 ext raw = None ->
  fst (Api.submit_report ext request payload now uuid_file uuid_pk w)
    <> Ok (ErrorResponse 400 "Invalid image data.")
  /\ reports (snd (Api.submit_report ext request payload now uuid_file uuid_pk w))
     = reports w.
Proof.
  intros Hdecode Hread.
  unfold Api.submit_report, bind.
  destruct (rate_limit_run ("rep:user:" ++ pretty (auth request)) 3 60 now w)
    as (b1 & w1 & -> & Hr1 & _).
  destruct b1; [split; [discriminate | exact Hr1]|].
  destruct (rate_limit_run ("rep:ip:" ++ Py.str_opt (Utils.get_client_ip request))
              10 60 now w1) as (b2 & w2 & -> & Hr2 & _).
  rewrite <- Hr1, <- Hr2.
  destruct b2; [split; [discriminate | reflexivity]|].
  destruct (Utils.detect_gps_spam _ _ _ _ _ _ _ _) as [[|]|e];
    try (split; [discriminate | reflexivity]).
  destruct (negb _); [split; [discriminate | reflexivity]|].
  rewrite Hdecode. unfold lift, Utils.calculate_phash. rewrite Hread. simpl.
  split; [discriminate | reflexivity].
Qed.

End Intake.

Section IntakeClaims.

(** C8, on the code: a payload that base64-decodes to bytes that are not
    an image does not get the InvalidImage answer. The submission below
    passes the rate, spam and region checks; its payload decodes; Pillow
    cannot read it, and its exception leaves [submit_report] uncaught. No
    Report is created. *)
Theorem submit_report_unreadable_image_raises :
  let payload := Sample.submission "data:image/png;base64,aGVsbG8=" in
  let run := Api.submit_report Sample.ext (Sample.request_of Sample.tester) payload
               1000 "f1" "p1" (Sample.world 0) in
  b64decode Sample.ext (Py.split_last ","%char (image_base64 payload)) = Some "aGVsbG8="
  /\ image_grey_32x32 Sample.ext "aGVsbG8=" = None
  /\ fst run = Raised ImageError
  /\ reports (snd run) = ∅.
Proof. vm_compute. repeat split. Qed.

(** C10. The content-validation step answers valid for every image, with
    score 0.99 when [AI_BYPASS] is on and 0.95 otherwise. So a Report
    stored by an accepted submission has [ai_valid = true],
    [is_spam = false] and is pending, and handing it to the approve
    action never takes the rejection branch: in whatever store, the
    Report is saved as approved. *)
Theorem intake_reports_are_valid (ext : External) (request : Request)
    (payload : ReportSubmitRequest) (now : Z) (uuid_file uuid_pk : string)
    (w w' : World) (pk : string) (st : PotholeReport.Status) (msg : string) :
  Api.submit_report ext request payload now uuid_file uuid_pk w
  = (Ok (ReportSubmitResponse pk st msg), w') ->
  (forall image_file,
      Utils.ai_validate_pothole ext image_file
      = (true, if AI_BYPASS ext then 0.99 else 0.95)%float)
  /\ exists r,
      reports w' !! pk = Some r
      /\ PotholeReport.ai_valid r = true
      /\ PotholeReport.is_spam r = false
      /\ PotholeReport.status r = PotholeReport.PENDING
      /\ forall admin_user now' w2, exists outcome w3 r3,
          Admin.approve_reports_body admin_user now' r w2 = (outcome, w3)
          /\ reports w3 !! pk = Some r3
          /\ PotholeReport.status r3 = PotholeReport.APPROVED.
Proof.
  intros Hrun. split.
  - intros image_file. unfold Utils.ai_validate_pothole.
    destruct (AI_BYPASS ext); reflexivity.
  - destruct (submit_report_created ext request payload now uuid_file uuid_pk
                w w' pk st msg Hrun)
      as (r & Hrow & Hid & Huser & Hvalid & _ & Hspam & Hst & Hzero & _).
    exists r. repeat split; try assumption.
    intros admin_user now' w2.
    unfold Admin.approve_reports_body. rewrite Hst, Hvalid. run.
    unfold Utils.award_report_points. simpl. rewrite Hzero, Huser. run.
    rewrite Hid.
    destruct (profiles w2 !! auth request) as [p|]; simpl;
      eexists _, _, _; (split; [reflexivity|]); simpl;
      (split; [apply lookup_insert_eq | reflexivity]).
Qed.

Lemma intake_reports_are_valid_witness :
  (forall image_file,
      Utils.ai_validate_pothole Sample.ext image_file
      = (true, if AI_BYPASS Sample.ext then 0.99 else 0.95)%float)
  /\ exists r,
      reports (snd (Api.submit_report Sample.ext (Sample.request_of Sample.tester)
                      (Sample.submission "data:image/png;base64,white")
                      1000 "f1" "p1" (Sample.world 0))) !! "p1" = Some r
      /\ PotholeReport.ai_valid r = true
      /\ PotholeReport.is_spam r = false
      /\ PotholeReport.status r = PotholeReport.PENDING
      /\ forall admin_user now' w2, exists outcome w3 r3,
          Admin.approve_reports_body admin_user now' r w2 = (outcome, w3)
          /\ reports w3 !! "p1" = Some r3
          /\ PotholeReport.status r3 = PotholeReport.APPROVED.
Proof.
  apply (intake_reports_are_valid Sample.ext (Sample.request_of Sample.tester)
           (Sample.submission "data:image/png;base64,white") 1000 "f1" "p1"
           (Sample.world 0) _ "p1" PotholeReport.PENDING
           "Report submitted successfully and is pending review.").
  vm_compute. reflexivity.
Defined.

End IntakeClaims.

(** ** The geospatial spam detector: [detect_gps_spam] *)

Section SpamDetector.
  Context (ext : External).

Lemma float_of_Z_100 : Py.float_of_Z 100 = 100%float.
Proof. reflexivity. Qed.

Lemma float_of_Z_earth_radius : Py.float_of_Z 6371000 = Spec.earth_radius.
Proof. reflexivity. Qed.

(** The distance of the code is the distance of the specification: the
    same value where that is defined, an exception of the [math] library
    where it is not. *)
Lemma haversine_distance_spec (lat1 lon1 lat2 lon2 : float) :
  Utils.haversine_distance ext lat1 lon1 lat2 lon2
  = match Spec.haversine ext lat1 lon1 lat2 lon2 with
    | Some dist => Ok dist
    | None => Raised MathError
    end.
Proof.
  unfold Utils.haversine_distance, Spec.haversine, Spec.hav, Spec.central_angle,
    bindO, orRaise.
  rewrite float_of_Z_earth_radius.
  destruct (math_sin ext (math_radians ext (lat2 - lat1) / 2)%float)
    as [sin_dphi|]; [|reflexivity].
  destruct (float_pow ext sin_dphi 2) as [sin_dphi2|]; [|reflexivity].
  destruct (math_cos ext (math_radians ext lat1)) as [cos_phi1|]; [|reflexivity].
  destruct (math_cos ext (math_radians ext lat2)) as [cos_phi2|]; [|reflexivity].
  destruct (math_sin ext (math_radians ext (lon2 - lon1) / 2)%float)
    as [sin_dlambda|]; [|reflexivity].
  destruct (float_pow ext sin_dlambda 2) as [sin_dlambda2|]; [|reflexivity].
  destruct (math_sqrt ext (sin_dphi2 + cos_phi1 * cos_phi2 * sin_dlambda2)%float)
    as [sqrt_a|]; [|reflexivity].
  destruct (math_sqrt ext (1 - (sin_dphi2 + cos_phi1 * cos_phi2 * sin_dlambda2))%float)
    as [sqrt_1a|]; [|reflexivity].
  destruct (math_atan2 ext sqrt_a sqrt_1a) as [angle|]; reflexivity.
Qed.

(** The queryset filter of the code is the specification's "own and
    within the last 5 minutes". *)
Lemma recent_reports_filter_spec (user now : Z) (r : PotholeReport.t) :
  Utils.recent_reports_filter user (now - 5 * 60 * 1000000) r
  = Spec.own user r && Spec.within_last_5_minutes now r.
Proof. reflexivity. Qed.

(** The loop adds to its counter the number of rows within 100 meters,
    provided every distance it asks for is defined. *)
Lemma count_nearby_spec (lat lon : float) (rows : list PotholeReport.t) :
  forall nearby_count,
    (forall r, In r rows ->
       exists dist, Spec.haversine ext lat lon (PotholeReport.latitude r)
                      (PotholeReport.longitude r) = Some dist) ->
    Utils.count_nearby ext lat lon 100 rows nearby_count
    = Ok (nearby_count
          + Z.of_nat (length (List.filter (Spec.within_100_meters ext lat lon) rows))).
Proof.
  induction rows as [|r rest IH]; intros nearby_count Hdefined; simpl.
  - f_equal. lia.
  - destruct (Hdefined r (or_introl eq_refl)) as (dist & Hdist).
    rewrite haversine_distance_spec.
    unfold Spec.within_100_meters at 1. rewrite Hdist. simpl.
    rewrite float_of_Z_100.
    rewrite IH by (intros r' Hr'; apply Hdefined; right; exact Hr').
    destruct (dist <=? 100)%float; simpl; f_equal; lia.
Qed.

(** The loop raises as soon as one row has no distance. *)
Lemma count_nearby_undefined (lat lon : float) (threshold_m : Z)
    (rows : list PotholeReport.t) (r : PotholeReport.t) :
  In r rows ->
  Spec.haversine ext lat lon (PotholeReport.latitude r) (PotholeReport.longitude r)
  = None ->
  forall nearby_count,
    Utils.count_nearby ext lat lon threshold_m rows nearby_count = Raised MathError.
Proof.
  induction rows as [|r' rest IH]; intros Hin Hnone nearby_count; [destruct Hin|].
  simpl. rewrite haversine_distance_spec.
  destruct (Spec.haversine ext lat lon (PotholeReport.latitude r')
              (PotholeReport.longitude r')) as [dist|] eqn:Hdist; [|reflexivity].
  simpl. destruct Hin as [->|Hin]; [congruence|].
  apply IH; assumption.
Qed.

Lemma filter_filter_andb {A} (f g : A -> bool) (l : list A) :
  List.filter g (List.filter f l) = List.filter (fun x => f x && g x) l.
Proof.
  induction l as [|x l IH]; simpl; [reflexivity|].
  destruct (f x); simpl; [destruct (g x)|]; now rewrite IH.
Qed.

End SpamDetector.

Section SpamDetectorClaims.

(** C9, on the code: the check does not answer for every store. A user
    has three Reports of the last five minutes at the point (5.5, 0), and
    a fourth at its antipode (-5.5, 180). For the fourth, the haversine
    term [a] comes out as [1 + 2^-52], so [1 - a] is negative and
    [math.sqrt] raises: three of the user's recent Reports lie within 100
    meters of the point, the claim has the check return true, and the
    check raises, as does [submit_report] for a submission at that
    point. [haversine_distance] takes no care of an [a] above 1. *)
Theorem detect_gps_spam_raises_near_antipode :
  Spec.hav Antipode.libm (math_radians Antipode.libm (-5.5 - 5.5)%float)
  = Some 0x1.2d052d8e927c5p-7%float
  /\ math_cos Antipode.libm (math_radians Antipode.libm 5.5%float)
     = Some 0x1.fda4920d197a6p-1%float
  /\ math_cos Antipode.libm (math_radians Antipode.libm (-5.5)%float)
     = Some 0x1.fda4920d197a6p-1%float
  /\ Spec.hav Antipode.libm (math_radians Antipode.libm (180 - 0)%float)
     = Some 1%float
  /\ (0x1.2d052d8e927c5p-7 + 0x1.fda4920d197a6p-1 * 0x1.fda4920d197a6p-1 * 1)%float
     = 0x1.0000000000001p+0%float
  /\ math_sqrt Antipode.libm (1 - 0x1.0000000000001p+0)%float = None
  /\ Utils.haversine_distance Antipode.libm 5.5%float 0%float (-5.5)%float 180%float
     = Raised MathError
  /\ Utils.haversine_distance Antipode.libm 5.5%float 0%float 5.5%float 0%float
     = Ok 0%float
  /\ Spec.cluster_size Antipode.libm Sample.tester 5.5%float 0%float 1000000000
       Antipode.world = 3%nat
  /\ Utils.detect_gps_spam Antipode.libm Sample.tester 5.5%float 0%float 100 5
       1000000000 Antipode.world = Raised MathError
  /\ fst (Api.submit_report Antipode.libm (Sample.request_of Sample.tester)
            (mkReportSubmitRequest "data:image/png;base64,white" 5.5%float 0%float
               "Greater Accra" 5 None)
            1000000000 "f1" "e" Antipode.world)
     = Raised MathError.
Proof. vm_compute. repeat split. Qed.

(** Where every distance is defined, the check is the one of section
    4.2. [detect_gps_spam(user, lat, lon)] (with its defaults, 100 meters
    and 5 minutes) examines the Reports that are the user's own and were
    created within the last 5 minutes, and takes the haversine distance
    (Earth radius 6,371,000 m) from the point to each of them. When each
    of these distances is defined, it answers, and answers true if and
    only if at least 3 of these Reports lie within 100 meters of the
    point; Reports of other users, older Reports and Reports farther away
    are not counted. When the distance to one of these Reports is not
    defined, it raises the exception of the [math] library instead of
    answering, however many Reports are near. *)
Theorem detect_gps_spam_counts_cluster (ext : External) (user : Z) (lat lon : float)
    (now : Z) (w : World) :
  (Spec.distances_defined ext user lat lon now w ->
   exists spam,
     Utils.detect_gps_spam ext user lat lon 100 5 now w = Ok spam
     /\ (spam = true <-> (3 <= Spec.cluster_size ext user lat lon now w)%nat))
  /\ (forall r,
        In r (all_rows (reports w)) ->
        Spec.own user r = true ->
        Spec.within_last_5_minutes now r = true ->
        Spec.haversine ext lat lon (PotholeReport.latitude r)
          (PotholeReport.longitude r) = None ->
        Utils.detect_gps_spam ext user lat lon 100 5 now w = Raised MathError).
Proof.
  split.
  - intros Hdefined. unfold Utils.detect_gps_spam.
    rewrite count_nearby_spec.
    + simpl. eexists. split; [reflexivity|].
      rewrite filter_filter_andb.
      unfold Spec.cluster_size, Spec.own, Spec.within_last_5_minutes,
        Utils.recent_reports_filter.
      rewrite Z.leb_le. lia.
    + intros r Hr. apply filter_In in Hr. destruct Hr as (Hin & Hrecent).
      rewrite recent_reports_filter_spec in Hrecent.
      apply andb_prop in Hrecent. destruct Hrecent as (Hown & Htime).
      exact (Hdefined r Hin Hown Htime).
  - intros r Hin Hown Htime Hnone. unfold Utils.detect_gps_spam.
    rewrite (count_nearby_undefined ext lat lon 100 _ r); [reflexivity| |exact Hnone].
    apply filter_In. split; [exact Hin|].
    rewrite recent_reports_filter_spec, Hown, Htime. reflexivity.
Qed.

Lemma detect_gps_spam_counts_cluster_witness :
  exists spam,
    Utils.detect_gps_spam Sample.ext Sample.tester 5.6037%float (-0.1870)%float
      100 5 1000000000 Sample.busy_spot = Ok spam
    /\ (spam = true
        <-> (3 <= Spec.cluster_size Sample.ext Sample.tester 5.6037%float
                    (-0.1870)%float 1000000000 Sample.busy_spot)%nat).
Proof.
  apply (proj1 (detect_gps_spam_counts_cluster Sample.ext Sample.tester 5.6037%float
                  (-0.1870)%float 1000000000 Sample.busy_spot)).
  intros r _ _ _. vm_compute. eexists. reflexivity.
Defined.

Example detect_gps_spam_busy_spot :
  Utils.detect_gps_spam Sample.ext Sample.tester 5.6037%float (-0.1870)%float
    100 5 1000000000 Sample.busy_spot = Ok true
  /\ Spec.cluster_size Sample.ext Sample.tester 5.6037%float (-0.1870)%float
       1000000000 Sample.busy_spot = 3%nat.
Proof. vm_compute. split; reflexivity. Qed.

Example detect_gps_spam_quiet_spot :
  Utils.detect_gps_spam Sample.ext Sample.tester 5.6037%float (-0.1870)%float
    100 5 1000000000 Sample.quiet_spot = Ok false
  /\ Spec.cluster_size Sample.ext Sample.tester 5.6037%float (-0.1870)%float
       1000000000 Sample.quiet_spot = 2%nat.
Proof. vm_compute. split; reflexivity. Qed.

End SpamDetectorClaims.

(** * Further properties of the code *)

(** ** The sample stores *)

Section SampleStores.

(** The sample stores hold every Report under its own key, and
    airtime amounts that fit their column. *)
Lemma world_with_reports_keyed (rs : list PotholeReport.t) :
  Inv.reports_keyed (Sample.world_with_reports rs).
Proof.
  intros k r Hrow. unfold Sample.world_with_reports in Hrow. simpl in Hrow.
  apply elem_of_list_to_map_2 in Hrow. apply list_elem_of_fmap in Hrow.
  destruct Hrow as (r' & Heq & _). now inversion Heq.
Qed.

Lemma world_with_redemptions_fit (balance : Z) (rs : list RedemptionRequest.t) :
  Forall (fun r => 0 <= RedemptionRequest.airtime_amount r < 10000) rs ->
  Inv.amounts_fit (Sample.world_with_redemptions balance rs).
Proof.
  intros Hall k r Hrow. unfold Sample.world_with_redemptions in Hrow. simpl in Hrow.
  apply elem_of_list_to_map_2 in Hrow. apply list_elem_of_fmap in Hrow.
  destruct Hrow as (r' & Heq & Hin). inversion Heq; subst.
  rewrite Forall_forall in Hall. apply Hall. exact Hin.
Qed.

End SampleStores.

(** ** The rate limiter: [rate_limit] *)

Section RateLimiter.

Lemma rate_limit_step (key : string) (limit window_seconds now : Z) (w : World) :
  Utils.rate_limit key limit window_seconds now w
  = let count := Utils.cache_get now ("rl:" ++ key) 0 (cache w) in
    if limit <=? count then (Ok true, w)
    else (Ok false,
          with_cache (Utils.cache_set now ("rl:" ++ key) (count + 1) window_seconds
                        (cache w)) w).
Proof.
  unfold Utils.rate_limit. run.
  destruct (limit <=? _); reflexivity.
Qed.

Lemma cache_get_set (t now : Z) (key : string) (value timeout default : Z)
    (c : gmap string (Z * Z)) :
  Utils.cache_get t key default (Utils.cache_set now key value timeout c)
  = if t <? now + timeout * 1000000 then value else default.
Proof.
  unfold Utils.cache_get, Utils.cache_set. now rewrite lookup_insert_eq.
Qed.

Lemma cache_get_set_other (t now : Z) (key key' : string) (value timeout default : Z)
    (c : gmap string (Z * Z)) :
  key <> key' ->
  Utils.cache_get t key' default (Utils.cache_set now key value timeout c)
  = Utils.cache_get t key' default c.
Proof.
  intros Hne. unfold Utils.cache_get, Utils.cache_set.
  now rewrite lookup_insert_ne.
Qed.

(** An entry that reads as 0 reads as 0 from then on. *)
Lemma cache_get_zero_later (t t' : Z) (key : string) (c : gmap string (Z * Z)) :
  Utils.cache_get t key 0 c = 0 -> t <= t' ->
  Utils.cache_get t' key 0 c = 0.
Proof.
  unfold Utils.cache_get. destruct (c !! key) as [[value expires]|]; [|reflexivity].
  destruct (t <? expires) eqn:Hlive; intros Hzero Hle.
  - subst value. now destruct (t' <? expires).
  - apply Z.ltb_ge in Hlive.
    destruct (t' <? expires) eqn:Hlive'; [|reflexivity].
    apply Z.ltb_lt in Hlive'. lia.
Qed.

Lemma fst_bind_ret {A B} (m : M A) (f : A -> B) (w : World) :
  fst (bind m (fun a => ret (f a)) w)
  = match fst (m w) with Ok a => Ok (f a) | Raised e => Raised e end.
Proof. unfold bind, ret. now destruct (m w) as [[a|e] w']. Qed.

Lemma rate_limit_calls_window (key : string) (limit window_seconds lo hi : Z)
    (times : list Z) :
  forall (count : Z) (w : World),
    (forall t, lo <= t < hi ->
       Utils.cache_get t ("rl:" ++ key) 0 (cache w) = count) ->
    (forall t, In t times -> lo <= t < hi /\ hi <= t + window_seconds * 1000000) ->
    fst (Scenario.rate_limit_calls key limit window_seconds times w)
    = Ok (map (fun i => limit <=? count + Z.of_nat i) (seq 0 (length times))).
Proof.
  induction times as [|now rest IH]; intros count w Hcount Htimes; [reflexivity|].
  simpl. unfold bind at 1. rewrite rate_limit_step. simpl.
  destruct (Htimes now (or_introl eq_refl)) as (Hnow & Hhi).
  rewrite (Hcount now Hnow).
  assert (Hrest : forall t, In t rest ->
            lo <= t < hi /\ hi <= t + window_seconds * 1000000)
    by (intros t Ht; apply Htimes; right; exact Ht).
  destruct (limit <=? count) eqn:Hlimit.
  - rewrite fst_bind_ret, (IH count w Hcount Hrest).
    f_equal. rewrite Z.add_0_r, Hlimit. f_equal.
    rewrite <- seq_shift, map_map.
    apply map_ext_in. intros i _. apply Z.leb_le in Hlimit.
    transitivity true; [|symmetry]; apply Z.leb_le; lia.
  - rewrite fst_bind_ret, (IH (count + 1)); [| |exact Hrest].
    + f_equal. rewrite Z.add_0_r, Hlimit. f_equal.
      rewrite <- seq_shift, map_map.
      apply map_ext. intros i. f_equal. lia.
    + intros t Ht. simpl. rewrite cache_get_set.
      assert ((t <? now + window_seconds * 1000000) = true) as ->
        by (apply Z.ltb_lt; lia).
      reflexivity.
Qed.

(** From a moment at which the key has no live count, calls of
    [rate_limit] made within the next [window_seconds] are answered in
    order: the first [limit] are admitted and every later one is refused;
    the call of rank [i] (from 0) is refused exactly when [limit <= i]. *)
Theorem rate_limit_burst (key : string) (limit window_seconds start : Z)
    (times : list Z) (w : World) :
  Utils.cache_get start ("rl:" ++ key) 0 (cache w) = 0 ->
  (forall t, In t times -> start <= t < start + window_seconds * 1000000) ->
  fst (Scenario.rate_limit_calls key limit window_seconds times w)
  = Ok (map (fun i => limit <=? Z.of_nat i) (seq 0 (length times))).
Proof.
  intros Hfresh Htimes.
  rewrite (rate_limit_calls_window key limit window_seconds start
             (start + window_seconds * 1000000) times 0 w).
  - reflexivity.
  - intros t Ht. apply (cache_get_zero_later start); [exact Hfresh | lia].
  - intros t Ht. specialize (Htimes t Ht). lia.
Qed.

Lemma rate_limit_calls_paced (key : string) (limit window_seconds : Z)
    (times : list Z) :
  forall (count now : Z) (w : World),
    Utils.cache_get now ("rl:" ++ key) 0 (cache w) = count ->
    Scenario.paced window_seconds now times ->
    count + Z.of_nat (length times) <= limit ->
    fst (Scenario.rate_limit_calls key limit window_seconds (now :: times) w)
    = Ok (map (fun i => limit <=? count + Z.of_nat i) (seq 0 (S (length times)))).
Proof.
  induction times as [|next rest IH]; intros count now w Hcount Hpaced Hlen.
  - simpl. unfold bind at 1. rewrite rate_limit_step. simpl. rewrite Hcount.
    rewrite Z.add_0_r. now destruct (limit <=? count).
  - change (Scenario.rate_limit_calls key limit window_seconds (now :: next :: rest))
      with (bind (Utils.rate_limit key limit window_seconds now) (fun limited =>
            bind (Scenario.rate_limit_calls key limit window_seconds (next :: rest))
              (fun answers => ret (limited :: answers)))).
    unfold bind at 1. rewrite rate_limit_step. cbv zeta. rewrite Hcount.
    destruct Hpaced as (Hnext & Hpaced).
    assert (Hlimit : (limit <=? count) = false)
      by (apply Z.leb_gt; simpl length in Hlen; lia).
    rewrite Hlimit, fst_bind_ret.
    rewrite (IH (count + 1) next); [| |exact Hpaced|simpl length in Hlen; lia].
    + f_equal.
      change (seq 0 (S (length (next :: rest))))
        with (0%nat :: seq 1 (S (length rest))).
      cbn [map Z.of_nat]. rewrite Z.add_0_r, Hlimit. f_equal.
      rewrite <- seq_shift, map_map.
      apply map_ext. intros i. f_equal. lia.
    + simpl. rewrite cache_get_set.
      assert ((next <? now + window_seconds * 1000000) = true) as ->
        by (apply Z.ltb_lt; lia).
      reflexivity.
Qed.

Lemma map_seq_const {B} (f : nat -> B) (b : B) (n : nat) :
  forall a, (forall i, (a <= i < a + n)%nat -> f i = b) ->
  map f (seq a n) = repeat b n.
Proof.
  induction n as [|n IH]; intros a Hconst; simpl; [reflexivity|].
  rewrite Hconst by lia. f_equal. apply IH. intros i Hi. apply Hconst. lia.
Qed.

(** Every admitted call restarts the window: [limit] calls, each made
    less than [window_seconds] after the previous one, are all admitted,
    and one more call made less than [window_seconds] after the last of
    them is refused, however long ago the first call was. *)
Theorem rate_limit_paced (key : string) (limit window_seconds first : Z)
    (times : list Z) (w : World) :
  Utils.cache_get first ("rl:" ++ key) 0 (cache w) = 0 ->
  Scenario.paced window_seconds first times ->
  Z.of_nat (length times) = limit ->
  fst (Scenario.rate_limit_calls key limit window_seconds (first :: times) w)
  = Ok (repeat false (length times) ++ [true])%list.
Proof.
  intros Hfresh Hpaced Hlen.
  rewrite (rate_limit_calls_paced key limit window_seconds times 0 first w
             Hfresh Hpaced) by lia.
  f_equal. subst limit.
  replace (S (length times)) with (length times + 1)%nat by lia.
  rewrite seq_app, map_app. simpl. f_equal.
  - apply map_seq_const. intros i Hi. apply Z.leb_gt. lia.
  - f_equal. apply Z.leb_le. lia.
Qed.

End RateLimiter.

Lemma rate_limit_paced_witness :
  fst (Scenario.rate_limit_calls "rep:user:7" 3 60 [0; 59000000; 118000000; 177000000]
         (Sample.world 0))
  = Ok [false; false; false; true].
Proof.
  apply (rate_limit_paced "rep:user:7" 3 60 0 [59000000; 118000000; 177000000]
           (Sample.world 0)).
  - reflexivity.
  - simpl. lia.
  - reflexivity.
Defined.

Lemma rate_limit_burst_witness :
  fst (Scenario.rate_limit_calls "rep:user:7" 3 60 [0; 1000000; 2000000; 59000000]
         (Sample.world 0))
  = Ok [false; false; false; true].
Proof.
  apply (rate_limit_burst "rep:user:7" 3 60 0 [0; 1000000; 2000000; 59000000]
           (Sample.world 0)).
  - reflexivity.
  - intros t [<-|[<-|[<-|[<-|[]]]]]; lia.
Defined.

(** ** The client address: [get_client_ip] *)

Section ClientIp.










End ClientIp.

(** ** The payout call and the settlement's edge cases *)

Section Payout.
  Context (ext : External).

(** With both credentials defined, [send_airtime_to_user] returns,
    whatever the HTTP call does. It reports success exactly when the call
    returned a reply with no (or an empty) [errorMessage] and at least one
    response; the reference is then the first response's [requestId], or
    the empty string when it has none. On failure the reference is empty. *)
Theorem send_airtime_to_user_answers (n : nat) (phone : string) (amount : float)
    (username api_key : string) :
  AT_USERNAME ext = Some username ->
  AT_API_KEY ext = Some api_key ->
  exists success reference,
    Utils.send_airtime_to_user ext n phone amount = Ok (success, reference)
    /\ (success = false -> reference = EmptyString)
    /\ (success = true <->
        exists data entry others,
          airtime_post ext n phone amount = Some data
          /\ (errorMessage data = None \/ errorMessage data = Some EmptyString)
          /\ responses data = entry :: others
          /\ reference = default EmptyString entry).
Proof.
  intros Huser Hkey. unfold Utils.send_airtime_to_user.
  rewrite Huser, Hkey. simpl.
  destruct (airtime_post ext n phone amount) as [data|] eqn:Hpost.
  - destruct (errorMessage data) as [[|a msg]|] eqn:Herr.
    + destruct (responses data) as [|entry others] eqn:Hresp.
      * exists false, EmptyString. repeat split; try discriminate.
        intros (d & e & o & Hd & _ & Hr & _). congruence.
      * exists true, (default EmptyString entry). repeat split; try discriminate.
        intros _. exists data, entry, others. repeat split; auto.
    + exists false, EmptyString. repeat split; try discriminate.
      intros (d & e & o & Hd & [He|He] & _); congruence.
    + destruct (responses data) as [|entry others] eqn:Hresp.
      * exists false, EmptyString. repeat split; try discriminate.
        intros (d & e & o & Hd & _ & Hr & _). congruence.
      * exists true, (default EmptyString entry). repeat split; try discriminate.
        intros _. exists data, entry, others. repeat split; auto.
  - exists false, EmptyString. repeat split; try discriminate.
    intros (d & e & o & Hd & _). discriminate.
Qed.

Lemma send_airtime_to_user_unset (n : nat) (phone : string) (amount : float) :
  AT_USERNAME ext = None \/ AT_API_KEY ext = None ->
  Utils.send_airtime_to_user ext n phone amount = Raised AttributeError.
Proof.
  unfold Utils.send_airtime_to_user. intros [H|H]; rewrite H; simpl.
  - reflexivity.
  - now destruct (AT_USERNAME ext).
Qed.

Lemma approve_redemption_loop_unset (admin_user now : Z)
    (rows : list RedemptionRequest.t) (w : World) :
  AT_USERNAME ext = None \/ AT_API_KEY ext = None ->
  forall n,
    Admin.approve_redemption_loop ext admin_user now n rows w
    = (if forallb (fun r => negb (RedemptionRequest.Status_eqb
                                    (RedemptionRequest.status r)
                                    RedemptionRequest.PENDING)) rows
       then Ok tt else Raised AttributeError, w).
Proof.
  intros Hunset. induction rows as [|r rest IH]; intros n; [reflexivity|].
  simpl. unfold bind at 1. unfold Admin.approve_redemption_body.
  destruct (negb _); simpl.
  - apply IH.
  - unfold bind, lift. rewrite send_airtime_to_user_unset by exact Hunset.
    reflexivity.
Qed.

End Payout.

Lemma send_airtime_to_user_answers_witness :
  exists success reference,
    Utils.send_airtime_to_user Sample.ext 0 "0244000000" 5%float
    = Ok (success, reference)
    /\ (success = false -> reference = EmptyString)
    /\ (success = true <->
        exists data entry others,
          airtime_post Sample.ext 0 "0244000000" 5%float = Some data
          /\ (errorMessage data = None \/ errorMessage data = Some EmptyString)
          /\ responses data = entry :: others
          /\ reference = default EmptyString entry).
Proof.
  apply (send_airtime_to_user_answers Sample.ext 0 "0244000000" 5%float
           "sandbox" "key"); reflexivity.
Defined.

Section Settlement.

(** When [AT_USERNAME] or [AT_API_KEY] is not defined in the settings,
    settling never writes: the action ends normally when no selected
    request is pending, and raises [AttributeError] at the first pending
    one otherwise. *)
Theorem approve_redemption_without_credentials (ext : External) (request : Request)
    (queryset : list Z) (now : Z) (w : World) :
  Inv.amounts_fit w ->
  AT_USERNAME ext = None \/ AT_API_KEY ext = None ->
  Admin.approve_redemption ext request queryset now w
  = (if forallb (fun r => negb (RedemptionRequest.Status_eqb
                                  (RedemptionRequest.status r)
                                  RedemptionRequest.PENDING))
                (selected_rows queryset (redemptions w))
     then Ok tt else Raised AttributeError, w).
Proof.
  intros _ Hunset. unfold Admin.approve_redemption. run.
  apply (approve_redemption_loop_unset ext _ _ _ _ Hunset).
Qed.

Lemma approve_redemption_loop_decided (ext : External) (admin_user now : Z)
    (rows : list RedemptionRequest.t) (w : World) :
  (forall r, In r rows -> RedemptionRequest.status r <> RedemptionRequest.PENDING) ->
  forall n, Admin.approve_redemption_loop ext admin_user now n rows w = (Ok tt, w).
Proof.
  induction rows as [|r rest IH]; intros Hdecided n; [reflexivity|].
  simpl. unfold bind at 1. unfold Admin.approve_redemption_body.
  assert (Hr := Hdecided r (or_introl eq_refl)).
  destruct (RedemptionRequest.status r); [congruence| |]; simpl;
    apply IH; intros r' Hr'; apply Hdecided; right; exact Hr'.
Qed.

(** A settled request is never paid again: on a selection without
    pending requests the action returns normally and leaves the store
    unchanged, for every payout provider. *)
Theorem approve_redemption_decided_noop (ext : External) (request : Request)
    (queryset : list Z) (now : Z) (w : World) :
  Inv.amounts_fit w ->
  (forall k r, In k queryset -> redemptions w !! k = Some r ->
               RedemptionRequest.status r <> RedemptionRequest.PENDING) ->
  Admin.approve_redemption ext request queryset now w = (Ok tt, w).
Proof.
  intros _ Hdecided. unfold Admin.approve_redemption. run.
  apply approve_redemption_loop_decided. intros r Hr.
  apply selected_rows_In in Hr. destruct Hr as (k & Hk & Hrow).
  exact (Hdecided k r Hk Hrow).
Qed.

(** The payout succeeded and the provider's reference is already held
    by another request: the owner's balance is debited and saved, then
    saving the request raises [IntegrityError]. The request table is
    unchanged, so the request stays pending although the points are gone. *)
Theorem approve_redemption_reference_clash (ext : External) (admin_user now : Z)
    (n : nat) (r : RedemptionRequest.t) (w : World) (p : UserProfile.t)
    (ref : string) :
  RedemptionRequest.status r = RedemptionRequest.PENDING ->
  Utils.send_airtime_to_user ext n (RedemptionRequest.mtn_phone r)
    (Py.float_of_Z (RedemptionRequest.airtime_amount r)) = Ok (true, ref) ->
  profiles w !! RedemptionRequest.user r = Some p ->
  UserProfile.user p = RedemptionRequest.user r ->
  reference_taken ref (RedemptionRequest.id r) (redemptions w) = true ->
  exists w' p',
    Admin.approve_redemption_body ext admin_user now n r w
    = (Raised IntegrityError, w')
    /\ redemptions w' = redemptions w
    /\ profiles w' !! RedemptionRequest.user r = Some p'
    /\ UserProfile.points p'
       = Z.max 0 (UserProfile.points p - RedemptionRequest.points r).
Proof.
  intros Hst Hsend Hprofile Hkey Htaken.
  unfold Admin.approve_redemption_body. rewrite Hst. simpl.
  unfold bind at 1. unfold lift. rewrite Hsend. simpl.
  run. rewrite Hprofile. simpl.
  unfold save_redemption. simpl. rewrite Htaken.
  eexists _, _. split; [reflexivity|]. simpl.
  repeat split.
  - rewrite Hkey. apply lookup_insert_eq.
  - reflexivity.
Qed.

End Settlement.

Lemma approve_redemption_reference_clash_witness :
  exists w' p',
    Admin.approve_redemption_body Fixture.ext_no_request_id Sample.staff 2000 0
      (Sample.redemption 2 500 "RDM-20240101-BBBBBB")
      (Sample.world_with_redemptions 1000
         [Fixture.settled 1 500 EmptyString;
          Sample.redemption 2 500 "RDM-20240101-BBBBBB"])
    = (Raised IntegrityError, w')
    /\ redemptions w'
       = redemptions
           (Sample.world_with_redemptions 1000
              [Fixture.settled 1 500 EmptyString;
               Sample.redemption 2 500 "RDM-20240101-BBBBBB"])
    /\ profiles w' !! Sample.tester = Some p'
    /\ UserProfile.points p' = Z.max 0 (1000 - 500).
Proof.
  apply (approve_redemption_reference_clash Fixture.ext_no_request_id Sample.staff
           2000 0 (Sample.redemption 2 500 "RDM-20240101-BBBBBB")
           (Sample.world_with_redemptions 1000
              [Fixture.settled 1 500 EmptyString;
               Sample.redemption 2 500 "RDM-20240101-BBBBBB"])
           (Sample.profile 1000) EmptyString);
    vm_compute; reflexivity.
Defined.

Lemma approve_redemption_decided_noop_witness :
  Admin.approve_redemption Sample.ext (Sample.request_of Sample.staff) [1] 2000
    (Sample.world_with_redemptions 500 [Fixture.settled 1 500 "ATXid_0"])
  = (Ok tt, Sample.world_with_redemptions 500 [Fixture.settled 1 500 "ATXid_0"]).
Proof.
  apply (approve_redemption_decided_noop Sample.ext (Sample.request_of Sample.staff)
           [1] 2000
           (Sample.world_with_redemptions 500 [Fixture.settled 1 500 "ATXid_0"])).
  - apply world_with_redemptions_fit. repeat constructor; reflexivity || discriminate.
  - intros k r [<-|[]] Hrow. vm_compute in Hrow. inversion Hrow. discriminate.
Defined.

Lemma approve_redemption_without_credentials_witness :
  Admin.approve_redemption Fixture.ext_no_credentials (Sample.request_of Sample.staff)
    [1] 2000
    (Sample.world_with_redemptions 1000 [Sample.redemption 1 500 "RDM-20240101-AAAAAA"])
  = (Raised AttributeError,
     Sample.world_with_redemptions 1000 [Sample.redemption 1 500 "RDM-20240101-AAAAAA"]).
Proof.
  apply (approve_redemption_without_credentials Fixture.ext_no_credentials
           (Sample.request_of Sample.staff) [1] 2000
           (Sample.world_with_redemptions 1000
              [Sample.redemption 1 500 "RDM-20240101-AAAAAA"])).
  - apply world_with_redemptions_fit. repeat constructor; reflexivity || discriminate.
  - left. reflexivity.
Defined.

(** ** Filing a redemption request: [redeem_points] *)

Section Filing.
  Context (ext : External).

Lemma reference_taken_intro (ref : string) (self k : Z) (r : RedemptionRequest.t)
    (tbl : gmap Z RedemptionRequest.t) :
  tbl !! k = Some r -> k <> self -> RedemptionRequest.reference r = ref ->
  reference_taken ref self tbl = true.
Proof.
  intros Hrow Hne Href. unfold reference_taken.
  apply existsb_exists. exists (k, r). split.
  - apply list_elem_of_In, elem_of_map_to_list. exact Hrow.
  - simpl. rewrite Href, String.eqb_refl.
    apply Z.eqb_neq in Hne. now rewrite Hne.
Qed.

(** The reference depends on the day and on the first six hexadecimal
    digits of the draw only. *)
Lemma generate_reference_same (now now' : Z) (uuid_hex uuid_hex' : string) :
  strftime_Ymd ext now = strftime_Ymd ext now' ->
  Py.prefix 6 uuid_hex = Py.prefix 6 uuid_hex' ->
  Utils.generate_reference ext now uuid_hex
  = Utils.generate_reference ext now' uuid_hex'.
Proof. unfold Utils.generate_reference. now intros -> ->. Qed.

End Filing.

Section FilingClaims.

(** [redeem_points] accepts every positive multiple of 500 (below
    1,000,000) that the balance covers, when the generated reference is
    free: it answers with the new key and status pending, and stores a
    pending request of the caller with these points, an airtime amount of
    [points / 100], and the phone number as it was sent. The balance is
    not changed. *)
Theorem redeem_points_accepts (ext : External) (request : Request)
    (payload : RedeemRequest) (now : Z) (uuid_hex : string) (w : World)
    (p : UserProfile.t) :
  profiles w !! auth request = Some p ->
  0 < points payload < 1000000 ->
  points payload mod 500 = 0 ->
  points payload <= UserProfile.points p ->
  reference_taken (Utils.generate_reference ext now uuid_hex)
    (redemption_seq w + 1) (redemptions w) = false ->
  exists r w',
    Api.redeem_points ext request payload now uuid_hex w
    = (Ok (RedeemResponse (redemption_seq w + 1) RedemptionRequest.PENDING
             "Redemption request submitted successfully."), w')
    /\ redemptions w' !! (redemption_seq w + 1) = Some r
    /\ RedemptionRequest.user r = auth request
    /\ RedemptionRequest.points r = points payload
    /\ RedemptionRequest.airtime_amount r * 100 = points payload
    /\ RedemptionRequest.mtn_phone r = mtn_phone payload
    /\ RedemptionRequest.status r = RedemptionRequest.PENDING
    /\ profiles w' = profiles w.
Proof.
  intros Hp (Hpos & Hmax) Hmod Hbal Hfree.
  unfold Api.redeem_points, bind, profile_of, orRaise, ret. rewrite Hp.
  assert ((points payload <=? 0) = false) as -> by (apply Z.leb_gt; lia).
  assert ((points payload mod 500 =? 0) = true) as -> by (apply Z.eqb_eq; lia).
  simpl.
  assert ((UserProfile.points p <? points payload) = false) as ->
    by (apply Z.ltb_ge; lia).
  unfold Api.create_redemption. simpl. rewrite Hfree.
  eexists _, _. split; [reflexivity|]. simpl.
  split; [apply lookup_insert_eq|].
  repeat split.
  simpl. pose proof (Z.div_mod (points payload) 500 ltac:(lia)) as Hdiv. lia.
Qed.

(** A reference holds the day and six hexadecimal digits only: a valid
    request filed on the day of a stored one, with a draw that shares its
    first six digits, raises [IntegrityError] and stores nothing. *)
Theorem redeem_points_reference_collision (ext : External) (request : Request)
    (payload : RedeemRequest) (now now' : Z) (uuid_hex uuid_hex' : string)
    (w : World) (p : UserProfile.t) (k : Z) (r : RedemptionRequest.t) :
  redemptions w !! k = Some r ->
  k <= redemption_seq w ->
  RedemptionRequest.reference r = Utils.generate_reference ext now' uuid_hex' ->
  strftime_Ymd ext now = strftime_Ymd ext now' ->
  Py.prefix 6 uuid_hex = Py.prefix 6 uuid_hex' ->
  profiles w !! auth request = Some p ->
  0 < points payload < 1000000 ->
  points payload mod 500 = 0 ->
  points payload <= UserProfile.points p ->
  Api.redeem_points ext request payload now uuid_hex w = (Raised IntegrityError, w).
Proof.
  intros Hrow Hk Href Hday Hdraw Hp Hpos Hmod Hbal.
  unfold Api.redeem_points, bind, profile_of, orRaise, ret. rewrite Hp.
  assert ((points payload <=? 0) = false) as -> by (apply Z.leb_gt; lia).
  assert ((points payload mod 500 =? 0) = true) as -> by (apply Z.eqb_eq; lia).
  simpl.
  assert ((UserProfile.points p <? points payload) = false) as ->
    by (apply Z.ltb_ge; lia).
  unfold Api.create_redemption. simpl.
  rewrite (reference_taken_intro _ _ k r); [reflexivity|exact Hrow|lia|].
  rewrite Href. symmetry. apply generate_reference_same; assumption.
Qed.

End FilingClaims.

Lemma redeem_points_reference_collision_witness :
  Api.redeem_points Sample.ext (Sample.request_of Sample.tester)
    (mkRedeemRequest 500 "0244000000") 2000 "abcdef9999"
    (Sample.world_with_redemptions 1000 [Sample.redemption 1 500 "RDM-20240101-ABCDEF"])
  = (Raised IntegrityError,
     Sample.world_with_redemptions 1000 [Sample.redemption 1 500 "RDM-20240101-ABCDEF"]).
Proof.
  apply (redeem_points_reference_collision Sample.ext (Sample.request_of Sample.tester)
           (mkRedeemRequest 500 "0244000000") 2000 1000 "abcdef9999" "abcdef0123"
           (Sample.world_with_redemptions 1000
              [Sample.redemption 1 500 "RDM-20240101-ABCDEF"])
           (Sample.profile 1000) 1 (Sample.redemption 1 500 "RDM-20240101-ABCDEF"));
    try reflexivity; simpl; lia.
Defined.

Lemma redeem_points_accepts_witness :
  exists r w',
    Api.redeem_points Sample.ext (Sample.request_of Sample.tester)
      (mkRedeemRequest 1500 "0244000000") 1000 "abcdef0123" (Sample.world 2000)
    = (Ok (RedeemResponse (0 + 1) RedemptionRequest.PENDING
             "Redemption request submitted successfully."), w')
    /\ redemptions w' !! (0 + 1) = Some r
    /\ RedemptionRequest.user r = Sample.tester
    /\ RedemptionRequest.points r = 1500
    /\ RedemptionRequest.airtime_amount r * 100 = 1500
    /\ RedemptionRequest.mtn_phone r = "0244000000"
    /\ RedemptionRequest.status r = RedemptionRequest.PENDING
    /\ profiles w' = profiles (Sample.world 2000).
Proof.
  apply (redeem_points_accepts Sample.ext (Sample.request_of Sample.tester)
           (mkRedeemRequest 1500 "0244000000") 1000 "abcdef0123" (Sample.world 2000)
           (Sample.profile 2000)); try reflexivity; simpl; lia.
Defined.

(** ** Approving Reports: the credit, and a Report without owner *)

Section Approval.

(** Approving a pending, valid, not yet rewarded Report whose owner has
    a profile saves it as approved, with [approved_by] the admin and
    [approved_at] the time of the call, sets [points_awarded] to 50 and
    adds exactly 50 to the owner's balance; approving the resulting Report
    again changes nothing. *)
Theorem approve_valid_credits_owner (admin_user now : Z) (report : PotholeReport.t)
    (w : World) (u : Z) (p : UserProfile.t) :
  PotholeReport.status report = PotholeReport.PENDING ->
  PotholeReport.ai_valid report = true ->
  PotholeReport.points_awarded report = 0 ->
  PotholeReport.user report = Some u ->
  profiles w !! u = Some p ->
  UserProfile.user p = u ->
  exists report' w' p',
    Admin.approve_reports_body admin_user now report w = (Ok report', w')
    /\ PotholeReport.status report' = PotholeReport.APPROVED
    /\ PotholeReport.approved_by report' = Some admin_user
    /\ PotholeReport.approved_at report' = Some now
    /\ PotholeReport.points_awarded report' = 50
    /\ reports w' !! PotholeReport.id report = Some report'
    /\ profiles w' !! u = Some p'
    /\ UserProfile.points p' = UserProfile.points p + 50
    /\ Admin.approve_reports_body admin_user now report' w' = (Ok report', w').
Proof.
  intros Hst Hvalid Hzero Huser Hprofile Hkey.
  unfold Admin.approve_reports_body at 1. rewrite Hst, Hvalid. run.
  unfold Utils.award_report_points. simpl. rewrite Hzero, Huser. run.
  rewrite Hprofile. simpl.
  eexists _, _, _. split; [reflexivity|]. simpl.
  repeat split.
  - apply lookup_insert_eq.
  - rewrite Hkey. apply lookup_insert_eq.
  - reflexivity.
Qed.

(** The approve action on a selection whose first Report is pending,
    valid and without owner: the Report is saved as approved, then
    [award_report_points] raises [AttributeError] and the action stops (the
    other selected Reports are not processed). No balance changes, the
    Report keeps [points_awarded = 0], and a later approval skips it. *)
Lemma approve_reports_orphan (request : Request) (k : string)
    (others : list string) (now : Z) (w : World) (report : PotholeReport.t) :
  reports w !! k = Some report ->
  PotholeReport.id report = k ->
  PotholeReport.status report = PotholeReport.PENDING ->
  PotholeReport.ai_valid report = true ->
  PotholeReport.points_awarded report = 0 ->
  PotholeReport.user report = None ->
  exists report' w',
    Admin.approve_reports request (k :: others) now w = (Raised AttributeError, w')
    /\ reports w' = <[k := report']> (reports w)
    /\ PotholeReport.status report' = PotholeReport.APPROVED
    /\ PotholeReport.points_awarded report' = 0
    /\ profiles w' = profiles w
    /\ Admin.approve_reports request [k] now w' = (Ok tt, w').
Proof.
  intros Hrow Hid Hst Hvalid Hzero Huser.
  unfold Admin.approve_reports at 1. run.
  unfold selected_rows. simpl. rewrite Hrow. simpl.
  unfold Admin.approve_reports_body. rewrite Hst, Hvalid. run.
  unfold Utils.award_report_points. simpl. rewrite Hzero, Huser. run.
  eexists _, _. split; [reflexivity|]. simpl. rewrite Hid.
  repeat split; try assumption.
  unfold Admin.approve_reports. run. unfold selected_rows. simpl.
  rewrite lookup_insert_eq. simpl. reflexivity.
Qed.

End Approval.

Lemma approve_valid_credits_owner_witness :
  exists report' w' p',
    Admin.approve_reports_body Sample.staff 200
      (Sample.report "r1" 100 true PotholeReport.PENDING 0)
      (Sample.world_with_reports [Sample.report "r1" 100 true PotholeReport.PENDING 0])
    = (Ok report', w')
    /\ PotholeReport.status report' = PotholeReport.APPROVED
    /\ PotholeReport.approved_by report' = Some Sample.staff
    /\ PotholeReport.approved_at report' = Some 200
    /\ PotholeReport.points_awarded report' = 50
    /\ reports w' !! "r1" = Some report'
    /\ profiles w' !! Sample.tester = Some p'
    /\ UserProfile.points p' = 0 + 50
    /\ Admin.approve_reports_body Sample.staff 200 report' w' = (Ok report', w').
Proof.
  apply (approve_valid_credits_owner Sample.staff 200
           (Sample.report "r1" 100 true PotholeReport.PENDING 0)
           (Sample.world_with_reports
              [Sample.report "r1" 100 true PotholeReport.PENDING 0])
           Sample.tester (Sample.profile 0)); reflexivity.
Defined.

(** ** What [reject_reports] writes *)

Section Rejection.

Lemma with_reports_same (w : World) : with_reports (reports w) w = w.
Proof. now destruct w. Qed.

Lemma reject_reports_loop (now : Z) (rows : list PotholeReport.t) :
  forall w,
    for_each rows (fun report => bind (Admin.reject_reports_body now report)
                                   (fun _ => ret tt)) w
    = (Ok tt,
       with_reports
         (fold_left (fun tbl r => <[PotholeReport.id r := Effect.rejected now r]> tbl)
                    rows (reports w)) w).
Proof.
  induction rows as [|r rest IH]; intros w; simpl.
  - now rewrite with_reports_same.
  - unfold bind at 1. unfold bind at 1. unfold Admin.reject_reports_body.
    run. rewrite IH. simpl. f_equal. unfold with_reports. simpl. f_equal.
    f_equal. f_equal. unfold Effect.rejected. simpl.
    now destruct (PotholeReport.rejection_reason r).
Qed.

Lemma fold_insert_other {V} (key : V -> string) (f : V -> V) (k : string)
    (rows : list V) :
  forall tbl : gmap string V,
    (forall r, In r rows -> key r <> k) ->
    fold_left (fun tbl r => <[key r := f r]> tbl) rows tbl !! k = tbl !! k.
Proof.
  induction rows as [|r rest IH]; intros tbl Hother; simpl; [reflexivity|].
  rewrite IH by (intros r' Hr'; apply Hother; right; exact Hr').
  apply lookup_insert_ne. apply Hother. left; reflexivity.
Qed.

Lemma fold_insert_selected {V} (key : V -> string) (f : V -> V) (r : V)
    (rows : list V) :
  forall tbl : gmap string V,
    In r rows ->
    (forall r', In r' rows -> key r' = key r -> r' = r) ->
    fold_left (fun tbl r => <[key r := f r]> tbl) rows tbl !! key r = Some (f r).
Proof.
  induction rows as [|x rest IH] using rev_ind; intros tbl Hin Huniq; [destruct Hin|].
  rewrite fold_left_app. simpl.
  destruct (String.eqb (key x) (key r)) eqn:Hkey.
  - apply String.eqb_eq in Hkey.
    assert (x = r) as -> by (apply Huniq; [apply in_or_app; right; left; reflexivity|exact Hkey]).
    apply lookup_insert_eq.
  - apply String.eqb_neq in Hkey. rewrite lookup_insert_ne by exact Hkey.
    apply in_app_or in Hin. destruct Hin as [Hin|[->|[]]]; [|congruence].
    apply IH; [exact Hin|].
    intros r' Hr'. apply Huniq. apply in_or_app. left; exact Hr'.
Qed.

(** [reject_reports] never raises, and writes the selected Reports
    only: each is saved with status rejected, its [rejection_reason] kept
    when it has one and set to "Rejected by admin." otherwise, and every
    other column as before ([points_awarded], [approved_by] and
    [approved_at] included). The other Reports, the profiles and the
    redemption requests are unchanged. *)
Theorem reject_reports_effect (request : Request) (queryset : list string)
    (now : Z) (w : World) :
  Inv.reports_keyed w ->
  exists w',
    Admin.reject_reports request queryset now w = (Ok tt, w')
    /\ profiles w' = profiles w
    /\ redemptions w' = redemptions w
    /\ (forall k r, In k queryset -> reports w !! k = Some r ->
          reports w' !! k = Some (Effect.rejected now r))
    /\ (forall k, ~ In k queryset -> reports w' !! k = reports w !! k).
Proof.
  intros Hkeyed. unfold Admin.reject_reports. unfold bind at 1. unfold gets.
  rewrite reject_reports_loop. eexists. split; [reflexivity|]. simpl.
  repeat split.
  - intros k r Hk Hrow. rewrite <- (Hkeyed k r Hrow).
    apply (fold_insert_selected PotholeReport.id (Effect.rejected now) r).
    + unfold selected_rows. apply list_elem_of_In, list_elem_of_omap.
      exists k. split; [apply list_elem_of_In; exact Hk | exact Hrow].
    + intros r' Hr' Hid. apply selected_rows_In in Hr'.
      destruct Hr' as (k' & _ & Hrow').
      pose proof (Hkeyed k' r' Hrow') as Hk'. pose proof (Hkeyed k r Hrow) as Hkr.
      congruence.
  - intros k Hk. apply fold_insert_other. intros r Hr Hid.
    apply selected_rows_In in Hr. destruct Hr as (k' & Hk' & Hrow').
    apply Hk. rewrite <- Hid, (Hkeyed k' r Hrow'). exact Hk'.
Qed.

End Rejection.

Lemma reject_reports_effect_witness :
  exists w',
    Admin.reject_reports (Sample.request_of Sample.staff) ["r1"] 300
      (Sample.world_with_reports
         [Sample.report "r1" 100 true PotholeReport.APPROVED 50;
          Sample.report "r2" 100 true PotholeReport.PENDING 0])
    = (Ok tt, w')
    /\ profiles w'
       = profiles (Sample.world_with_reports
                     [Sample.report "r1" 100 true PotholeReport.APPROVED 50;
                      Sample.report "r2" 100 true PotholeReport.PENDING 0])
    /\ redemptions w'
       = redemptions (Sample.world_with_reports
                        [Sample.report "r1" 100 true PotholeReport.APPROVED 50;
                         Sample.report "r2" 100 true PotholeReport.PENDING 0])
    /\ (forall k r, In k ["r1"] ->
          reports (Sample.world_with_reports
                     [Sample.report "r1" 100 true PotholeReport.APPROVED 50;
                      Sample.report "r2" 100 true PotholeReport.PENDING 0]) !! k
          = Some r ->
          reports w' !! k = Some (Effect.rejected 300 r))
    /\ (forall k, ~ In k ["r1"] ->
          reports w' !! k
          = reports (Sample.world_with_reports
                       [Sample.report "r1" 100 true PotholeReport.APPROVED 50;
                        Sample.report "r2" 100 true PotholeReport.PENDING 0]) !! k).
Proof.
  apply (reject_reports_effect (Sample.request_of Sample.staff) ["r1"] 300
           (Sample.world_with_reports
              [Sample.report "r1" 100 true PotholeReport.APPROVED 50;
               Sample.report "r2" 100 true PotholeReport.PENDING 0])).
  apply world_with_reports_keyed.
Defined.

(** ** Invariants of the store, and the attempt counter of [submit_report] *)

Section Pipeline.
  Context (ext : External).

(** What a run of [submit_report] can do to the tables, whatever its
    answer: nothing, or insert one Report under the drawn key, with a
    fingerprint no stored Report has. *)
Lemma submit_report_tables (request : Request) (payload : ReportSubmitRequest)
    (now : Z) (uuid_file uuid_pk : string) (w : World) :
  let w' := snd (Api.submit_report ext request payload now uuid_file uuid_pk w) in
  profiles w' = profiles w
  /\ redemptions w' = redemptions w
  /\ (reports w' = reports w
      \/ exists r,
           reports w' = <[uuid_pk := r]> (reports w)
           /\ reports w !! uuid_pk = None
           /\ PotholeReport.id r = uuid_pk
           /\ forall k r0, reports w !! k = Some r0 ->
                PotholeReport.image_hash r0 <> PotholeReport.image_hash r).
Proof.
  unfold Api.submit_report, bind.
  destruct (rate_limit_run ("rep:user:" ++ pretty (auth request)) 3 60 now w)
    as (b1 & w1 & -> & Hr1 & Hp1 & Hd1).
  destruct b1; [simpl; auto|].
  destruct (rate_limit_run ("rep:ip:" ++ Py.str_opt (Utils.get_client_ip request))
              10 60 now w1) as (b2 & w2 & -> & Hr2 & Hp2 & Hd2).
  rewrite <- Hr1, <- Hp1, <- Hd1, <- Hr2, <- Hp2, <- Hd2.
  destruct b2; [simpl; auto|].
  destruct (Utils.detect_gps_spam _ _ _ _ _ _ _ _) as [[|]|e]; [simpl; auto| |simpl; auto].
  destruct (negb _); [simpl; auto|].
  destruct (b64decode _ _) as [raw|]; [|simpl; auto].
  unfold lift. destruct (Utils.calculate_phash ext raw) as [h|e]; [|simpl; auto].
  unfold gets. destruct (Api.image_hash_exists h w2) eqn:Hexists; [simpl; auto|].
  unfold Utils.ai_validate_pothole, Api.create_report, ret.
  assert (Hfresh : forall k r0, reports w2 !! k = Some r0 ->
            PotholeReport.image_hash r0 <> h).
  { intros k r0 Hrow Hh. unfold Api.image_hash_exists in Hexists.
    assert (Hin : In r0 (all_rows (reports w2))).
    { unfold all_rows. apply list_elem_of_In, list_elem_of_fmap.
      exists (k, r0). split; [reflexivity|]. apply elem_of_map_to_list. exact Hrow. }
    assert (Htrue : existsb (fun r => String.eqb (PotholeReport.image_hash r) h)
                      (all_rows (reports w2)) = true).
    { apply existsb_exists. exists r0. split; [exact Hin|].
      rewrite Hh. apply String.eqb_refl. }
    congruence. }
  destruct (AI_BYPASS ext); simpl;
    (destruct (severity payload <? 0); [simpl; auto|]);
    (destruct (reports w2 !! uuid_pk) eqn:Hpk; [simpl; auto|]);
    simpl; (split; [reflexivity|]); (split; [reflexivity|]);
    right; eexists; (split; [reflexivity|]); simpl; auto.
Qed.

End Pipeline.

Section Invariants.

Lemma for_each_preserves {A} (P : World -> Prop) (rows : list A) (body : A -> M unit) :
  (forall x w, P w -> P (snd (body x w))) ->
  forall w, P w -> P (snd (for_each rows body w)).
Proof.
  intros Hbody. induction rows as [|x rest IH]; intros w HP; [exact HP|].
  simpl. unfold bind. specialize (Hbody x w HP).
  destruct (body x w) as [[[]|e] w1]; simpl in *; [apply IH|]; exact Hbody.
Qed.

Lemma balances_nonneg_profiles (w w' : World) :
  profiles w' = profiles w -> Inv.balances_nonneg w -> Inv.balances_nonneg w'.
Proof. unfold Inv.balances_nonneg. intros ->. auto. Qed.

Lemma balances_nonneg_insert (w w' : World) (k : Z) (p : UserProfile.t) :
  profiles w' = <[k := p]> (profiles w) -> 0 <= UserProfile.points p ->
  Inv.balances_nonneg w -> Inv.balances_nonneg w'.
Proof.
  unfold Inv.balances_nonneg. intros -> Hp Hinv u q Hrow.
  destruct (decide (k = u)) as [->|Hne].
  - rewrite lookup_insert_eq in Hrow. congruence.
  - rewrite lookup_insert_ne in Hrow by exact Hne. eauto.
Qed.

Lemma award_report_points_nonneg (now : Z) (report : PotholeReport.t) (w : World) :
  Inv.balances_nonneg w ->
  Inv.balances_nonneg (snd (Utils.award_report_points now report w)).
Proof.
  intros Hinv. unfold Utils.award_report_points.
  destruct (0 <? _); [exact Hinv|]. run.
  destruct (PotholeReport.user report) as [u|]; simpl; [|exact Hinv].
  destruct (profiles w !! u) as [p|] eqn:Hp; simpl; [|exact Hinv].
  eapply balances_nonneg_insert; [reflexivity| |exact Hinv].
  simpl. specialize (Hinv u p Hp). lia.
Qed.

Lemma approve_reports_body_nonneg (admin_user now : Z) (report : PotholeReport.t)
    (w : World) :
  Inv.balances_nonneg w ->
  Inv.balances_nonneg (snd (Admin.approve_reports_body admin_user now report w)).
Proof.
  intros Hinv. unfold Admin.approve_reports_body.
  destruct (negb (PotholeReport.Status_eqb _ _)); [exact Hinv|].
  destruct (negb (PotholeReport.ai_valid report)); [exact Hinv|].
  unfold bind at 1. unfold save_report at 1. unfold bind at 1. unfold modify, ret.
  apply award_report_points_nonneg.
  eapply balances_nonneg_profiles; [|exact Hinv]. reflexivity.
Qed.

Lemma approve_redemption_body_nonneg (ext : External) (admin_user now : Z) (n : nat)
    (r : RedemptionRequest.t) (w : World) :
  Inv.balances_nonneg w ->
  Inv.balances_nonneg (snd (Admin.approve_redemption_body ext admin_user now n r w)).
Proof.
  intros Hinv. unfold Admin.approve_redemption_body.
  destruct (negb _); [exact Hinv|].
  unfold bind at 1. unfold lift.
  destruct (Utils.send_airtime_to_user _ _ _ _) as [[success ref]|e];
    [destruct success|exact Hinv].
  - unfold bind at 1. unfold profile_of. simpl.
    destruct (profiles w !! RedemptionRequest.user r) as [p|]; simpl; [|exact Hinv].
    unfold bind, save_profile, bind, modify, ret, save_redemption. simpl.
    destruct (reference_taken _ _ _); simpl;
      (eapply balances_nonneg_insert; [reflexivity| |exact Hinv]); simpl; lia.
  - unfold bind, save_redemption, ret. simpl.
    destruct (reference_taken _ _ _); simpl; exact Hinv.
Qed.

Lemma approve_redemption_loop_nonneg (ext : External) (admin_user now : Z)
    (rows : list RedemptionRequest.t) :
  forall n w,
    Inv.balances_nonneg w ->
    Inv.balances_nonneg (snd (Admin.approve_redemption_loop ext admin_user now n rows w)).
Proof.
  induction rows as [|r rest IH]; intros n w Hinv; [exact Hinv|].
  simpl. unfold bind.
  pose proof (approve_redemption_body_nonneg ext admin_user now n r w Hinv) as Hbody.
  destruct (Admin.approve_redemption_body ext admin_user now n r w) as [[inst|e] w1];
    simpl in *; [apply IH|]; exact Hbody.
Qed.

(** No operation makes a balance negative: when every profile has
    [points >= 0], so it is after [submit_report], [redeem_points],
    [approve_reports], [reject_reports] and [approve_redemption], whatever
    the arguments and the outcome. *)
Theorem balances_stay_nonneg (ext : External) (request : Request) (now : Z)
    (w : World) :
  Inv.balances_nonneg w ->
  (forall payload uuid_file uuid_pk,
      Inv.balances_nonneg
        (snd (Api.submit_report ext request payload now uuid_file uuid_pk w)))
  /\ (forall payload uuid_hex,
      Inv.balances_nonneg (snd (Api.redeem_points ext request payload now uuid_hex w)))
  /\ (forall queryset,
      Inv.balances_nonneg (snd (Admin.approve_reports request queryset now w)))
  /\ (forall queryset,
      Inv.balances_nonneg (snd (Admin.reject_reports request queryset now w)))
  /\ (forall queryset,
      Inv.balances_nonneg (snd (Admin.approve_redemption ext request queryset now w))).
Proof.
  intros Hinv. repeat split.
  - intros payload uuid_file uuid_pk.
    destruct (submit_report_tables ext request payload now uuid_file uuid_pk w)
      as (Hp & _).
    eapply balances_nonneg_profiles; [exact Hp | exact Hinv].
  - intros payload uuid_hex.
    eapply balances_nonneg_profiles; [|exact Hinv].
    unfold Api.redeem_points, bind, profile_of, orRaise, ret.
    destruct (profiles w !! auth request); [|reflexivity].
    destruct (_ <=? 0); [reflexivity|].
    destruct (negb _); [reflexivity|].
    destruct (_ <? _); [reflexivity|].
    unfold Api.create_redemption. simpl.
    destruct (reference_taken _ _ _); reflexivity.
  - intros queryset. unfold Admin.approve_reports. unfold bind at 1. unfold gets.
    apply for_each_preserves; [|exact Hinv].
    intros report w0 Hw0. unfold bind, ret.
    pose proof (approve_reports_body_nonneg (auth request) now report w0 Hw0) as Hbody.
    now destruct (Admin.approve_reports_body _ _ _ _) as [[r'|e] w1].
  - intros queryset. unfold Admin.reject_reports. unfold bind at 1. unfold gets.
    rewrite reject_reports_loop. simpl.
    eapply balances_nonneg_profiles; [|exact Hinv]. reflexivity.
  - intros queryset. unfold Admin.approve_redemption. unfold bind at 1. unfold gets.
    apply approve_redemption_loop_nonneg. exact Hinv.
Qed.


End Invariants.


Lemma balances_stay_nonneg_witness :
  (forall payload uuid_file uuid_pk,
      Inv.balances_nonneg
        (snd (Api.submit_report Sample.ext (Sample.request_of Sample.tester) payload
                1000 uuid_file uuid_pk (Sample.world 100))))
  /\ (forall payload uuid_hex,
      Inv.balances_nonneg
        (snd (Api.redeem_points Sample.ext (Sample.request_of Sample.tester) payload
                1000 uuid_hex (Sample.world 100))))
  /\ (forall queryset,
      Inv.balances_nonneg
        (snd (Admin.approve_reports (Sample.request_of Sample.tester) queryset 1000
                (Sample.world 100))))
  /\ (forall queryset,
      Inv.balances_nonneg
        (snd (Admin.reject_reports (Sample.request_of Sample.tester) queryset 1000
                (Sample.world 100))))
  /\ (forall queryset,
      Inv.balances_nonneg
        (snd (Admin.approve_redemption Sample.ext (Sample.request_of Sample.tester)
                queryset 1000 (Sample.world 100)))).
Proof.
  apply (balances_stay_nonneg Sample.ext (Sample.request_of Sample.tester) 1000
           (Sample.world 100)).
  intros u p Hrow. simpl in Hrow. apply lookup_singleton_Some in Hrow.
  destruct Hrow as (_ & <-). simpl. lia.
Defined.

Section Attempts.

Lemma rl_keys_differ (a b : string) :
  "rl:" ++ "rep:ip:" ++ a <> "rl:" ++ "rep:user:" ++ b.
Proof. simpl. discriminate. Qed.

Lemma submit_report_counts (ext : External) (request : Request)
    (payload : ReportSubmitRequest) (now : Z) (uuid_file uuid_pk : string)
    (w : World) (count : Z) :
  Utils.cache_get now ("rl:" ++ "rep:user:" ++ pretty (auth request)) 0 (cache w)
  = count ->
  count < 3 ->
  forall t, now <= t < now + 60 * 1000000 ->
    Utils.cache_get t ("rl:" ++ "rep:user:" ++ pretty (auth request)) 0
      (cache (snd (Api.submit_report ext request payload now uuid_file uuid_pk w)))
    = count + 1.
Proof.
  intros Hcount Hlt t Ht.
  unfold Api.submit_report, bind.
  rewrite rate_limit_step. cbv zeta. rewrite Hcount.
  assert ((3 <=? count) = false) as -> by (apply Z.leb_gt; lia).
  rewrite rate_limit_step. cbv zeta.
  set (w1 := with_cache _ w).
  assert (Hw1 : Utils.cache_get t ("rl:" ++ "rep:user:" ++ pretty (auth request)) 0
                  (cache w1) = count + 1).
  { unfold w1. simpl. rewrite cache_get_set.
    assert ((t <? now + 60 * 1000000) = true) as -> by (apply Z.ltb_lt; lia).
    reflexivity. }
  destruct (10 <=? _); [exact Hw1|].
  set (w2 := with_cache _ w1).
  assert (Hw2 : Utils.cache_get t ("rl:" ++ "rep:user:" ++ pretty (auth request)) 0
                  (cache w2) = count + 1).
  { unfold w2. simpl. rewrite cache_get_set_other by apply rl_keys_differ.
    exact Hw1. }
  clearbody w2. clear w1 Hw1.
  destruct (Utils.detect_gps_spam _ _ _ _ _ _ _ _) as [[|]|e]; try exact Hw2.
  destruct (negb _); [exact Hw2|].
  destruct (b64decode _ _) as [raw|]; [|exact Hw2].
  unfold lift. destruct (Utils.calculate_phash ext raw) as [h|e]; [|exact Hw2].
  unfold gets. destruct (Api.image_hash_exists h w2); [exact Hw2|].
  unfold Utils.ai_validate_pothole, Api.create_report, ret.
  destruct (AI_BYPASS ext); simpl;
    (destruct (severity payload <? 0); [exact Hw2|]);
    (destruct (reports w2 !! uuid_pk); exact Hw2).
Qed.

(** Every call of [submit_report] by a user under the per-user limit
    is counted against that limit, whatever the call ends in (an answer of
    any kind, or an exception): for the next 60 seconds the user's count is
    one higher. *)
Theorem submit_report_counts_attempt (ext : External) (request : Request)
    (payload : ReportSubmitRequest) (now : Z) (uuid_file uuid_pk : string)
    (w : World) (count : Z) :
  Utils.cache_get now ("rl:" ++ "rep:user:" ++ pretty (auth request)) 0 (cache w)
  = count ->
  count < 3 ->
  forall t, now <= t < now + 60 * 1000000 ->
    Utils.cache_get t ("rl:" ++ "rep:user:" ++ pretty (auth request)) 0
      (cache (snd (Api.submit_report ext request payload now uuid_file uuid_pk w)))
    = count + 1.
Proof. exact (submit_report_counts ext request payload now uuid_file uuid_pk w count). Qed.

End Attempts.

Lemma submit_report_counts_attempt_witness :
  Utils.cache_get 1000 ("rl:" ++ "rep:user:" ++ pretty Sample.tester) 0
    (cache (snd (Api.submit_report Sample.ext (Sample.request_of Sample.tester)
                   (Sample.submission "data:image/png;base64,aGVsbG8=")
                   1000 "f1" "p1" (Sample.world 0))))
  = 0 + 1.
Proof.
  apply (submit_report_counts_attempt Sample.ext (Sample.request_of Sample.tester)
           (Sample.submission "data:image/png;base64,aGVsbG8=") 1000 "f1" "p1"
           (Sample.world 0) 0); [reflexivity | lia | lia].
Defined.

(** ** Repeated submissions and repeated approvals *)

Section Throttle.

Lemma submit_report_limited (ext : External) (request : Request)
    (payload : ReportSubmitRequest) (now : Z) (uuid_file uuid_pk : string)
    (w : World) :
  3 <= Utils.cache_get now ("rl:" ++ "rep:user:" ++ pretty (auth request)) 0 (cache w) ->
  Api.submit_report ext request payload now uuid_file uuid_pk w
  = (Ok (ErrorResponse 429 "Too many reports. Slow down."), w).
Proof.
  intros Hcount. unfold Api.submit_report, bind.
  rewrite rate_limit_step. cbv zeta.
  assert ((3 <=? Utils.cache_get now ("rl:" ++ "rep:user:" ++ pretty (auth request)) 0
                   (cache w)) = true) as Hlimit by (apply Z.leb_le; exact Hcount).
  change (("rl:" ++ "rep:user:" ++ pretty (auth request)))
    with ("rl:" ++ ("rep:user:" ++ pretty (auth request))) in Hlimit.
  rewrite Hlimit. reflexivity.
Qed.

(** Three calls of [submit_report] by one user, starting without a
    live count and each made less than 60 seconds after the previous one,
    use up the limit whatever they end in: a fourth call less than 60
    seconds after the third is answered 429 "Too many reports. Slow down."
    and changes nothing. *)
Theorem fourth_submission_refused (ext : External) (request : Request)
    (p1 p2 p3 p4 : ReportSubmitRequest) (t1 t2 t3 t4 : Z)
    (f1 k1 f2 k2 f3 k3 f4 k4 : string) (w : World) :
  Utils.cache_get t1 ("rl:" ++ "rep:user:" ++ pretty (auth request)) 0 (cache w) = 0 ->
  t1 <= t2 < t1 + 60 * 1000000 ->
  t2 <= t3 < t2 + 60 * 1000000 ->
  t3 <= t4 < t3 + 60 * 1000000 ->
  let w1 := snd (Api.submit_report ext request p1 t1 f1 k1 w) in
  let w2 := snd (Api.submit_report ext request p2 t2 f2 k2 w1) in
  let w3 := snd (Api.submit_report ext request p3 t3 f3 k3 w2) in
  Api.submit_report ext request p4 t4 f4 k4 w3
  = (Ok (ErrorResponse 429 "Too many reports. Slow down."), w3).
Proof.
  intros Hfresh H12 H23 H34 w1 w2 w3.
  pose proof (submit_report_counts ext request p1 t1 f1 k1 w 0 Hfresh
                ltac:(lia) t2 H12) as Hc1. fold w1 in Hc1.
  pose proof (submit_report_counts ext request p2 t2 f2 k2 w1 _ Hc1
                ltac:(lia) t3 H23) as Hc2. fold w2 in Hc2.
  pose proof (submit_report_counts ext request p3 t3 f3 k3 w2 _ Hc2
                ltac:(lia) t4 H34) as Hc3. fold w3 in Hc3.
  apply submit_report_limited. rewrite Hc3. lia.
Qed.

End Throttle.

Lemma fourth_submission_refused_witness :
  Api.submit_report Sample.ext (Sample.request_of Sample.tester)
    (Sample.submission "data:image/png;base64,white") 40000000 "f4" "p4"
    (snd (Api.submit_report Sample.ext (Sample.request_of Sample.tester)
            (Sample.submission "not base64") 30000000 "f3" "p3"
            (snd (Api.submit_report Sample.ext (Sample.request_of Sample.tester)
                    (Sample.submission "data:image/png;base64,aGVsbG8=") 20000000
                    "f2" "p2"
                    (snd (Api.submit_report Sample.ext (Sample.request_of Sample.tester)
                            (Sample.submission "data:image/png;base64,white") 10000000
                            "f1" "p1" (Sample.world 0)))))))
  = (Ok (ErrorResponse 429 "Too many reports. Slow down."),
     snd (Api.submit_report Sample.ext (Sample.request_of Sample.tester)
            (Sample.submission "not base64") 30000000 "f3" "p3"
            (snd (Api.submit_report Sample.ext (Sample.request_of Sample.tester)
                    (Sample.submission "data:image/png;base64,aGVsbG8=") 20000000
                    "f2" "p2"
                    (snd (Api.submit_report Sample.ext (Sample.request_of Sample.tester)
                            (Sample.submission "data:image/png;base64,white") 10000000
                            "f1" "p1" (Sample.world 0))))))).
Proof.
  apply (fourth_submission_refused Sample.ext (Sample.request_of Sample.tester)
           (Sample.submission "data:image/png;base64,white")
           (Sample.submission "data:image/png;base64,aGVsbG8=")
           (Sample.submission "not base64")
           (Sample.submission "data:image/png;base64,white")
           10000000 20000000 30000000 40000000
           "f1" "p1" "f2" "p2" "f3" "p3" "f4" "p4" (Sample.world 0));
    [reflexivity | lia | lia | lia].
Defined.

Section ApproveTwice.

(** What one iteration of [approve_reports] that ends normally does to
    the Report table: only the row of its Report is written, and that row
    is decided afterwards. *)
Lemma approve_reports_body_effect (admin_user now : Z) (report : PotholeReport.t)
    (w w' : World) (out : PotholeReport.t) :
  reports w !! PotholeReport.id report = Some report ->
  Admin.approve_reports_body admin_user now report w = (Ok out, w') ->
  (exists r', reports w' !! PotholeReport.id report = Some r'
              /\ PotholeReport.status r' <> PotholeReport.PENDING)
  /\ (forall k, k <> PotholeReport.id report -> reports w' !! k = reports w !! k).
Proof.
  intros Hrow. unfold Admin.approve_reports_body.
  destruct (PotholeReport.status report) eqn:Hst; simpl.
  - destruct (PotholeReport.ai_valid report); simpl.
    + unfold bind at 1. unfold save_report at 1. unfold bind at 1. unfold modify, ret.
      unfold Utils.award_report_points. simpl.
      destruct (0 <? PotholeReport.points_awarded report).
      * unfold ret. intros Heq. inversion Heq; subst; clear Heq. simpl. split.
        -- eexists. split; [apply lookup_insert_eq|]. simpl. discriminate.
        -- intros k Hk. now rewrite lookup_insert_ne.
      * run. destruct (PotholeReport.user report) as [u|]; simpl; [|discriminate].
        destruct (profiles w !! u) as [p|]; simpl; [|discriminate].
        intros Heq. inversion Heq; subst; clear Heq. simpl. split.
        -- eexists. split; [apply lookup_insert_eq|]. simpl. discriminate.
        -- intros k Hk. now rewrite !lookup_insert_ne.
    + run. intros Heq. inversion Heq; subst; clear Heq. simpl. split.
      * eexists. split; [apply lookup_insert_eq|]. simpl. discriminate.
      * intros k Hk. now rewrite lookup_insert_ne.
  - unfold ret. intros Heq. inversion Heq; subst; clear Heq. split; [|reflexivity].
    exists out. split; [exact Hrow|]. rewrite Hst. discriminate.
  - unfold ret. intros Heq. inversion Heq; subst; clear Heq. split; [|reflexivity].
    exists out. split; [exact Hrow|]. rewrite Hst. discriminate.
Qed.

Lemma approve_reports_loop_effect (admin_user now : Z) (rows : list PotholeReport.t) :
  forall w w',
    NoDup (map PotholeReport.id rows) ->
    (forall r, In r rows -> reports w !! PotholeReport.id r = Some r) ->
    for_each rows (fun report =>
      bind (Admin.approve_reports_body admin_user now report) (fun _ => ret tt)) w
    = (Ok tt, w') ->
    (forall r, In r rows ->
       exists r', reports w' !! PotholeReport.id r = Some r'
                  /\ PotholeReport.status r' <> PotholeReport.PENDING)
    /\ (forall k, ~ In k (map PotholeReport.id rows) ->
          reports w' !! k = reports w !! k).
Proof.
  induction rows as [|r rest IH]; intros w w' Hnodup Hrows Hrun.
  - simpl in Hrun. inversion Hrun; subst. split; [intros r []|reflexivity].
  - simpl in Hrun. unfold bind at 1 in Hrun. unfold bind at 1 in Hrun.
    destruct (Admin.approve_reports_body admin_user now r w) as [[out|e] w1] eqn:Hbody;
      [|discriminate].
    unfold ret at 1 in Hrun.
    apply NoDup_cons in Hnodup. destruct Hnodup as (Hfresh & Hnodup).
    destruct (approve_reports_body_effect admin_user now r w w1 out
                (Hrows r (or_introl eq_refl)) Hbody) as ((r1 & Hr1 & Hdecided) & Hother).
    assert (Hrest : forall r2, In r2 rest -> reports w1 !! PotholeReport.id r2 = Some r2).
    { intros r2 Hr2. rewrite Hother; [apply Hrows; right; exact Hr2|].
      intros Heq. apply Hfresh. rewrite <- Heq.
      apply list_elem_of_In, in_map. exact Hr2. }
    destruct (IH w1 w' Hnodup Hrest Hrun) as (Hdone & Hkeep).
    split.
    + intros r2 [<-|Hr2]; [|exact (Hdone r2 Hr2)].
      exists r1. rewrite Hkeep; [auto|].
      intros Hin. apply Hfresh. apply list_elem_of_In. exact Hin.
    + intros k Hk. rewrite Hkeep, Hother; [reflexivity| |].
      * intros ->. apply Hk. left; reflexivity.
      * intros Hin. apply Hk. right; exact Hin.
Qed.

Lemma selected_rows_ids (queryset : list string) (w : World) :
  Inv.reports_keyed w ->
  NoDup queryset ->
  NoDup (map PotholeReport.id (selected_rows queryset (reports w))).
Proof.
  intros Hkeyed. unfold selected_rows.
  induction queryset as [|k rest IH]; intros Hnodup; simpl; [constructor|].
  apply NoDup_cons in Hnodup. destruct Hnodup as (Hfresh & Hnodup).
  destruct (reports w !! k) as [r|] eqn:Hrow; simpl; [|exact (IH Hnodup)].
  apply NoDup_cons. split; [|exact (IH Hnodup)].
  intros Hin. apply list_elem_of_In, in_map_iff in Hin.
  destruct Hin as (r2 & Hid & Hr2).
  apply selected_rows_In in Hr2. destruct Hr2 as (k2 & Hk2 & Hrow2).
  apply Hfresh. apply list_elem_of_In.
  rewrite <- (Hkeyed k r Hrow), <- Hid, (Hkeyed k2 r2 Hrow2). exact Hk2.
Qed.

(** The approve action is idempotent on a selection: when a run over
    distinct keys ends normally, a second run over the same keys returns
    normally and changes nothing (no Report is rewarded twice). *)
Theorem approve_reports_twice (request : Request) (queryset : list string)
    (now now' : Z) (w w' : World) :
  Inv.reports_keyed w ->
  NoDup queryset ->
  Admin.approve_reports request queryset now w = (Ok tt, w') ->
  Admin.approve_reports request queryset now' w' = (Ok tt, w').
Proof.
  intros Hkeyed Hnodup Hrun.
  unfold Admin.approve_reports in Hrun. unfold bind at 1 in Hrun. unfold gets in Hrun.
  destruct (approve_reports_loop_effect (auth request) now
              (selected_rows queryset (reports w)) w w'
              (selected_rows_ids queryset w Hkeyed Hnodup)) as (Hdone & Hkeep);
    [|exact Hrun|].
  { intros r Hr. apply selected_rows_In in Hr. destruct Hr as (k & _ & Hrow).
    now rewrite (Hkeyed k r Hrow). }
  unfold Admin.approve_reports. unfold bind at 1. unfold gets.
  apply for_each_skip. intros r2 Hr2.
  apply selected_rows_In in Hr2. destruct Hr2 as (k & Hk & Hrow2).
  unfold bind. rewrite approve_reports_body_decided; [reflexivity|].
  destruct (reports w !! k) as [r|] eqn:Hrow.
  - assert (Hin : In r (selected_rows queryset (reports w))).
    { unfold selected_rows. apply list_elem_of_In, list_elem_of_omap.
      exists k. split; [apply list_elem_of_In; exact Hk|exact Hrow]. }
    destruct (Hdone r Hin) as (r' & Hr' & Hdecided).
    rewrite (Hkeyed k r Hrow) in Hr'. congruence.
  - exfalso. rewrite Hkeep in Hrow2; [congruence|].
    intros Hin. apply in_map_iff in Hin. destruct Hin as (r & Hid & Hr).
    apply selected_rows_In in Hr. destruct Hr as (k2 & _ & Hrow').
    rewrite (Hkeyed k2 r Hrow') in Hid. congruence.
Qed.

End ApproveTwice.

Lemma approve_reports_twice_witness :
  Admin.approve_reports (Sample.request_of Sample.staff) ["r1"; "r2"] 300
    (snd (Admin.approve_reports (Sample.request_of Sample.staff) ["r1"; "r2"] 200
            (Sample.world_with_reports
               [Sample.report "r1" 100 true PotholeReport.PENDING 0;
                Sample.report "r2" 100 false PotholeReport.PENDING 0])))
  = (Ok tt,
     snd (Admin.approve_reports (Sample.request_of Sample.staff) ["r1"; "r2"] 200
            (Sample.world_with_reports
               [Sample.report "r1" 100 true PotholeReport.PENDING 0;
                Sample.report "r2" 100 false PotholeReport.PENDING 0]))).
Proof.
  apply (approve_reports_twice (Sample.request_of Sample.staff) ["r1"; "r2"] 200 300
           (Sample.world_with_reports
              [Sample.report "r1" 100 true PotholeReport.PENDING 0;
               Sample.report "r2" 100 false PotholeReport.PENDING 0])).
  - apply world_with_reports_keyed.
  - apply (bool_decide_unpack _). vm_compute. exact I.
  - vm_compute. reflexivity.
Defined.

(** ** The listing views *)

Section Lists.


#[local] Instance latest_first_total {V} (created_at : V -> Z) :
  Total (fun a b => created_at b <= created_at a).
Proof. intros a b. lia. Qed.

#[local] Instance latest_first_trans {V} (created_at : V -> Z) :
  Transitive (fun a b => created_at b <= created_at a).
Proof. intros a b c. lia. Qed.







End Lists.


(** ** core/validators.py *)

#[local] Arguments String.append : simpl nomatch.

Section Patterns.

Lemma unit_matches (c : ascii) (s : string) (pos : nat) (k : nat -> string -> bool) :
  Re.matches (Re.Alt (Re.Chars Validators.lower_alnum)
                (Re.Seq (Re.Chars Validators.dot_underscore)
                   (Re.Lookahead (Re.Chars Validators.lower_alnum))))
    pos (String c s) k
  = (Validators.lower_alnum c
     || Validators.dot_underscore c && Rules.head_alnum s)
    && k (S pos) s.
Proof.
  cbn [Re.matches]. unfold Rules.head_alnum.
  destruct (Validators.lower_alnum c), (Validators.dot_underscore c); simpl;
    try reflexivity;
    try (destruct s as [|d s']; simpl; [now rewrite ?orb_false_r|];
         destruct (Validators.lower_alnum d); simpl;
         now rewrite ?orb_false_r, ?orb_diag).
Qed.

Lemma repeat_unit_spec (lo hi pos : nat) (s : string) (k : nat -> string -> bool) :
  Re.repeat_matcher
    (Re.matches (Re.Alt (Re.Chars Validators.lower_alnum)
                   (Re.Seq (Re.Chars Validators.dot_underscore)
                      (Re.Lookahead (Re.Chars Validators.lower_alnum)))))
    lo hi pos s k = true
  <-> exists mid rest,
        s = mid ++ rest
        /\ (lo <= String.length mid <= hi)%nat
        /\ Rules.units_ok mid rest = true
        /\ k (pos + String.length mid)%nat rest = true.
Proof.
  revert lo pos s. induction hi as [|hi IH]; intros lo pos s.
  - simpl. split.
    + destruct lo; [|discriminate]. intros Hk. exists EmptyString, s.
      rewrite Nat.add_0_r. simpl. repeat split; auto.
    + intros (mid & rest & -> & Hlen & _ & Hk).
      destruct mid; simpl in Hlen; [|lia]. destruct lo; [|lia].
      simpl. now rewrite Nat.add_0_r in Hk.
  - cbn [Re.repeat_matcher]. rewrite orb_true_iff. split.
    + intros [Hmore|Hstop].
      * destruct s as [|c s']; [discriminate|].
        rewrite unit_matches in Hmore. apply andb_true_iff in Hmore.
        destruct Hmore as (Hc & Hrest). apply IH in Hrest.
        destruct Hrest as (mid & rest & -> & Hlen & Hunits & Hk).
        exists (String c mid), rest. simpl. repeat split; try lia.
        -- rewrite Hc, Hunits. reflexivity.
        -- now rewrite <- Nat.add_succ_comm.
      * destruct lo; [|discriminate]. exists EmptyString, s.
        rewrite Nat.add_0_r. simpl. repeat split; auto. lia.
    + intros (mid & rest & -> & Hlen & Hunits & Hk).
      destruct mid as [|c mid].
      * right. destruct lo; [|simpl in Hlen; lia].
        now rewrite Nat.add_0_r in Hk.
      * left. simpl in Hunits. apply andb_true_iff in Hunits.
        destruct Hunits as (Hc & Hunits).
        change (String c mid ++ rest) with (String c (mid ++ rest)).
        rewrite unit_matches, Hc. simpl.
        apply IH. exists mid, rest. simpl in Hlen. repeat split; try lia; auto.
        now rewrite Nat.add_succ_comm.
Qed.

Lemma search_from_bol (r : Re.t) (s : string) :
  forall pos, Re.search_from (Re.Seq Re.Bol r) (S pos) s = false.
Proof. induction s as [|c s IH]; intros pos; simpl; [reflexivity|apply IH]. Qed.

Lemma search_bol (r : Re.t) (s : string) :
  Re.search (Re.Seq Re.Bol r) s = Re.matches r 0 s (fun _ _ => true).
Proof.
  unfold Re.search. destruct s as [|c s]; simpl.
  - apply orb_false_r.
  - rewrite search_from_bol. apply orb_false_r.
Qed.

Lemma eol_matches (pos : nat) (s : string) :
  Re.matches Re.Eol pos s (fun _ _ => true) = true
  <-> s = EmptyString \/ s = String "010" EmptyString.
Proof.
  simpl. destruct s as [|c [|d s]].
  - tauto.
  - rewrite andb_true_r. split.
    + intros Hc. apply Ascii.eqb_eq in Hc. right. now subst c.
    + intros [H|H]; [discriminate|]. inversion H. reflexivity.
  - split; [discriminate|]. intros [H|H]; discriminate.
Qed.

Lemma append_empty_r (s : string) : s ++ EmptyString = s.
Proof. induction s as [|c s IH]; simpl; [reflexivity|now rewrite IH]. Qed.

Lemma append_assoc (a b c : string) : (a ++ b) ++ c = a ++ (b ++ c).
Proof. induction a as [|x a IH]; simpl; [reflexivity|now rewrite IH]. Qed.

Lemma app_last_inj (a b : string) (c d : ascii) :
  a ++ String c EmptyString = b ++ String d EmptyString -> a = b /\ c = d.
Proof.
  revert b. induction a as [|x a IH]; intros [|y b] Heq; simpl in Heq.
  - inversion Heq. auto.
  - inversion Heq as [[Hx Hrest]]. destruct b; discriminate.
  - inversion Heq as [[Hx Hrest]]. destruct a; discriminate.
  - inversion Heq as [[Hx Hrest]]. apply IH in Hrest. destruct Hrest. subst. auto.
Qed.

Lemma string_snoc (s : string) :
  s = EmptyString \/ exists front z, s = front ++ String z EmptyString.
Proof.
  induction s as [|c s IH]; [now left|]. right.
  destruct IH as [->|(front & z & ->)].
  - now exists EmptyString, c.
  - now exists (String c front), z.
Qed.

Lemma all_chars_app (cls : ascii -> bool) (a b : string) :
  Rules.all_chars cls (a ++ b) = Rules.all_chars cls a && Rules.all_chars cls b.
Proof.
  induction a as [|x a IH]; simpl; [reflexivity|].
  now rewrite IH, andb_assoc.
Qed.

Lemma alnum_not_sep (c : ascii) :
  Validators.lower_alnum c = true -> Validators.dot_underscore c = true -> False.
Proof.
  destruct c as [[] [] [] [] [] [] [] []]; vm_compute; intros; discriminate.
Qed.

Lemma units_ok_tail (mid : string) (z : ascii) (t1 t2 : string) :
  Rules.units_ok mid (String z t1) = Rules.units_ok mid (String z t2).
Proof.
  induction mid as [|c mid IH]; simpl; [reflexivity|].
  rewrite IH. now destruct mid.
Qed.

Lemma units_ok_allowed (mid rest : string) :
  Rules.units_ok mid rest = true ->
  Rules.all_chars (fun c => Validators.lower_alnum c || Validators.dot_underscore c)
    mid = true.
Proof.
  induction mid as [|c mid IH]; simpl; [reflexivity|].
  intros H. apply andb_true_iff in H. destruct H as (Hc & Hrest).
  rewrite (IH Hrest), andb_true_r.
  destruct (Validators.lower_alnum c); [reflexivity|].
  simpl in Hc |- *. now destruct (Validators.dot_underscore c).
Qed.

Lemma units_ok_no_double (mid rest : string) :
  Rules.units_ok mid rest = true ->
  forall front c d back,
    mid ++ rest = front ++ String c (String d back) ->
    (String.length front < String.length mid)%nat ->
    Validators.dot_underscore c = true ->
    Validators.dot_underscore d = true -> False.
Proof.
  induction mid as [|m mid IH]; intros Hunits front c d back Heq Hlen Hc Hd;
    [simpl in Hlen; lia|].
  simpl in Hunits. apply andb_true_iff in Hunits. destruct Hunits as (Hm & Hunits).
  destruct front as [|f front]; simpl in Heq; inversion Heq as [[Hhead Hrest]].
  - subst m. rewrite Hrest in Hm. simpl in Hm.
    destruct (Validators.lower_alnum c) eqn:Hac; [exact (alnum_not_sep c Hac Hc)|].
    rewrite Hc in Hm. simpl in Hm. exact (alnum_not_sep d Hm Hd).
  - apply (IH Hunits front c d back Hrest); [simpl in Hlen; lia|exact Hc|exact Hd].
Qed.

Lemma units_ok_intro (mid rest : string) :
  Rules.all_chars (fun c => Validators.lower_alnum c || Validators.dot_underscore c)
    mid = true ->
  Rules.head_alnum rest = true ->
  (forall front c d back,
     mid ++ rest = front ++ String c (String d back) ->
     Validators.dot_underscore c = true ->
     Validators.dot_underscore d = true -> False) ->
  Rules.units_ok mid rest = true.
Proof.
  induction mid as [|m mid IH]; intros Hall Hrest Hno; [reflexivity|].
  simpl in Hall. apply andb_true_iff in Hall. destruct Hall as (Hm & Hall).
  simpl. rewrite IH; [|exact Hall|exact Hrest|].
  - rewrite andb_true_r.
    destruct (Validators.lower_alnum m) eqn:Ham; [reflexivity|].
    simpl in Hm |- *. rewrite Hm. simpl.
    destruct mid as [|d mid]; [exact Hrest|].
    simpl in Hall |- *. apply andb_true_iff in Hall. destruct Hall as (Hd & _).
    destruct (Validators.lower_alnum d) eqn:Had; [reflexivity|].
    simpl in Hd. exfalso.
    apply (Hno EmptyString m d (mid ++ rest)); [reflexivity|exact Hm|exact Hd].
  - intros front c d back Heq. apply (Hno (String m front) c d back).
    simpl. now rewrite Heq.
Qed.

(** The shape the pattern imposes, and the rules in words. *)
Lemma username_structure (u : string) :
  (exists a mid z,
      u = String a (mid ++ String z EmptyString)
      /\ Validators.lower_alnum a = true
      /\ (1 <= String.length mid <= 23)%nat
      /\ Rules.units_ok mid (String z EmptyString) = true
      /\ Validators.lower_alnum z = true)
  <-> Rules.username u.
Proof.
  split.
  - intros (a & mid & z & -> & Ha & Hlen & Hunits & Hz).
    unfold Rules.username. repeat split.
    + simpl. rewrite append_length. simpl. lia.
    + simpl. rewrite append_length. simpl. lia.
    + simpl. rewrite Ha, all_chars_app, (units_ok_allowed _ _ Hunits). simpl.
      now rewrite Hz.
    + now exists a, (mid ++ String z EmptyString).
    + now exists (String a mid), z.
    + intros front c d back Heq Hc Hd.
      destruct front as [|f front]; simpl in Heq; inversion Heq as [[Hhead Hrest]].
      * subst c. exact (alnum_not_sep a Ha Hc).
      * apply (units_ok_no_double _ _ Hunits front c d back Hrest); [|exact Hc|exact Hd].
        apply (f_equal String.length) in Hrest.
        rewrite !append_length in Hrest. simpl in Hrest. lia.
  - intros (Hlen & Hall & (a & rest & -> & Ha) & (front & z & Hlast & Hz) & Hno).
    destruct front as [|f mid]; simpl in Hlast.
    { inversion Hlast as [[Hhead Hrest]]. subst rest. simpl in Hlen. lia. }
    inversion Hlast as [[Hhead Hrest]]. subst f rest.
    exists a, mid, z. simpl in Hlen. rewrite append_length in Hlen. simpl in Hlen.
    simpl in Hall. rewrite Ha, all_chars_app in Hall. simpl in Hall.
    apply andb_true_iff in Hall. destruct Hall as (Hmid & _).
    repeat split; try lia; try assumption.
    apply units_ok_intro; [exact Hmid|exact Hz|].
    intros front c d back Heq. apply (Hno (String a front) c d back).
    simpl. now rewrite Heq.
Qed.

Lemma username_regex_matches (s : string) :
  Re.search Validators.USERNAME_REGEX s = true
  <-> exists a mid z tail,
        s = String a (mid ++ String z tail)
        /\ Validators.lower_alnum a = true
        /\ (1 <= String.length mid <= 23)%nat
        /\ Rules.units_ok mid (String z tail) = true
        /\ Validators.lower_alnum z = true
        /\ (tail = EmptyString \/ tail = String "010" EmptyString).
Proof.
  unfold Validators.USERNAME_REGEX. rewrite search_bol.
  cbn [Re.matches]. split.
  - destruct s as [|a s]; [discriminate|].
    intros H. apply andb_true_iff in H. destruct H as (Ha & H).
    apply repeat_unit_spec in H. destruct H as (mid & rest & -> & Hlen & Hunits & Hk).
    destruct rest as [|z tail]; [discriminate|].
    apply andb_true_iff in Hk. destruct Hk as (Hz & Htail).
    apply (eol_matches (S (1 + String.length mid))) in Htail.
    exists a, mid, z, tail. auto 10.
  - intros (a & mid & z & tail & -> & Ha & Hlen & Hunits & Hz & Htail).
    rewrite Ha. cbn [andb]. apply repeat_unit_spec.
    exists mid, (String z tail). repeat split; try lia; [exact Hunits|].
    rewrite Hz. cbn [andb].
    apply (eol_matches (S (1 + String.length mid))). exact Htail.
Qed.

End Patterns.

Section UsernameClaims.

Lemma username_pattern_validator_spec (value : string) :
  Validators.username_pattern_validator value = Validators.Valid tt
  <-> Rules.username value
      \/ exists name, value = name ++ String "010" EmptyString /\ Rules.username name.
Proof.
  unfold Validators.username_pattern_validator, Validators.RegexValidator.
  destruct (Re.search Validators.USERNAME_REGEX value) eqn:Hsearch.
  - split; [intros _|reflexivity].
    apply username_regex_matches in Hsearch.
    destruct Hsearch as (a & mid & z & tail & -> & Ha & Hlen & Hunits & Hz & [->| ->]).
    + left. apply username_structure. exists a, mid, z. auto.
    + right. exists (String a (mid ++ String z EmptyString)). split.
      * simpl. now rewrite append_assoc.
      * apply username_structure. exists a, mid, z.
        split; [reflexivity|]. split; [exact Ha|]. split; [exact Hlen|].
        split; [|exact Hz].
        rewrite (units_ok_tail mid z EmptyString (String "010" EmptyString)).
        exact Hunits.
  - split; [discriminate|]. intros Hrules. exfalso.
    assert (Re.search Validators.USERNAME_REGEX value = true); [|congruence].
    apply username_regex_matches.
    destruct Hrules as [Hrules|(name & -> & Hrules)];
      apply username_structure in Hrules;
      destruct Hrules as (a & mid & z & -> & Ha & Hlen & Hunits & Hz).
    + exists a, mid, z, EmptyString. auto 10.
    + exists a, mid, z, (String "010" EmptyString).
      split; [simpl; now rewrite append_assoc|].
      split; [exact Ha|]. split; [exact Hlen|].
      split; [|split; [exact Hz|now right]].
      rewrite (units_ok_tail mid z (String "010" EmptyString) EmptyString).
      exact Hunits.
Qed.

(** The user-name pattern accepts exactly the names that follow the
    rules written above it in core/validators.py, and also such a name
    followed by one newline ([$] matches before a final newline). *)
Theorem username_pattern_validator_accepts (value : string) :
  Validators.username_pattern_validator value = Validators.Valid tt
  <-> Rules.username value
      \/ exists name, value = name ++ String "010" EmptyString /\ Rules.username name.
Proof. exact (username_pattern_validator_spec value). Qed.

End UsernameClaims.

Section Normal.

Lemma rstrip_last (t : string) :
  forall front c,
    Py.rstrip t = front ++ String c EmptyString -> Py.isspace c = false.
Proof.
  induction t as [|a t IH]; intros front c Heq.
  - destruct front; discriminate.
  - cbn [Py.rstrip] in Heq. destruct (Py.rstrip t) as [|b kept] eqn:Hkept.
    + destruct (Py.isspace a) eqn:Ha; [destruct front; discriminate|].
      destruct front as [|f front]; simpl in Heq.
      * inversion Heq. now subst.
      * inversion Heq. destruct front; discriminate.
    + destruct front as [|f front]; simpl in Heq; [discriminate|].
      inversion Heq as [[Hf Hrest]]. exact (IH front c Hrest).
Qed.

Lemma rstrip_id (front : string) (z : ascii) :
  Py.isspace z = false ->
  Py.rstrip (front ++ String z EmptyString) = front ++ String z EmptyString.
Proof.
  intros Hz. induction front as [|f front IH]; simpl.
  - now rewrite Hz.
  - rewrite IH. now destruct front.
Qed.

Lemma allowed_lower (c : ascii) :
  Validators.lower_alnum c || Validators.dot_underscore c = true ->
  Validators.lower_char c = c.
Proof.
  destruct c as [[] [] [] [] [] [] [] []]; vm_compute; intros; congruence.
Qed.

Lemma alnum_not_space (c : ascii) :
  Validators.lower_alnum c = true -> Py.isspace c = false.
Proof.
  destruct c as [[] [] [] [] [] [] [] []]; vm_compute; intros; congruence.
Qed.

Lemma lower_id (s : string) :
  Rules.all_chars (fun c => Validators.lower_alnum c || Validators.dot_underscore c)
    s = true ->
  Validators.lower s = s.
Proof.
  induction s as [|c s IH]; simpl; [reflexivity|].
  intros H. apply andb_true_iff in H. destruct H as (Hc & Hs).
  now rewrite (allowed_lower c Hc), (IH Hs).
Qed.

(** A name that follows the rules is left as it is by [lower] and
    [strip]. *)
Lemma username_normal (u : string) :
  Rules.username u -> Py.strip (Validators.lower u) = u.
Proof.
  intros (_ & Hall & (a & rest & Hhead & Ha) & (front & z & Hlast & Hz) & _).
  rewrite (lower_id u Hall). unfold Py.strip.
  assert (Hl : Py.lstrip u = u).
  { rewrite Hhead. cbn [Py.lstrip]. now rewrite (alnum_not_space a Ha). }
  rewrite Hl, Hlast. apply rstrip_id. exact (alnum_not_space z Hz).
Qed.

Lemma strip_no_newline (x name : string) :
  Py.strip x = name ++ String "010" EmptyString -> False.
Proof.
  unfold Py.strip. intros H. apply rstrip_last in H. discriminate.
Qed.

End Normal.

Section ValidateUsername.

Lemma validate_username_spec (value : option string) :
  let username := Py.strip (Validators.lower (Validators.or_empty value)) in
  (forall name,
      Validators.validate_username value = Validators.Valid name
      <-> name = username
          /\ (username ∉ Validators.RESERVED_USERNAMES)
          /\ Rules.username username)
  /\ (Validators.validate_username value
      = Validators.ValidationError "reserved_username"
      <-> username ∈ Validators.RESERVED_USERNAMES)
  /\ (Validators.validate_username value
      = Validators.ValidationError "invalid_username"
      <-> (username ∉ Validators.RESERVED_USERNAMES) /\ ~ Rules.username username).
Proof.
  intros username. unfold Validators.validate_username. fold username.
  assert (Hpattern : Validators.username_pattern_validator username
                     = Validators.Valid tt <-> Rules.username username).
  { rewrite username_pattern_validator_spec. split; [|now left].
    intros [H|(name & Heq & _)]; [exact H|].
    exfalso. exact (strip_no_newline _ _ Heq). }
  generalize Validators.RESERVED_USERNAMES. intros reserved.
  destruct (bool_decide (username ∈ reserved)) eqn:Hres.
  - apply bool_decide_eq_true in Hres. split; [|split].
    + intros name. split; [discriminate|]. intros (_ & Hno & _). contradiction.
    + split; [intros _; exact Hres|reflexivity].
    + split; [discriminate|]. intros (Hno & _). contradiction.
  - apply bool_decide_eq_false in Hres.
    destruct (Validators.username_pattern_validator username) as [[]|code] eqn:Hv.
    + assert (Hrules : Rules.username username) by (now apply Hpattern).
      split; [|split].
      * intros name. split.
        -- intros H. inversion H. auto.
        -- intros (-> & _). reflexivity.
      * split; [discriminate|]. intros H. contradiction.
      * split; [discriminate|]. intros (_ & H). contradiction.
    + assert (Hcode : code = "invalid_username").
      { unfold Validators.username_pattern_validator, Validators.RegexValidator in Hv.
        destruct (Re.search _ _); [discriminate|]. now inversion Hv. }
      subst code.
      assert (Hrules : ~ Rules.username username).
      { intros H. apply Hpattern in H. discriminate. }
      split; [|split].
      * intros name. split; [discriminate|]. intros (_ & _ & H). contradiction.
      * split; [discriminate|]. intros H. contradiction.
      * split; [intros _; split; assumption|reflexivity].
Qed.

(** [validate_username] lowers and strips the value, then: it returns
    the normalised name exactly when that name is not reserved and follows
    the rules; it raises with code "reserved_username" exactly when the
    name is reserved; it raises with code "invalid_username" exactly when
    the name is not reserved and breaks the rules. *)
Theorem validate_username_accepts (value : option string) :
  let username := Py.strip (Validators.lower (Validators.or_empty value)) in
  (forall name,
      Validators.validate_username value = Validators.Valid name
      <-> name = username
          /\ (username ∉ Validators.RESERVED_USERNAMES)
          /\ Rules.username username)
  /\ (Validators.validate_username value
      = Validators.ValidationError "reserved_username"
      <-> username ∈ Validators.RESERVED_USERNAMES)
  /\ (Validators.validate_username value
      = Validators.ValidationError "invalid_username"
      <-> (username ∉ Validators.RESERVED_USERNAMES) /\ ~ Rules.username username).
Proof. exact (validate_username_spec value). Qed.

(** A name that [validate_username] returns is in normal form:
    validating it again returns it, and [User.save] stores it as it is. *)
Theorem validate_username_normal_form (value : option string) (name : string) :
  Validators.validate_username value = Validators.Valid name ->
  Validators.validate_username (Some name) = Validators.Valid name
  /\ Validators.User_save_username name = name.
Proof.
  intros Hvalid.
  destruct (validate_username_spec value) as (Haccept & _).
  apply Haccept in Hvalid. destruct Hvalid as (Hname & Hfree & Hrules).
  rewrite <- Hname in Hfree, Hrules.
  pose proof (username_normal name Hrules) as Hnormal.
  split.
  - destruct (validate_username_spec (Some name)) as (Haccept' & _).
    apply Haccept'.
    change (Validators.or_empty (Some name)) with name.
    rewrite Hnormal. auto.
  - unfold Validators.User_save_username. destruct name; [reflexivity|exact Hnormal].
Qed.

End ValidateUsername.

Lemma validate_username_normal_form_witness :
  Validators.validate_username (Some "ama.ghana_1") = Validators.Valid "ama.ghana_1"
  /\ Validators.User_save_username "ama.ghana_1" = "ama.ghana_1".
Proof.
  apply (validate_username_normal_form (Some "  Ama.Ghana_1 ") "ama.ghana_1").
  vm_compute. reflexivity.
Defined.

Section PhonePattern.

Lemma seq_matches (r1 r2 : Re.t) (pos : nat) (s : string) (k : nat -> string -> bool) :
  Re.matches (Re.Seq r1 r2) pos s k
  = Re.matches r1 pos s (fun pos' s' => Re.matches r2 pos' s' k).
Proof. reflexivity. Qed.

Lemma alt_matches (r1 r2 : Re.t) (pos : nat) (s : string) (k : nat -> string -> bool) :
  Re.matches (Re.Alt r1 r2) pos s k = Re.matches r1 pos s k || Re.matches r2 pos s k.
Proof. reflexivity. Qed.

Lemma repeat_matches (lo hi : nat) (r : Re.t) (pos : nat) (s : string)
    (k : nat -> string -> bool) :
  Re.matches (Re.Repeat lo hi r) pos s k
  = Re.repeat_matcher (Re.matches r) lo hi pos s k.
Proof. reflexivity. Qed.

Lemma chars_matches (cls : ascii -> bool) (pos : nat) (s : string)
    (k : nat -> string -> bool) :
  Re.matches (Re.Chars cls) pos s k = true
  <-> exists c rest, s = String c rest /\ cls c = true /\ k (S pos) rest = true.
Proof.
  cbn [Re.matches]. destruct s as [|c rest].
  - split; [discriminate|]. intros (c & rest & H & _). discriminate.
  - rewrite andb_true_iff. split.
    + intros (Hc & Hk). now exists c, rest.
    + intros (c' & rest' & Heq & Hc & Hk). inversion Heq. subst. auto.
Qed.

Lemma lit_matches (a : ascii) (pos : nat) (s : string) (k : nat -> string -> bool) :
  Re.matches (Validators.lit a) pos s k = true
  <-> exists rest, s = String a rest /\ k (S pos) rest = true.
Proof.
  unfold Validators.lit. rewrite chars_matches. split.
  - intros (c & rest & -> & Hc & Hk). apply Ascii.eqb_eq in Hc. subst c.
    now exists rest.
  - intros (rest & -> & Hk). exists a, rest. repeat split; auto.
    apply Ascii.eqb_refl.
Qed.

Lemma repeat_chars_spec (cls : ascii -> bool) (n : nat) :
  forall (pos : nat) (s : string) (k : nat -> string -> bool),
    Re.repeat_matcher (Re.matches (Re.Chars cls)) n n pos s k = true
    <-> exists mid rest,
          s = mid ++ rest
          /\ String.length mid = n
          /\ Rules.all_chars cls mid = true
          /\ k (pos + n)%nat rest = true.
Proof.
  induction n as [|n IH]; intros pos s k.
  - simpl. rewrite Nat.add_0_r. split.
    + intros Hk. now exists EmptyString, s.
    + intros (mid & rest & -> & Hlen & _ & Hk). now destruct mid.
  - cbn [Re.repeat_matcher Nat.pred]. rewrite orb_false_r, chars_matches. split.
    + intros (c & s' & -> & Hc & Hrest). apply IH in Hrest.
      destruct Hrest as (mid & rest & -> & Hlen & Hall & Hk).
      exists (String c mid), rest. simpl. rewrite Hc, Hall, Hlen.
      repeat split. now rewrite <- Nat.add_succ_comm.
    + intros (mid & rest & -> & Hlen & Hall & Hk).
      destruct mid as [|c mid]; [discriminate|].
      simpl in Hlen, Hall. apply andb_true_iff in Hall. destruct Hall as (Hc & Hall).
      exists c, (mid ++ rest). repeat split; [exact Hc|].
      apply IH. exists mid, rest. repeat split; [lia|exact Hall|].
      now rewrite Nat.add_succ_comm.
Qed.

(** After the prefix: 2 or 5, a digit, seven digits, the end. *)
Lemma phone_tail_matches (pos : nat) (s : string) :
  Re.matches
    (Re.Seq
       (Re.Alt (Re.Seq (Validators.lit "2") (Re.Chars Validators.digit))
               (Re.Seq (Validators.lit "5") (Re.Chars Validators.digit)))
       (Re.Seq (Re.Repeat 7 7 (Re.Chars Validators.digit)) Re.Eol))
    pos s (fun _ _ => true) = true
  <-> exists d rest tail,
        s = String d (rest ++ tail)
        /\ (d = "2"%char \/ d = "5"%char)
        /\ String.length rest = 8%nat
        /\ Rules.all_chars Validators.digit rest = true
        /\ (tail = EmptyString \/ tail = String "010" EmptyString).
Proof.
  rewrite seq_matches, alt_matches, orb_true_iff, !seq_matches, !lit_matches.
  split.
  - intros [H|H]; destruct H as (s1 & -> & H); cbv beta in H;
      apply chars_matches in H; destruct H as (d2 & s2 & -> & Hd2 & H);
      cbv beta in H; rewrite seq_matches, repeat_matches in H;
      apply repeat_chars_spec in H; destruct H as (mid & tail & -> & Hlen & Hall & H);
      cbv beta in H; apply eol_matches in H.
    + exists "2"%char, (String d2 mid), tail. simpl. rewrite Hd2, Hall, Hlen. auto 10.
    + exists "5"%char, (String d2 mid), tail. simpl. rewrite Hd2, Hall, Hlen. auto 10.
  - intros (d & rest & tail & -> & Hd & Hlen & Hall & Htail).
    destruct rest as [|d2 mid]; [discriminate|].
    simpl in Hlen, Hall. apply andb_true_iff in Hall. destruct Hall as (Hd2 & Hall).
    assert (Hrest : Re.matches (Re.Chars Validators.digit) (S pos)
                      (String d2 (mid ++ tail))
                      (fun pos' s' =>
                         Re.matches (Re.Seq (Re.Repeat 7 7 (Re.Chars Validators.digit))
                                       Re.Eol) pos' s' (fun _ _ => true)) = true).
    { apply chars_matches. exists d2, (mid ++ tail). repeat split; [exact Hd2|].
      rewrite seq_matches, repeat_matches. apply repeat_chars_spec.
      exists mid, tail. repeat split; [lia|exact Hall|].
      apply eol_matches. exact Htail. }
    destruct Hd as [-> | ->]; [left|right];
      exists (String d2 (mid ++ tail)); split; try reflexivity; exact Hrest.
Qed.

Lemma phone_regex_matches (s : string) :
  Re.search Validators.GH_PHONE_REGEX s = true
  <-> exists prefix d rest tail,
        s = prefix ++ String d (rest ++ tail)
        /\ (prefix = "0" \/ prefix = "+233")
        /\ (d = "2"%char \/ d = "5"%char)
        /\ String.length rest = 8%nat
        /\ Rules.all_chars Validators.digit rest = true
        /\ (tail = EmptyString \/ tail = String "010" EmptyString).
Proof.
  unfold Validators.GH_PHONE_REGEX. rewrite search_bol.
  rewrite seq_matches, alt_matches, orb_true_iff. split.
  - intros [H|H].
    + apply lit_matches in H. destruct H as (s1 & -> & H). cbv beta in H.
      apply phone_tail_matches in H.
      destruct H as (d & rest & tail & -> & H). exists "0", d, rest, tail. auto.
    + rewrite seq_matches in H. apply lit_matches in H.
      destruct H as (s1 & -> & H). cbv beta in H.
      rewrite seq_matches in H. apply lit_matches in H.
      destruct H as (s2 & -> & H). cbv beta in H.
      rewrite seq_matches in H. apply lit_matches in H.
      destruct H as (s3 & -> & H). cbv beta in H.
      apply lit_matches in H. destruct H as (s4 & -> & H). cbv beta in H.
      apply phone_tail_matches in H.
      destruct H as (d & rest & tail & -> & H). exists "+233", d, rest, tail. auto.
  - intros (prefix & d & rest & tail & -> & Hprefix & Htail).
    assert (Hrest : forall pos,
              Re.matches
                (Re.Seq
                   (Re.Alt (Re.Seq (Validators.lit "2") (Re.Chars Validators.digit))
                           (Re.Seq (Validators.lit "5") (Re.Chars Validators.digit)))
                   (Re.Seq (Re.Repeat 7 7 (Re.Chars Validators.digit)) Re.Eol))
                pos (String d (rest ++ tail)) (fun _ _ => true) = true).
    { intros pos. apply phone_tail_matches. exists d, rest, tail. auto. }
    destruct Hprefix as [-> | ->]; [left|right].
    + apply lit_matches. eexists. split; [reflexivity|]. apply Hrest.
    + rewrite seq_matches. apply lit_matches. eexists. split; [reflexivity|].
      cbv beta. rewrite seq_matches. apply lit_matches. eexists.
      split; [reflexivity|].
      cbv beta. rewrite seq_matches. apply lit_matches. eexists.
      split; [reflexivity|].
      cbv beta. apply lit_matches. eexists. split; [reflexivity|]. apply Hrest.
Qed.

Lemma ghana_phone_validator_spec (value : string) :
  Validators.ghana_phone_validator value = Validators.Valid tt
  <-> Rules.ghana_phone value
      \/ exists phone, value = phone ++ String "010" EmptyString
                       /\ Rules.ghana_phone phone.
Proof.
  unfold Validators.ghana_phone_validator, Validators.RegexValidator.
  destruct (Re.search Validators.GH_PHONE_REGEX value) eqn:Hsearch.
  - split; [intros _|reflexivity].
    apply phone_regex_matches in Hsearch.
    destruct Hsearch as (prefix & d & rest & tail & -> & Hp & Hd & Hlen & Hall & [->| ->]).
    + left. exists prefix, d, rest. rewrite append_empty_r. auto.
    + right. exists (prefix ++ String d rest). split.
      * rewrite append_assoc. reflexivity.
      * exists prefix, d, rest. auto.
  - split; [discriminate|]. intros Hrules. exfalso.
    assert (Re.search Validators.GH_PHONE_REGEX value = true); [|congruence].
    apply phone_regex_matches.
    destruct Hrules as [(prefix & d & rest & -> & Hp & Hd & Hlen & Hall)
                       |(phone & -> & prefix & d & rest & -> & Hp & Hd & Hlen & Hall)].
    + exists prefix, d, rest, EmptyString. rewrite append_empty_r. auto 10.
    + exists prefix, d, rest, (String "010" EmptyString).
      rewrite append_assoc. auto 10.
Qed.

Lemma remove_spaces_snoc (t : string) (z : ascii) :
  Py.isspace z = false ->
  Validators.remove_spaces (t ++ String z EmptyString)
  = Validators.remove_spaces t ++ String z EmptyString.
Proof.
  intros Hz. induction t as [|a t IH]; simpl.
  - destruct (Ascii.eqb z " ") eqn:Hsp; [|reflexivity].
    apply Ascii.eqb_eq in Hsp. subst z. discriminate.
  - rewrite IH. now destruct (Ascii.eqb a " ").
Qed.

Lemma phone_no_newline (x phone : string) :
  Validators.remove_spaces (Py.strip x) = phone ++ String "010" EmptyString -> False.
Proof.
  unfold Py.strip. intros H.
  destruct (string_snoc (Py.rstrip (Py.lstrip x))) as [Hempty|(front & z & Hsnoc)].
  - rewrite Hempty in H. destruct phone; discriminate.
  - pose proof (rstrip_last _ _ _ Hsnoc) as Hz.
    rewrite Hsnoc, (remove_spaces_snoc _ _ Hz) in H.
    apply app_last_inj in H. destruct H as (_ & ->). discriminate.
Qed.

End PhonePattern.

Section PhoneClaims.

(** The phone pattern accepts exactly 0 or +233 followed by 2 or 5
    and eight digits, and also such a number followed by one newline. *)
Theorem ghana_phone_validator_accepts (value : string) :
  Validators.ghana_phone_validator value = Validators.Valid tt
  <-> Rules.ghana_phone value
      \/ exists phone, value = phone ++ String "010" EmptyString
                       /\ Rules.ghana_phone phone.
Proof. exact (ghana_phone_validator_spec value). Qed.

(** [validate_ghana_phone] strips the value and removes its spaces; it
    returns the result exactly when that is 0 or +233 followed by 2 or 5
    and eight digits, and raises with code "invalid_ghana_phone"
    otherwise. *)
Theorem validate_ghana_phone_accepts (value : option string) :
  let phone := Validators.remove_spaces (Py.strip (Validators.or_empty value)) in
  (forall p,
      Validators.validate_ghana_phone value = Validators.Valid p
      <-> p = phone /\ Rules.ghana_phone phone)
  /\ (Validators.validate_ghana_phone value
      = Validators.ValidationError "invalid_ghana_phone"
      <-> ~ Rules.ghana_phone phone).
Proof.
  intros phone. unfold Validators.validate_ghana_phone. fold phone.
  assert (Hpattern : Validators.ghana_phone_validator phone = Validators.Valid tt
                     <-> Rules.ghana_phone phone).
  { rewrite ghana_phone_validator_spec. split; [|now left].
    intros [H|(p & Heq & _)]; [exact H|].
    exfalso. exact (phone_no_newline _ _ Heq). }
  destruct (Validators.ghana_phone_validator phone) as [[]|code] eqn:Hv.
  - assert (Hrules : Rules.ghana_phone phone) by (now apply Hpattern).
    split.
    + intros p. split.
      * intros H. inversion H. auto.
      * intros (-> & _). reflexivity.
    + split; [discriminate|]. intros H. contradiction.
  - assert (Hcode : code = "invalid_ghana_phone").
    { unfold Validators.ghana_phone_validator, Validators.RegexValidator in Hv.
      destruct (Re.search _ _); [discriminate|]. now inversion Hv. }
    subst code.
    assert (Hrules : ~ Rules.ghana_phone phone).
    { intros H. apply Hpattern in H. discriminate. }
    split.
    + intros p. split; [discriminate|]. intros (_ & H). contradiction.
    + split; [intros _; exact Hrules|reflexivity].
Qed.

End PhoneClaims.
